(** * The wallet sync manager (BRSyncManager.c)

    A shallow embedding of the client-mode (BRD) and peer-mode (P2P) sync
    managers.  Every C function that takes the manager by pointer becomes a
    function from the manager record to the new record together with the
    sequence of callbacks it made (events to the event sink and requests to
    the client).  A failed [assert], a dereferenced NULL set and a signed
    overflow of the request id counter are the result [None].

    The wallet, the transaction codec, the chain parameters and the peer
    manager live in other files of the library; they are interfaces here
    (type classes), and every theorem holds for all their implementations. *)

From Stdlib Require Import ZArith Lia.
From stdpp Require Import base option list list_numbers sorting.
From stdpp Require Import strings pretty gmap.

Set Warnings "-clear-no-such-hyp".

Local Open Scope Z_scope.

(** ** Machine integers *)

Definition UINT32_MODULUS : Z := 2 ^ 32.
Definition UINT64_MODULUS : Z := 2 ^ 64.
Definition UINT64_MAX : Z := 2 ^ 64 - 1.
Definition INT_MAX : Z := 2 ^ 31 - 1.

(** Conversion to [uint32_t] and [uint64_t]. *)
Definition to_uint32 (z : Z) : Z := z mod UINT32_MODULUS.
Definition to_uint64 (z : Z) : Z := z mod UINT64_MODULUS.

(** [#define MAX(a,b) (((a)>(b))?(a):(b))] and its companion. *)
Definition MAX (a b : Z) : Z := if a >? b then a else b.
Definition MIN (a b : Z) : Z := if a <? b then a else b.

Definition ONE_WEEK_IN_SECONDS : Z := 7 * 24 * 60 * 60.
Definition CONFIRMATION_BLOCK_COUNT : Z := 6.
Definition BWM_MINUTES_PER_BLOCK : Z := 10.
Definition BWM_BRD_SYNC_DAYS_OFFSET : Z := 1.
Definition BWM_BRD_SYNC_START_BLOCK_OFFSET : Z :=
  (BWM_BRD_SYNC_DAYS_OFFSET * 24 * 60) / BWM_MINUTES_PER_BLOCK.

(** ** Data of the collaborators *)

(** A [BRAddress] is a NUL-terminated string in a fixed buffer; [BRAddressEq]
    compares the strings and [BR_ADDRESS_NONE] is the empty one. *)
Abbreviation BRAddress := string.
Definition BR_ADDRESS_NONE : BRAddress := EmptyString.
Definition BRAddressEq (a b : BRAddress) : bool := bool_decide (a = b).

Definition UInt256 : Type := Z.

(** The fields of [BRTransaction] that the sync manager reads and writes;
    inputs, outputs and signatures stay in [txData]. *)
Record BRTransaction : Type := mkBRTransaction {
  txHash : UInt256;
  blockHeight : Z;
  timestamp : Z;
  txData : list Byte.byte
}.

Definition tx_set_block_info (tx : BRTransaction) (ts bh : Z)
    : BRTransaction :=
  {| txHash := txHash tx;
     blockHeight := bh;
     timestamp := ts;
     txData := txData tx |}.

Record BRCheckPoint : Type := mkBRCheckPoint {
  height : Z;
  cpTimestamp : Z
}.

(** The chain parameters as the manager uses them: the two checkpoint
    queries, each of which may answer NULL. *)
Record BRChainParams : Type := mkBRChainParams {
  BRChainParamsGetCheckpointBefore : Z -> option BRCheckPoint;
  BRChainParamsGetCheckpointBeforeBlockNumber : Z -> option BRCheckPoint
}.

(** The transaction codec (BRTransaction.c), with the block height that
    marks a transaction as unconfirmed. *)
Class BRTransactionOps : Type := {
  TX_UNCONFIRMED : Z;
  BRTransactionParse : list Byte.byte -> option BRTransaction;
  BRTransactionIsSigned : BRTransaction -> bool;
  BRTransactionSerialize : BRTransaction -> list Byte.byte
}.

(** The wallet (BRWallet.c), with the two gap limits of its header.  A call
    that may derive new addresses or change the transaction book returns the
    new wallet.  [BRWalletUnusedAddrs w gap internal] answers the addresses
    it would copy into a buffer of [gap] entries. *)
Class BRWalletOps (BRWallet : Type) : Type := {
  SEQUENCE_GAP_LIMIT_EXTERNAL : Z;
  SEQUENCE_GAP_LIMIT_INTERNAL : Z;
  BRWalletUnusedAddrs : BRWallet -> Z -> bool -> BRWallet * list BRAddress;
  BRWalletAllAddrs : BRWallet -> list BRAddress;
  BRWalletAddressToLegacy : BRWallet -> BRAddress -> BRAddress;
  BRWalletTransactions : BRWallet -> list BRTransaction;
  BRWalletTransactionIsValid : BRWallet -> BRTransaction -> bool;
  BRWalletAmountSentByTx : BRWallet -> BRTransaction -> Z;
  BRWalletTransactionForHash : BRWallet -> UInt256 -> option BRTransaction;
  BRWalletUpdateTransactions : BRWallet -> list UInt256 -> Z -> Z -> BRWallet;
  BRWalletRegisterTransaction : BRWallet -> BRTransaction -> BRWallet
}.

(** ** Events and client requests *)

(** The events of the connection, the scan, the block height and the
    transactions.  (The progress event and the events that hand blocks and
    peers to the owner for saving belong to callbacks that are not embedded
    here.) *)
Inductive BRSyncManagerEvent : Type :=
| SYNC_MANAGER_CONNECTED
| SYNC_MANAGER_DISCONNECTED
| SYNC_MANAGER_SYNC_STARTED
| SYNC_MANAGER_SYNC_STOPPED (reason : Z)
| SYNC_MANAGER_BLOCK_HEIGHT_UPDATED (value : Z)
| SYNC_MANAGER_TXNS_UPDATED
| SYNC_MANAGER_TXN_SUBMITTED (transaction : BRTransaction) (error : Z).

(** One callback made by a manager: an event handed to [eventCallback], or
    one of the three [clientCallbacks]. *)
Inductive Callback : Type :=
| eventCallback (event : BRSyncManagerEvent)
| funcGetBlockNumber (rid : Z)
| funcGetTransactions (addresses : list BRAddress)
                      (begBlockNumber endBlockNumber : Z) (rid : Z)
| funcSubmitTransaction (tx : list Byte.byte) (hash : UInt256) (rid : Z).

Inductive BRSyncDepth : Type :=
| SYNC_DEPTH_LOW
| SYNC_DEPTH_MEDIUM
| SYNC_DEPTH_HIGH.

Inductive BRSyncMode : Type :=
| SYNC_MODE_BRD_ONLY
| SYNC_MODE_P2P_ONLY.

(** The request id carried by a client request; events carry none. *)
Definition callback_rid (c : Callback) : option Z :=
  match c with
  | eventCallback _ => None
  | funcGetBlockNumber rid => Some rid
  | funcGetTransactions _ _ _ rid => Some rid
  | funcSubmitTransaction _ _ rid => Some rid
  end.

Definition is_event (c : Callback) : bool :=
  match c with eventCallback _ => true | _ => false end.

(** *** Replaying the events of a callback sequence *)

(** The connection events of a callback sequence ([true] for Connected),
    its scan events ([true] for SyncStarted) and the heights of its
    BlockHeightUpdated events, each in order. *)
Definition connection_events (t : list Callback) : list bool :=
  omap (fun c =>
          match c with
          | eventCallback SYNC_MANAGER_CONNECTED => Some true
          | eventCallback SYNC_MANAGER_DISCONNECTED => Some false
          | _ => None
          end) t.

Definition sync_events (t : list Callback) : list bool :=
  omap (fun c =>
          match c with
          | eventCallback SYNC_MANAGER_SYNC_STARTED => Some true
          | eventCallback (SYNC_MANAGER_SYNC_STOPPED _) => Some false
          | _ => None
          end) t.

Definition announced_heights (t : list Callback) : list Z :=
  omap (fun c =>
          match c with
          | eventCallback (SYNC_MANAGER_BLOCK_HEIGHT_UPDATED h) => Some h
          | _ => None
          end) t.

(** [replay step s events] runs the events through [step] from the state
    [s]; it fails at the first event that [step] refuses. *)
Fixpoint replay {S E : Type} (step : S -> E -> option S) (s : S)
    (events : list E) : option S :=
  match events with
  | [] => Some s
  | e :: rest =>
      match step s e with
      | Some s' => replay step s' rest
      | None => None
      end
  end.

(** An event on a flag is accepted when it changes the flag; an announced
    height when it exceeds the height known. *)
Definition flip_step (flag : bool) (e : bool) : option bool :=
  if Bool.eqb e flag then None else Some e.

Definition climb_step (known : Z) (h : Z) : option Z :=
  if known <? h then Some h else None.

(** A Connected event is accepted unless the last connection event was a
    Connected one (or the flag was set at the start); a Disconnected event
    is always accepted. *)
Definition connect_step (connected : bool) (e : bool) : option bool :=
  if e && connected then None else Some e.

(** ** The client sync manager *)

Section ClientSyncManager.

Context {BRWallet : Type} `{BRWalletOps BRWallet} `{BRTransactionOps}.

(** [_getLastConfirmedSendTxHeight]: the loop over the wallet's transactions
    keeps the greatest block height among the valid, sending, confirmed
    transactions below [lastBlockHeight - CONFIRMATION_BLOCK_COUNT]. *)
Definition confirmed_send_step (wallet : BRWallet) (lastBlockHeight : Z)
    (scanHeight : Z) (tx : BRTransaction) : Z :=
  if BRWalletTransactionIsValid wallet tx
     && negb (BRWalletAmountSentByTx wallet tx =? 0)
     && negb (blockHeight tx =? TX_UNCONFIRMED)
     && (blockHeight tx <? lastBlockHeight - CONFIRMATION_BLOCK_COUNT)
  then (if blockHeight tx >? scanHeight then blockHeight tx else scanHeight)
  else scanHeight.

Definition _getLastConfirmedSendTxHeight (wallet : BRWallet)
    (lastBlockHeight : Z) : Z :=
  let transactions := BRWalletTransactions wallet in
  if (lastBlockHeight >=? CONFIRMATION_BLOCK_COUNT)
     && negb (Z.of_nat (length transactions) =? 0)
  then foldl (confirmed_send_step wallet lastBlockHeight) 0 transactions
  else 0.

Record BRClientSyncManagerScanStateRecord : Type := mkScanState {
  requestId : Z;
  lastExternalAddress : BRAddress;
  lastInternalAddress : BRAddress;
  knownAddresses : option (gset BRAddress);
  begBlockNumber : Z;
  endBlockNumber : Z;
  isFullScan : bool
}.

Record BRClientSyncManagerStruct : Type := mkClientSyncManager {
  wallet : BRWallet;
  chainParams : BRChainParams;
  initBlockHeight : Z;
  networkBlockHeight : Z;
  isConnected : bool;
  syncedBlockHeight : Z;
  requestIdGenerator : Z;
  scanState : BRClientSyncManagerScanStateRecord
}.

(** Assignments to the mutable fields. *)
Definition set_wallet (w : BRWallet) (m : BRClientSyncManagerStruct) :=
  mkClientSyncManager w (chainParams m) (initBlockHeight m)
    (networkBlockHeight m) (isConnected m) (syncedBlockHeight m)
    (requestIdGenerator m) (scanState m).

Definition set_networkBlockHeight (h : Z) (m : BRClientSyncManagerStruct) :=
  mkClientSyncManager (wallet m) (chainParams m) (initBlockHeight m)
    h (isConnected m) (syncedBlockHeight m)
    (requestIdGenerator m) (scanState m).

Definition set_isConnected (b : bool) (m : BRClientSyncManagerStruct) :=
  mkClientSyncManager (wallet m) (chainParams m) (initBlockHeight m)
    (networkBlockHeight m) b (syncedBlockHeight m)
    (requestIdGenerator m) (scanState m).

Definition set_syncedBlockHeight (h : Z) (m : BRClientSyncManagerStruct) :=
  mkClientSyncManager (wallet m) (chainParams m) (initBlockHeight m)
    (networkBlockHeight m) (isConnected m) h
    (requestIdGenerator m) (scanState m).

Definition set_requestIdGenerator (r : Z) (m : BRClientSyncManagerStruct) :=
  mkClientSyncManager (wallet m) (chainParams m) (initBlockHeight m)
    (networkBlockHeight m) (isConnected m) (syncedBlockHeight m)
    r (scanState m).

Definition set_scanState (s : BRClientSyncManagerScanStateRecord)
    (m : BRClientSyncManagerStruct) :=
  mkClientSyncManager (wallet m) (chainParams m) (initBlockHeight m)
    (networkBlockHeight m) (isConnected m) (syncedBlockHeight m)
    (requestIdGenerator m) s.

(** The events a function sends when a flag is set. *)
Definition event_if (flag : bool) (e : BRSyncManagerEvent) : list Callback :=
  if flag then [eventCallback e] else [].

(** *** Scan state *)

(** [BRClientSyncManagerScanStateWipe]: the record after [memset] to zero. *)
Definition BRClientSyncManagerScanStateWipe
    : BRClientSyncManagerScanStateRecord :=
  {| requestId := 0;
     lastExternalAddress := BR_ADDRESS_NONE;
     lastInternalAddress := BR_ADDRESS_NONE;
     knownAddresses := None;
     begBlockNumber := 0;
     endBlockNumber := 0;
     isFullScan := false |}.

Definition BRClientSyncManagerScanStateIsInProgress
    (s : BRClientSyncManagerScanStateRecord) : bool :=
  negb (requestId s =? 0).

Definition BRClientSyncManagerScanStateIsFullScan
    (s : BRClientSyncManagerScanStateRecord) : bool := isFullScan s.

Definition BRClientSyncManagerScanStateGetRequestId
    (s : BRClientSyncManagerScanStateRecord) : Z := requestId s.

Definition BRClientSyncManagerScanStateGetStartBlockNumber
    (s : BRClientSyncManagerScanStateRecord) : Z := begBlockNumber s.

Definition BRClientSyncManagerScanStateGetEndBlockNumber
    (s : BRClientSyncManagerScanStateRecord) : Z := endBlockNumber s.

Definition BRClientSyncManagerScanStateGetSyncedBlockNumber
    (s : BRClientSyncManagerScanStateRecord) : Z :=
  to_uint64 (endBlockNumber s - 1).

(** [_getWalletAddresses]: every wallet address followed by the legacy form
    of every wallet address. *)
Definition _getWalletAddresses (wallet : BRWallet) : list BRAddress :=
  let addrs := BRWalletAllAddrs wallet in
  addrs ++ map (BRWalletAddressToLegacy wallet) addrs.

Definition fill_step (addresses : gset BRAddress) (a : BRAddress)
    : gset BRAddress :=
  if bool_decide (a ∈ addresses) then addresses else {[a]} ∪ addresses.

Definition _fillWalletAddressSet (addresses : gset BRAddress)
    (wallet : BRWallet) : gset BRAddress :=
  foldl fill_step addresses (_getWalletAddresses wallet).

(** The accumulator is the set and the array of new addresses. *)
Definition update_step (acc : gset BRAddress * list BRAddress) (a : BRAddress)
    : gset BRAddress * list BRAddress :=
  if bool_decide (a ∈ acc.1) then acc else ({[a]} ∪ acc.1, acc.2 ++ [a]).

Definition _updateWalletAddressSet (addresses : gset BRAddress)
    (wallet : BRWallet) : gset BRAddress * list BRAddress :=
  foldl update_step (addresses, []) (_getWalletAddresses wallet).

(** What a call of [BRWalletUnusedAddrs] with a buffer of one address leaves
    in the buffer [dst]. *)
Definition store_unused_addr (dst : BRAddress) (addrs : list BRAddress)
    : BRAddress :=
  match addrs with
  | a :: _ => a
  | [] => dst
  end.

(** The two calls that derive addresses up to the gap limits, followed by
    the two that read the first unused address of each chain into [ext] and
    [int]. *)
Definition wallet_first_unused (wallet : BRWallet) (ext int : BRAddress)
    : BRWallet * BRAddress * BRAddress :=
  let w1 := (BRWalletUnusedAddrs wallet SEQUENCE_GAP_LIMIT_EXTERNAL false).1 in
  let w2 := (BRWalletUnusedAddrs w1 SEQUENCE_GAP_LIMIT_INTERNAL true).1 in
  let r3 := BRWalletUnusedAddrs w2 1 false in
  let r4 := BRWalletUnusedAddrs r3.1 1 true in
  (r4.1, store_unused_addr ext r3.2, store_unused_addr int r4.2).

Definition BRClientSyncManagerScanStateInit
    (s : BRClientSyncManagerScanStateRecord) (wallet : BRWallet)
    (syncedBlockHeight networkBlockHeight : Z) (rid : Z)
    : option (BRClientSyncManagerScanStateRecord * BRWallet) :=
  let endBlockNumber :=
    to_uint64 (MAX syncedBlockHeight networkBlockHeight + 1) in
  let begBlockNumber :=
    MIN syncedBlockHeight
        (if endBlockNumber >=? BWM_BRD_SYNC_START_BLOCK_OFFSET
         then endBlockNumber - BWM_BRD_SYNC_START_BLOCK_OFFSET
         else 0) in
  if negb (endBlockNumber >? begBlockNumber) then None else
  let '(w, ext, int) :=
    wallet_first_unused wallet (lastExternalAddress s) (lastInternalAddress s) in
  match knownAddresses s with
  | Some _ => None
  | None =>
      Some ({| requestId := rid;
               lastExternalAddress := ext;
               lastInternalAddress := int;
               knownAddresses := Some (_fillWalletAddressSet ∅ w);
               begBlockNumber := begBlockNumber;
               endBlockNumber := endBlockNumber;
               isFullScan :=
                 to_uint64 (endBlockNumber - begBlockNumber)
                   >? BWM_BRD_SYNC_START_BLOCK_OFFSET |}, w)
  end.

Definition BRClientSyncManagerScanStateGetAddresses
    (s : BRClientSyncManagerScanStateRecord) : option (list BRAddress) :=
  elements <$> knownAddresses s.

(** The result array is NULL ([None]) when the first unused addresses are
    the captured ones. *)
Definition BRClientSyncManagerScanStateAdvanceAndGetNewAddresses
    (s : BRClientSyncManagerScanStateRecord) (wallet : BRWallet)
    : option (BRClientSyncManagerScanStateRecord * BRWallet
              * option (list BRAddress)) :=
  let '(w, externalAddress, internalAddress) :=
    wallet_first_unused wallet BR_ADDRESS_NONE BR_ADDRESS_NONE in
  if negb (BRAddressEq externalAddress (lastExternalAddress s))
     || negb (BRAddressEq internalAddress (lastInternalAddress s))
  then
    known ← knownAddresses s;
    let r := _updateWalletAddressSet known w in
    Some ({| requestId := requestId s;
             lastExternalAddress := externalAddress;
             lastInternalAddress := internalAddress;
             knownAddresses := Some r.1;
             begBlockNumber := begBlockNumber s;
             endBlockNumber := endBlockNumber s;
             isFullScan := isFullScan s |}, w, Some r.2)
  else Some (s, w, None).

(** *** Construction and queries *)

Definition BRClientSyncManagerNew (params : BRChainParams) (wallet : BRWallet)
    (earliestKeyTime : Z) (blockHeight : Z)
    : option BRClientSyncManagerStruct :=
  earliestCheckPoint ←
    BRChainParamsGetCheckpointBefore params
      (to_uint32 (earliestKeyTime - ONE_WEEK_IN_SECONDS));
  let initBlockHeight := MIN (height earliestCheckPoint) blockHeight in
  Some {| wallet := wallet;
          chainParams := params;
          initBlockHeight := initBlockHeight;
          networkBlockHeight := MAX (height earliestCheckPoint) blockHeight;
          isConnected := false;
          syncedBlockHeight := initBlockHeight;
          requestIdGenerator := 0;
          scanState := BRClientSyncManagerScanStateWipe |}.

Definition BRClientSyncManagerGetBlockHeight (m : BRClientSyncManagerStruct)
    : Z :=
  networkBlockHeight m.

Definition BRClientSyncManagerIsInFullScan (m : BRClientSyncManagerStruct)
    : bool :=
  BRClientSyncManagerScanStateIsFullScan (scanState m).

(** [++manager->requestIdGenerator] on an [int]: undefined at [INT_MAX]. *)
Definition BRClientSyncManagerGenerateRid (m : BRClientSyncManagerStruct)
    : option (Z * BRClientSyncManagerStruct) :=
  if requestIdGenerator m <? INT_MAX
  then let rid := requestIdGenerator m + 1 in
       Some (rid, set_requestIdGenerator rid m)
  else None.

(** *** Requests to the client *)

Definition BRClientSyncManagerUpdateBlockNumber (m : BRClientSyncManagerStruct)
    : option (BRClientSyncManagerStruct * list Callback) :=
  let needClientCall := isConnected m in
  if needClientCall then
    '(rid, m1) ← BRClientSyncManagerGenerateRid m;
    Some (m1, [funcGetBlockNumber rid])
  else Some (m, []).

Definition BRClientSyncManagerUpdateTransactions (m : BRClientSyncManagerStruct)
    : option (BRClientSyncManagerStruct * list Callback) :=
  if negb (BRClientSyncManagerScanStateIsInProgress (scanState m))
     && isConnected m
  then
    '(newRid, m1) ← BRClientSyncManagerGenerateRid m;
    '(s, w) ← BRClientSyncManagerScanStateInit (scanState m1) (wallet m1)
                (syncedBlockHeight m1) (networkBlockHeight m1) newRid;
    let m2 := set_wallet w (set_scanState s m1) in
    addresses ← BRClientSyncManagerScanStateGetAddresses (scanState m2);
    if Z.of_nat (length addresses) =? 0 then None else
    let rid := BRClientSyncManagerScanStateGetRequestId (scanState m2) in
    let begBlockNumber :=
      BRClientSyncManagerScanStateGetStartBlockNumber (scanState m2) in
    let endBlockNumber :=
      BRClientSyncManagerScanStateGetEndBlockNumber (scanState m2) in
    let needSyncEvent := BRClientSyncManagerScanStateIsFullScan (scanState m2) in
    Some (m2, event_if needSyncEvent SYNC_MANAGER_SYNC_STARTED
              ++ [funcGetTransactions addresses begBlockNumber endBlockNumber rid])
  else Some (m, []).

(** *** Operations of the owner *)

Definition BRClientSyncManagerConnect (m : BRClientSyncManagerStruct)
    : option (BRClientSyncManagerStruct * list Callback) :=
  let needEvent := negb (isConnected m) in
  let m1 := if needEvent then set_isConnected true m else m in
  '(m2, t2) ← BRClientSyncManagerUpdateBlockNumber m1;
  '(m3, t3) ← BRClientSyncManagerUpdateTransactions m2;
  Some (m3, event_if needEvent SYNC_MANAGER_CONNECTED ++ t2 ++ t3).

Definition BRClientSyncManagerDisconnect (m : BRClientSyncManagerStruct)
    : option (BRClientSyncManagerStruct * list Callback) :=
  if isConnected m then
    let needSyncEvent := BRClientSyncManagerScanStateIsFullScan (scanState m) in
    let m1 := set_scanState BRClientSyncManagerScanStateWipe
                (set_isConnected false m) in
    Some (m1, event_if needSyncEvent (SYNC_MANAGER_SYNC_STOPPED (-1))
              ++ [eventCallback SYNC_MANAGER_DISCONNECTED])
  else Some (m, []).

(** The part of [BRClientSyncManagerScanToDepth] inside the lock. *)
Definition scan_to_depth_locked (m : BRClientSyncManagerStruct)
    (depth : BRSyncDepth) : BRClientSyncManagerStruct * list Callback :=
  if isConnected m then
    let needSyncEvent := BRClientSyncManagerScanStateIsFullScan (scanState m) in
    let m1 := set_scanState BRClientSyncManagerScanStateWipe m in
    let m2 :=
      match depth with
      | SYNC_DEPTH_LOW =>
          let scanHeight :=
            _getLastConfirmedSendTxHeight (wallet m1)
              (to_uint32 (networkBlockHeight m1)) in
          set_syncedBlockHeight
            (if scanHeight =? 0 then initBlockHeight m1 else scanHeight) m1
      | SYNC_DEPTH_MEDIUM =>
          set_syncedBlockHeight
            (match BRChainParamsGetCheckpointBeforeBlockNumber (chainParams m1)
                     (networkBlockHeight m1) with
             | None => initBlockHeight m1
             | Some checkpoint => height checkpoint
             end) m1
      | SYNC_DEPTH_HIGH => set_syncedBlockHeight (initBlockHeight m1) m1
      end in
    (m2, event_if needSyncEvent (SYNC_MANAGER_SYNC_STOPPED (-1))
         ++ [eventCallback SYNC_MANAGER_DISCONNECTED;
             eventCallback SYNC_MANAGER_CONNECTED])
  else (m, []).

Definition BRClientSyncManagerScanToDepth (m : BRClientSyncManagerStruct)
    (depth : BRSyncDepth)
    : option (BRClientSyncManagerStruct * list Callback) :=
  let '(m1, t1) := scan_to_depth_locked m depth in
  '(m2, t2) ← BRClientSyncManagerUpdateBlockNumber m1;
  '(m3, t3) ← BRClientSyncManagerUpdateTransactions m2;
  Some (m3, t1 ++ t2 ++ t3).

Definition BRClientSyncManagerScan (m : BRClientSyncManagerStruct)
    : option (BRClientSyncManagerStruct * list Callback) :=
  BRClientSyncManagerScanToDepth m SYNC_DEPTH_HIGH.

Definition BRClientSyncManagerSubmit (m : BRClientSyncManagerStruct)
    (transaction : BRTransaction)
    : option (BRClientSyncManagerStruct * list Callback) :=
  let needClientCall := isConnected m in
  if needClientCall then
    '(rid, m1) ← BRClientSyncManagerGenerateRid m;
    Some (m1, [funcSubmitTransaction (BRTransactionSerialize transaction)
                                     (txHash transaction) rid])
  else
    Some (m, [eventCallback (SYNC_MANAGER_TXN_SUBMITTED transaction (-1))]).

Definition BRClientSyncManagerTickTock (m : BRClientSyncManagerStruct)
    : option (BRClientSyncManagerStruct * list Callback) :=
  '(m1, t1) ← BRClientSyncManagerUpdateBlockNumber m;
  '(m2, t2) ← BRClientSyncManagerUpdateTransactions m1;
  Some (m2, t1 ++ t2).

(** *** Announcements of the client *)

Definition BRClientSyncManagerAnnounceGetBlockNumber
    (m : BRClientSyncManagerStruct) (rid : Z) (blockHeight : Z)
    : BRClientSyncManagerStruct * list Callback :=
  if (blockHeight >? networkBlockHeight m) && isConnected m
  then (set_networkBlockHeight blockHeight m,
        [eventCallback (SYNC_MANAGER_BLOCK_HEIGHT_UPDATED blockHeight)])
  else (m, []).

Definition BRClientSyncManagerAnnounceSubmitTransaction
    (m : BRClientSyncManagerStruct) (rid : Z) (txn : BRTransaction) (error : Z)
    : BRClientSyncManagerStruct * list Callback :=
  let m1 :=
    if (error =? 0)
       && negb (bool_decide
                  (is_Some (BRWalletTransactionForHash (wallet m) (txHash txn))))
    then set_wallet (BRWalletRegisterTransaction (wallet m) txn) m
    else m in
  (m1, [eventCallback (SYNC_MANAGER_TXN_SUBMITTED txn error)]).

Definition BRClientSyncManagerAnnounceGetTransactionsItem
    (m : BRClientSyncManagerStruct) (rid : Z) (txn : list Byte.byte)
    (timestamp blockHeight : Z)
    : BRClientSyncManagerStruct * list Callback :=
  match BRTransactionParse txn with
  | None => (m, [])
  | Some transaction =>
      let needRegistration :=
        BRTransactionIsSigned transaction
        && ((rid =? BRClientSyncManagerScanStateGetRequestId (scanState m))
            && isConnected m) in
      if needRegistration then
        match BRWalletTransactionForHash (wallet m) (txHash transaction) with
        | Some walletTxn =>
            (set_wallet
               (BRWalletUpdateTransactions (wallet m) [txHash transaction]
                  (to_uint32 blockHeight) (to_uint32 timestamp)) m, [])
        | None =>
            (set_wallet
               (BRWalletRegisterTransaction (wallet m)
                  (tx_set_block_info transaction
                     (to_uint32 timestamp) (to_uint32 blockHeight))) m, [])
        end
      else (m, [])
  end.

Definition BRClientSyncManagerAnnounceGetTransactionsDone
    (m : BRClientSyncManagerStruct) (rid : Z) (success : Z)
    : option (BRClientSyncManagerStruct * list Callback) :=
  if (rid =? BRClientSyncManagerScanStateGetRequestId (scanState m))
     && isConnected m
  then
    if negb (success =? 0) then
      '(s, w, addresses) ←
        BRClientSyncManagerScanStateAdvanceAndGetNewAddresses
          (scanState m) (wallet m);
      let m1 := set_wallet w (set_scanState s m) in
      let addressCount :=
        match addresses with
        | Some l => Z.of_nat (length l)
        | None => 0
        end in
      if negb (addressCount =? 0) then
        let begBlockNumber :=
          BRClientSyncManagerScanStateGetStartBlockNumber (scanState m1) in
        let endBlockNumber :=
          BRClientSyncManagerScanStateGetEndBlockNumber (scanState m1) in
        Some (m1, [funcGetTransactions (default [] addresses)
                     begBlockNumber endBlockNumber rid])
      else
        let m2 :=
          set_syncedBlockHeight
            (BRClientSyncManagerScanStateGetSyncedBlockNumber (scanState m1))
            m1 in
        let needSyncEvent :=
          BRClientSyncManagerScanStateIsFullScan (scanState m2) in
        Some (set_scanState BRClientSyncManagerScanStateWipe m2,
              event_if needSyncEvent (SYNC_MANAGER_SYNC_STOPPED 0))
    else
      let needSyncEvent :=
        BRClientSyncManagerScanStateIsFullScan (scanState m) in
      Some (set_scanState BRClientSyncManagerScanStateWipe m,
            event_if needSyncEvent (SYNC_MANAGER_SYNC_STOPPED (-1)))
  else Some (m, []).

(** *** Runs of a manager *)

(** The calls that the owner and the client can make on a manager. *)
Inductive ClientOperation : Type :=
| OpConnect
| OpDisconnect
| OpScan
| OpScanToDepth (depth : BRSyncDepth)
| OpSubmit (transaction : BRTransaction)
| OpTickTock
| OpAnnounceGetBlockNumber (rid : Z) (blockHeight : Z)
| OpAnnounceGetTransactionsItem (rid : Z) (txn : list Byte.byte)
                                (timestamp blockHeight : Z)
| OpAnnounceGetTransactionsDone (rid : Z) (success : Z)
| OpAnnounceSubmitTransaction (rid : Z) (txn : BRTransaction) (error : Z).

Definition client_step (op : ClientOperation) (m : BRClientSyncManagerStruct)
    : option (BRClientSyncManagerStruct * list Callback) :=
  match op with
  | OpConnect => BRClientSyncManagerConnect m
  | OpDisconnect => BRClientSyncManagerDisconnect m
  | OpScan => BRClientSyncManagerScan m
  | OpScanToDepth depth => BRClientSyncManagerScanToDepth m depth
  | OpSubmit transaction => BRClientSyncManagerSubmit m transaction
  | OpTickTock => BRClientSyncManagerTickTock m
  | OpAnnounceGetBlockNumber rid h =>
      Some (BRClientSyncManagerAnnounceGetBlockNumber m rid h)
  | OpAnnounceGetTransactionsItem rid txn ts h =>
      Some (BRClientSyncManagerAnnounceGetTransactionsItem m rid txn ts h)
  | OpAnnounceGetTransactionsDone rid success =>
      BRClientSyncManagerAnnounceGetTransactionsDone m rid success
  | OpAnnounceSubmitTransaction rid txn error =>
      Some (BRClientSyncManagerAnnounceSubmitTransaction m rid txn error)
  end.

(** A run keeps, for every operation, the callbacks it made. *)
Fixpoint client_run (ops : list ClientOperation) (m : BRClientSyncManagerStruct)
    : option (BRClientSyncManagerStruct
              * list (ClientOperation * list Callback)) :=
  match ops with
  | [] => Some (m, [])
  | op :: ops' =>
      '(m1, t) ← client_step op m;
      '(m2, log) ← client_run ops' m1;
      Some (m2, (op, t) :: log)
  end.

(** *** Notions used in the statements *)

(** What no operation undoes: the construction-time fields stay, the
    network height and the request id counter never decrease. *)
Definition stable (m m' : BRClientSyncManagerStruct) : Prop :=
  initBlockHeight m' = initBlockHeight m
  ∧ chainParams m' = chainParams m
  ∧ networkBlockHeight m ≤ networkBlockHeight m'
  ∧ requestIdGenerator m ≤ requestIdGenerator m'.

(** The scan that starts when the manager is connected and idle: its state
    and the callbacks made. *)
Definition started_scan (m : BRClientSyncManagerStruct)
    : BRClientSyncManagerScanStateRecord :=
  let e := to_uint64 (MAX (syncedBlockHeight m) (networkBlockHeight m) + 1) in
  let b := MIN (syncedBlockHeight m)
             (if e >=? BWM_BRD_SYNC_START_BLOCK_OFFSET
              then e - BWM_BRD_SYNC_START_BLOCK_OFFSET else 0) in
  let r := wallet_first_unused (wallet m) (lastExternalAddress (scanState m))
             (lastInternalAddress (scanState m)) in
  {| requestId := requestIdGenerator m + 1;
     lastExternalAddress := r.1.2;
     lastInternalAddress := r.2;
     knownAddresses := Some (_fillWalletAddressSet ∅ r.1.1);
     begBlockNumber := b;
     endBlockNumber := e;
     isFullScan := to_uint64 (e - b) >? BWM_BRD_SYNC_START_BLOCK_OFFSET |}.

Definition started_wallet (m : BRClientSyncManagerStruct) : BRWallet :=
  (wallet_first_unused (wallet m) (lastExternalAddress (scanState m))
     (lastInternalAddress (scanState m))).1.1.

Definition started_manager (m : BRClientSyncManagerStruct)
    : BRClientSyncManagerStruct :=
  set_wallet (started_wallet m)
    (set_scanState (started_scan m)
       (set_requestIdGenerator (requestIdGenerator m + 1) m)).

Definition started_callbacks (m : BRClientSyncManagerStruct) : list Callback :=
  event_if (isFullScan (started_scan m)) SYNC_MANAGER_SYNC_STARTED
  ++ [funcGetTransactions
        (elements (_fillWalletAddressSet ∅ (started_wallet m)))
        (begBlockNumber (started_scan m)) (endBlockNumber (started_scan m))
        (requestIdGenerator m + 1)].

(** Whether the first unused addresses of the wallet, after deriving up to
    the gap limits, differ from the pair captured in the scan state. *)
Definition first_unused_changed (s : BRClientSyncManagerScanStateRecord)
    (wallet : BRWallet) : bool :=
  let r := wallet_first_unused wallet BR_ADDRESS_NONE BR_ADDRESS_NONE in
  negb (BRAddressEq r.1.2 (lastExternalAddress s))
  || negb (BRAddressEq r.2 (lastInternalAddress s)).

(** The scan state after the captured pair advanced and the set [known]
    absorbed the wallet's addresses. *)
Definition advanced_scan (s : BRClientSyncManagerScanStateRecord)
    (wallet : BRWallet) (known : gset BRAddress)
    : BRClientSyncManagerScanStateRecord :=
  let r := wallet_first_unused wallet BR_ADDRESS_NONE BR_ADDRESS_NONE in
  {| requestId := requestId s;
     lastExternalAddress := r.1.2;
     lastInternalAddress := r.2;
     knownAddresses := Some (_updateWalletAddressSet known r.1.1).1;
     begBlockNumber := begBlockNumber s;
     endBlockNumber := endBlockNumber s;
     isFullScan := isFullScan s |}.

(** The wallet's addresses and legacy forms that [known] lacks, in the
    order the manager hands them to the client. *)
Definition new_addresses (wallet : BRWallet) (known : gset BRAddress)
    : list BRAddress :=
  let r := wallet_first_unused wallet BR_ADDRESS_NONE BR_ADDRESS_NONE in
  (_updateWalletAddressSet known r.1.1).2.

(** The manager after a scan completed: the synced height recorded and the
    scan state wiped. *)
Definition completed_manager (m : BRClientSyncManagerStruct) (w : BRWallet)
    : BRClientSyncManagerStruct :=
  set_scanState BRClientSyncManagerScanStateWipe
    (set_syncedBlockHeight (to_uint64 (endBlockNumber (scanState m) - 1))
       (set_wallet w m)).

(** A transaction that [_getLastConfirmedSendTxHeight] counts: valid,
    sending, confirmed, and strictly below
    [lastBlockHeight - CONFIRMATION_BLOCK_COUNT]. *)
Definition counted_send (wallet : BRWallet) (lastBlockHeight : Z)
    (tx : BRTransaction) : Prop :=
  BRWalletTransactionIsValid wallet tx = true
  ∧ BRWalletAmountSentByTx wallet tx ≠ 0
  ∧ blockHeight tx ≠ TX_UNCONFIRMED
  ∧ CONFIRMATION_BLOCK_COUNT ≤ lastBlockHeight
  ∧ blockHeight tx < lastBlockHeight - CONFIRMATION_BLOCK_COUNT.

(** The height that [scanToDepth] at depth low resets the synced height to. *)
Definition low_depth_height (m : BRClientSyncManagerStruct) : Z :=
  let scanHeight :=
    _getLastConfirmedSendTxHeight (wallet m)
      (to_uint32 (networkBlockHeight m)) in
  if scanHeight =? 0 then initBlockHeight m else scanHeight.

(** Checkpoint heights are unsigned. *)
Definition params_wf (params : BRChainParams) : Prop :=
  (∀ t cp, BRChainParamsGetCheckpointBefore params t = Some cp → 0 ≤ height cp)
  ∧ (∀ h cp, BRChainParamsGetCheckpointBeforeBlockNumber params h = Some cp →
             0 ≤ height cp).

(** A scan state is either wiped, with request id 0, or that of a scan in
    progress: a generated id, an allocated address set and a window that is
    not empty and fits 64 bits. *)
Definition scan_wf (s : BRClientSyncManagerScanStateRecord) (generated : Z)
    : Prop :=
  (requestId s = 0 → s = BRClientSyncManagerScanStateWipe)
  ∧ (requestId s ≠ 0 →
     0 < requestId s ≤ generated
     ∧ is_Some (knownAddresses s)
     ∧ 0 ≤ begBlockNumber s < endBlockNumber s
     ∧ endBlockNumber s < UINT64_MODULUS).

(** The states a manager can be in: those every run from a constructed
    manager stays in ([client_run_wf] below). *)
Definition client_wf (m : BRClientSyncManagerStruct) : Prop :=
  0 ≤ initBlockHeight m
  ∧ 0 ≤ syncedBlockHeight m
  ∧ 0 ≤ requestIdGenerator m
  ∧ params_wf (chainParams m)
  ∧ scan_wf (scanState m) (requestIdGenerator m).

(** The request ids of a sequence of callbacks, in order. *)
Definition rids (t : list Callback) : list Z := omap callback_rid t.

(** [t] carries exactly the ids generated between [m] and [m']: the
    consecutive integers after the counter of [m] up to the counter of [m']. *)
Definition issues (m m' : BRClientSyncManagerStruct) (t : list Callback)
    : Prop :=
  requestIdGenerator m ≤ requestIdGenerator m'
  ∧ rids t = seqZ (requestIdGenerator m + 1)
               (requestIdGenerator m' - requestIdGenerator m).

Definition is_done (op : ClientOperation) : bool :=
  match op with
  | OpAnnounceGetTransactionsDone _ _ => true
  | _ => false
  end.

(** The ids handed out by every operation of a run other than
    [announceGetTransactionsDone], and all the ids the client saw. *)
Definition fresh_rids (log : list (ClientOperation * list Callback)) : list Z :=
  flat_map (fun e => if is_done e.1 then [] else rids e.2) log.

Definition all_rids (log : list (ClientOperation * list Callback)) : list Z :=
  flat_map (fun e => rids e.2) log.

(** The operations that do nothing on a manager that is not connected. *)
Definition needs_connection (op : ClientOperation) : bool :=
  match op with
  | OpConnect | OpSubmit _ | OpAnnounceSubmitTransaction _ _ _ => false
  | _ => true
  end.

(** All the callbacks of a run, in order. *)
Definition run_callbacks (log : list (ClientOperation * list Callback))
    : list Callback :=
  flat_map snd log.

(** The callbacks [t] made between [m] and [m'] account for every change of
    the connection flag, of the full-scan flag and of the network height. *)
Definition tracks (m : BRClientSyncManagerStruct) (t : list Callback)
    (m' : BRClientSyncManagerStruct) : Prop :=
  replay flip_step (isConnected m) (connection_events t)
  = Some (isConnected m')
  ∧ replay flip_step (isFullScan (scanState m)) (sync_events t)
    = Some (isFullScan (scanState m'))
  ∧ replay climb_step (networkBlockHeight m) (announced_heights t)
    = Some (networkBlockHeight m').

(** A manager that is not connected has no scan. *)
Definition idle_when_disconnected (m : BRClientSyncManagerStruct) : Prop :=
  isConnected m = false → scanState m = BRClientSyncManagerScanStateWipe.

(** The checkpoint before a block number is not above it. *)
Definition checkpoints_below (params : BRChainParams) : Prop :=
  ∀ h cp, BRChainParamsGetCheckpointBeforeBlockNumber params h = Some cp →
          height cp ≤ h.

(** The heights a manager keeps below the network height: the initial one,
    the synced one and the last block of the window of a scan in progress. *)
Definition heights_wf (m : BRClientSyncManagerStruct) : Prop :=
  checkpoints_below (chainParams m)
  ∧ initBlockHeight m ≤ networkBlockHeight m
  ∧ syncedBlockHeight m ≤ networkBlockHeight m
  ∧ (requestId (scanState m) ≠ 0 →
     endBlockNumber (scanState m) - 1 ≤ networkBlockHeight m).

(** A completion is announced under an id other than 0, the id of no
    request. *)
Definition done_rid_nonzero (op : ClientOperation) : bool :=
  match op with
  | OpAnnounceGetTransactionsDone rid _ => negb (rid =? 0)
  | _ => true
  end.

End ClientSyncManager.

(** ** The peer sync manager *)

(** [BRPeerStatus] of BRPeer.h. *)
Inductive BRPeerStatus : Type :=
| BRPeerStatusDisconnected
| BRPeerStatusConnecting
| BRPeerStatusConnected.

(** The peer manager (BRPeerManager.c), as far as the callbacks below and
    the constructor consult it. *)
Class BRPeerManagerOps (BRWallet BRMerkleBlock BRPeer BRPeerManager : Type)
    : Type := {
  BRPeerManagerNew : BRChainParams -> BRWallet -> Z -> list BRMerkleBlock ->
                     list BRPeer -> BRPeerManager;
  BRPeerManagerConnectStatus : BRPeerManager -> BRPeerStatus;
  BRPeerManagerLastBlockHeight : BRPeerManager -> Z
}.

Module Peer.
Section PeerSyncManager.

Context {BRWallet BRMerkleBlock BRPeer BRPeerManager : Type}
        `{BRPeerManagerOps BRWallet BRMerkleBlock BRPeer BRPeerManager}.

Record BRPeerSyncManagerStruct : Type := mkPeerSyncManager {
  peerManager : BRPeerManager;
  wallet : BRWallet;
  networkBlockHeight : Z;
  isConnected : bool;
  isFullScan : bool
}.

Definition BRPeerSyncManagerNew (params : BRChainParams) (wallet : BRWallet)
    (earliestKeyTime : Z) (blockHeight : Z)
    (blocks : list BRMerkleBlock) (peers : list BRPeer)
    : option BRPeerSyncManagerStruct :=
  earliestCheckPoint ←
    BRChainParamsGetCheckpointBefore params
      (to_uint32 (earliestKeyTime - ONE_WEEK_IN_SECONDS));
  Some {| peerManager :=
            BRPeerManagerNew params wallet earliestKeyTime blocks peers;
          wallet := wallet;
          networkBlockHeight := MAX (height earliestCheckPoint) blockHeight;
          isConnected := false;
          isFullScan := false |}.

Definition BRPeerSyncManagerGetBlockHeight (m : BRPeerSyncManagerStruct) : Z :=
  networkBlockHeight m.

Definition peer_is_connected (m : BRPeerSyncManagerStruct) : bool :=
  match BRPeerManagerConnectStatus (peerManager m) with
  | BRPeerStatusDisconnected => false
  | _ => true
  end.

Definition _BRPeerSyncManagerSyncStarted (m : BRPeerSyncManagerStruct)
    : BRPeerSyncManagerStruct * list Callback :=
  let needConnectionEvent := negb (isConnected m) in
  let needSyncStartedEvent := true in
  let needSyncStoppedEvent := isFullScan m in
  ({| peerManager := peerManager m;
      wallet := wallet m;
      networkBlockHeight := networkBlockHeight m;
      isConnected := if needConnectionEvent then true else isConnected m;
      isFullScan := if needSyncStartedEvent then true else isFullScan m |},
   event_if needSyncStoppedEvent (SYNC_MANAGER_SYNC_STOPPED (-1))
   ++ event_if needConnectionEvent SYNC_MANAGER_CONNECTED
   ++ event_if needSyncStartedEvent SYNC_MANAGER_SYNC_STARTED).

Definition _BRPeerSyncManagerSyncStopped (m : BRPeerSyncManagerStruct)
    (reason : Z) : BRPeerSyncManagerStruct * list Callback :=
  let isConnected' := peer_is_connected m in
  let needSyncStoppedEvent := isFullScan m in
  let needDisconnectionEvent := negb isConnected' && isConnected m in
  ({| peerManager := peerManager m;
      wallet := wallet m;
      networkBlockHeight := networkBlockHeight m;
      isConnected := if needDisconnectionEvent then false else isConnected';
      isFullScan := if needSyncStoppedEvent then false else isFullScan m |},
   event_if needSyncStoppedEvent (SYNC_MANAGER_SYNC_STOPPED reason)
   ++ event_if needDisconnectionEvent SYNC_MANAGER_DISCONNECTED).

(** The stop event is built by [{SYNC_MANAGER_SYNC_STOPPED,}]: the payload
    is not named, so its [reason] is the zero of the initialiser. *)
Definition _BRPeerSyncManagerTxStatusUpdate (m : BRPeerSyncManagerStruct)
    : BRPeerSyncManagerStruct * list Callback :=
  let isConnected' := peer_is_connected m in
  let blockHeight := BRPeerManagerLastBlockHeight (peerManager m) in
  let needSyncStoppedEvent :=
    negb isConnected' && isConnected m && isFullScan m in
  let needDisconnectionEvent := negb isConnected' && isConnected m in
  let needBlockHeightEvent := blockHeight >? networkBlockHeight m in
  ({| peerManager := peerManager m;
      wallet := wallet m;
      networkBlockHeight := MAX blockHeight (networkBlockHeight m);
      isConnected := if needDisconnectionEvent then false else isConnected m;
      isFullScan := if needSyncStoppedEvent then false else isFullScan m |},
   event_if needBlockHeightEvent (SYNC_MANAGER_BLOCK_HEIGHT_UPDATED blockHeight)
   ++ event_if needSyncStoppedEvent (SYNC_MANAGER_SYNC_STOPPED 0)
   ++ event_if needDisconnectionEvent SYNC_MANAGER_DISCONNECTED
   ++ [eventCallback SYNC_MANAGER_TXNS_UPDATED]).

End PeerSyncManager.
End Peer.

(** ** The dispatcher *)

Section SyncManager.

Context {BRWallet BRMerkleBlock BRPeer BRPeerManager : Type}
        `{BRWalletOps BRWallet} `{BRTransactionOps}
        `{BRPeerManagerOps BRWallet BRMerkleBlock BRPeer BRPeerManager}.

(** [BRSyncManager]: the [mode] of the common prefix selects the manager
    behind the pointer. *)
Inductive BRSyncManager : Type :=
| ClientSyncManager (manager : BRClientSyncManagerStruct (BRWallet := BRWallet))
| PeerSyncManager
    (manager : Peer.BRPeerSyncManagerStruct (BRWallet := BRWallet)
                 (BRPeerManager := BRPeerManager)).

Definition BRSyncManagerMode (manager : BRSyncManager) : BRSyncMode :=
  match manager with
  | ClientSyncManager _ => SYNC_MODE_BRD_ONLY
  | PeerSyncManager _ => SYNC_MODE_P2P_ONLY
  end.

Definition BRSyncManagerNewForMode (mode : BRSyncMode) (params : BRChainParams)
    (wallet : BRWallet) (earliestKeyTime : Z) (blockHeight : Z)
    (blocks : list BRMerkleBlock) (peers : list BRPeer)
    : option BRSyncManager :=
  match mode with
  | SYNC_MODE_BRD_ONLY =>
      ClientSyncManager <$>
        BRClientSyncManagerNew params wallet earliestKeyTime blockHeight
  | SYNC_MODE_P2P_ONLY =>
      PeerSyncManager <$>
        Peer.BRPeerSyncManagerNew params wallet earliestKeyTime blockHeight
          blocks peers
  end.

Definition BRSyncManagerGetBlockHeight (manager : BRSyncManager) : Z :=
  match manager with
  | ClientSyncManager m => BRClientSyncManagerGetBlockHeight m
  | PeerSyncManager p => Peer.BRPeerSyncManagerGetBlockHeight p
  end.

(** The client-only announcements are ignored in P2P mode. *)
Definition BRSyncManagerAnnounceGetBlockNumber (manager : BRSyncManager)
    (rid : Z) (blockHeight : Z) : BRSyncManager * list Callback :=
  match manager with
  | ClientSyncManager m =>
      let r := BRClientSyncManagerAnnounceGetBlockNumber m rid blockHeight in
      (ClientSyncManager r.1, r.2)
  | PeerSyncManager _ => (manager, [])
  end.

End SyncManager.

(** ** The peer manager's operations and callbacks in sequence *)

(** The calls that the peer sync manager makes on the peer manager
    (BRPeerManager.c). *)
Inductive BRPeerManagerCall : Type :=
| BRPeerManagerConnect
| BRPeerManagerDisconnect
| BRPeerManagerRescan
| BRPeerManagerRescanFromBlockNumber (blockNumber : Z)
| BRPeerManagerRescanFromLastHardcodedCheckpoint.

(** The callbacks that the peer manager makes on the peer sync manager. *)
Inductive PeerCallback : Type :=
| CbSyncStarted
| CbSyncStopped (reason : Z)
| CbTxStatusUpdate.

Section PeerSyncManagerOperations.

Context {BRWallet BRMerkleBlock BRPeer BRPeerManager : Type}
        `{BRWalletOps BRWallet} `{BRTransactionOps}
        `{BRPeerManagerOps BRWallet BRMerkleBlock BRPeer BRPeerManager}.

Definition BRPeerSyncManagerConnect
    (m : Peer.BRPeerSyncManagerStruct (BRWallet := BRWallet)
           (BRPeerManager := BRPeerManager)) : BRPeerManagerCall :=
  BRPeerManagerConnect.

Definition BRPeerSyncManagerDisconnect
    (m : Peer.BRPeerSyncManagerStruct (BRWallet := BRWallet)
           (BRPeerManager := BRPeerManager)) : BRPeerManagerCall :=
  BRPeerManagerDisconnect.

Definition BRPeerSyncManagerScanToDepth
    (m : Peer.BRPeerSyncManagerStruct (BRWallet := BRWallet)
           (BRPeerManager := BRPeerManager))
    (depth : BRSyncDepth) : BRPeerManagerCall :=
  match depth with
  | SYNC_DEPTH_LOW =>
      let scanHeight :=
        _getLastConfirmedSendTxHeight (Peer.wallet m)
          (BRPeerManagerLastBlockHeight (Peer.peerManager m)) in
      if negb (scanHeight =? 0)
      then BRPeerManagerRescanFromBlockNumber scanHeight
      else BRPeerManagerRescan
  | SYNC_DEPTH_MEDIUM => BRPeerManagerRescanFromLastHardcodedCheckpoint
  | SYNC_DEPTH_HIGH => BRPeerManagerRescan
  end.

Definition BRPeerSyncManagerScan
    (m : Peer.BRPeerSyncManagerStruct (BRWallet := BRWallet)
           (BRPeerManager := BRPeerManager)) : BRPeerManagerCall :=
  BRPeerSyncManagerScanToDepth m SYNC_DEPTH_HIGH.

(** The peer manager changes on its own threads; a callback finds it in the
    state [pm]. *)
Definition set_peerManager (pm : BRPeerManager)
    (m : Peer.BRPeerSyncManagerStruct (BRWallet := BRWallet)
           (BRPeerManager := BRPeerManager))
    : Peer.BRPeerSyncManagerStruct :=
  Peer.mkPeerSyncManager pm (Peer.wallet m) (Peer.networkBlockHeight m)
    (Peer.isConnected m) (Peer.isFullScan m).

Definition peer_step (cb : BRPeerManager * PeerCallback)
    (m : Peer.BRPeerSyncManagerStruct (BRWallet := BRWallet)
           (BRPeerManager := BRPeerManager))
    : Peer.BRPeerSyncManagerStruct * list Callback :=
  let m0 := set_peerManager cb.1 m in
  match cb.2 with
  | CbSyncStarted => Peer._BRPeerSyncManagerSyncStarted m0
  | CbSyncStopped reason => Peer._BRPeerSyncManagerSyncStopped m0 reason
  | CbTxStatusUpdate => Peer._BRPeerSyncManagerTxStatusUpdate m0
  end.

Fixpoint peer_run (cbs : list (BRPeerManager * PeerCallback))
    (m : Peer.BRPeerSyncManagerStruct (BRWallet := BRWallet)
           (BRPeerManager := BRPeerManager))
    : Peer.BRPeerSyncManagerStruct * list Callback :=
  match cbs with
  | [] => (m, [])
  | cb :: rest =>
      let r1 := peer_step cb m in
      let r2 := peer_run rest r1.1 in
      (r2.1, r1.2 ++ r2.2)
  end.

(** *** The announcements through the dispatcher *)

Inductive Announcement : Type :=
| AnnGetBlockNumber (rid : Z) (blockHeight : Z)
| AnnGetTransactionsItem (rid : Z) (txn : list Byte.byte)
                         (timestamp blockHeight : Z)
| AnnGetTransactionsDone (rid : Z) (success : Z)
| AnnSubmitTransaction (rid : Z) (txn : BRTransaction) (error : Z).

Definition announcement_op (a : Announcement) : ClientOperation :=
  match a with
  | AnnGetBlockNumber rid h => OpAnnounceGetBlockNumber rid h
  | AnnGetTransactionsItem rid txn ts h =>
      OpAnnounceGetTransactionsItem rid txn ts h
  | AnnGetTransactionsDone rid success =>
      OpAnnounceGetTransactionsDone rid success
  | AnnSubmitTransaction rid txn error =>
      OpAnnounceSubmitTransaction rid txn error
  end.

Definition BRSyncManagerAnnounceGetTransactionsItem
    (manager : BRSyncManager (BRWallet := BRWallet)
                 (BRPeerManager := BRPeerManager))
    (rid : Z) (txn : list Byte.byte) (timestamp blockHeight : Z)
    : BRSyncManager * list Callback :=
  match manager with
  | ClientSyncManager m =>
      let r := BRClientSyncManagerAnnounceGetTransactionsItem m rid txn
                 timestamp blockHeight in
      (ClientSyncManager r.1, r.2)
  | PeerSyncManager _ => (manager, [])
  end.

Definition BRSyncManagerAnnounceGetTransactionsDone
    (manager : BRSyncManager (BRWallet := BRWallet)
                 (BRPeerManager := BRPeerManager))
    (rid : Z) (success : Z) : option (BRSyncManager * list Callback) :=
  match manager with
  | ClientSyncManager m =>
      r ← BRClientSyncManagerAnnounceGetTransactionsDone m rid success;
      Some (ClientSyncManager r.1, r.2)
  | PeerSyncManager _ => Some (manager, [])
  end.

Definition BRSyncManagerAnnounceSubmitTransaction
    (manager : BRSyncManager (BRWallet := BRWallet)
                 (BRPeerManager := BRPeerManager))
    (rid : Z) (txn : BRTransaction) (error : Z)
    : BRSyncManager * list Callback :=
  match manager with
  | ClientSyncManager m =>
      let r := BRClientSyncManagerAnnounceSubmitTransaction m rid txn error in
      (ClientSyncManager r.1, r.2)
  | PeerSyncManager _ => (manager, [])
  end.

Definition sync_manager_announce (a : Announcement)
    (manager : BRSyncManager (BRWallet := BRWallet)
                 (BRPeerManager := BRPeerManager))
    : option (BRSyncManager * list Callback) :=
  match a with
  | AnnGetBlockNumber rid h =>
      Some (BRSyncManagerAnnounceGetBlockNumber manager rid h)
  | AnnGetTransactionsItem rid txn ts h =>
      Some (BRSyncManagerAnnounceGetTransactionsItem manager rid txn ts h)
  | AnnGetTransactionsDone rid success =>
      BRSyncManagerAnnounceGetTransactionsDone manager rid success
  | AnnSubmitTransaction rid txn error =>
      Some (BRSyncManagerAnnounceSubmitTransaction manager rid txn error)
  end.

Fixpoint sync_manager_announce_all (l : list Announcement)
    (manager : BRSyncManager (BRWallet := BRWallet)
                 (BRPeerManager := BRPeerManager))
    : option (BRSyncManager * list Callback) :=
  match l with
  | [] => Some (manager, [])
  | a :: rest =>
      '(manager1, t1) ← sync_manager_announce a manager;
      '(manager2, t2) ← sync_manager_announce_all rest manager1;
      Some (manager2, t1 ++ t2)
  end.

End PeerSyncManagerOperations.

(** ** The token model of the blockchain-db client (EthToken.java) *)

Module Brd.

(** org.json, as far as [EthToken] consults it: [getString] and [getInt]
    throw [JSONException] ([None]) and [optJSONObject] returns null ([None])
    where the element is not an object. *)
Class JSONOps (JSONObject JSONArray : Type) : Type := {
  getString : JSONObject -> string -> option string;
  getInt : JSONObject -> string -> option Z;
  JSONArray_length : JSONArray -> nat;
  optJSONObject : JSONArray -> nat -> option JSONObject
}.

Record EthToken : Type := mkEthToken {
  address : string;
  symbol : string;
  name : string;
  description : string;
  decimals : Z;
  defaultGasLimit : option string;
  defaultGasPrice : option string;
  rid : Z
}.

Definition getAddress (t : EthToken) : string := address t.
Definition getSymbol (t : EthToken) : string := symbol t.
Definition getName (t : EthToken) : string := name t.
Definition getDescription (t : EthToken) : string := description t.
Definition getDecimals (t : EthToken) : Z := decimals t.
Definition getRid (t : EthToken) : Z := rid t.
Definition getDefaultGasLimit (t : EthToken) : option string :=
  defaultGasLimit t.
Definition getDefaultGasPrice (t : EthToken) : option string :=
  defaultGasPrice t.

Section EthTokenModel.

Context {JSONObject JSONArray : Type} `{JSONOps JSONObject JSONArray}.

Definition asToken (json : JSONObject) (rid : Z) : option EthToken :=
  name ← getString json "name";
  symbol ← getString json "code";
  address ← getString json "contract_address";
  decimals ← getInt json "scale";
  let description := String.append "Token for " symbol in
  Some (mkEthToken address symbol name description decimals None None rid).

(** The loop of [asTokens] from index [i], with [count] elements left and
    the tokens [objs] collected so far. *)
Fixpoint asTokens_loop (json : JSONArray) (rid : Z) (i count : nat)
    (objs : list EthToken) : option (list EthToken) :=
  match count with
  | O => Some objs
  | S count' =>
      match optJSONObject json i with
      | None => None
      | Some obj =>
          match asToken obj rid with
          | None => None
          | Some token => asTokens_loop json rid (S i) count' (objs ++ [token])
          end
      end
  end.

Definition asTokens (json : JSONArray) (rid : Z) : option (list EthToken) :=
  asTokens_loop json rid 0 (JSONArray_length json) [].

End EthTokenModel.

End Brd.

(** ** The transaction receipt (BREthereumTransactionReceipt.c) *)

Module Receipt.

(** The RLP coder (BRRlpCoder.c), the Bloom filter and the log
    (BREthereumBloomFilter.c, BREthereumLog.c), as far as the receipt calls
    them.  An array of items is a list. *)
Class BRRlpOps (BRRlpItem BREthereumRlpType BREthereumBloomFilter BREthereumLog
                BREthereumAddress : Type) : Type := {
  RLP_TYPE_NETWORK : BREthereumRlpType;
  rlpEncodeListItems : list BRRlpItem -> BRRlpItem;
  rlpDecodeList : BRRlpItem -> list BRRlpItem;
  rlpEncodeItemBytes : list Byte.byte -> BRRlpItem;
  rlpDecodeItemBytes : BRRlpItem -> list Byte.byte;
  rlpEncodeItemUInt64 : Z -> Z -> BRRlpItem;
  rlpDecodeItemUInt64 : BRRlpItem -> Z -> Z;
  bloomFilterRlpEncode : BREthereumBloomFilter -> BRRlpItem;
  bloomFilterRlpDecode : BRRlpItem -> BREthereumBloomFilter;
  bloomFilterMatch : BREthereumBloomFilter -> BREthereumBloomFilter -> bool;
  logTopicGetBloomFilterAddress : BREthereumAddress -> BREthereumBloomFilter;
  logRlpEncode : BREthereumLog -> BREthereumRlpType -> BRRlpItem;
  logRlpDecode : BRRlpItem -> BREthereumRlpType -> BREthereumLog
}.

Section TransactionReceipt.

Context {BRRlpItem BREthereumRlpType BREthereumBloomFilter BREthereumLog
         BREthereumAddress : Type}
        `{BRRlpOps BRRlpItem BREthereumRlpType BREthereumBloomFilter
            BREthereumLog BREthereumAddress}.

Record BREthereumTransactionReceiptRecord : Type := mkTransactionReceipt {
  gasUsed : Z;
  logs : list BREthereumLog;
  bloomFilter : BREthereumBloomFilter;
  stateRoot : list Byte.byte
}.

Definition transactionReceiptGetGasUsed
    (receipt : BREthereumTransactionReceiptRecord) : Z :=
  gasUsed receipt.

Definition transactionReceiptGetLogsCount
    (receipt : BREthereumTransactionReceiptRecord) : nat :=
  length (logs receipt).

(** [NULL] is [None]. *)
Definition transactionReceiptGetLog
    (receipt : BREthereumTransactionReceiptRecord) (index : nat)
    : option BREthereumLog :=
  if (index <? length (logs receipt))%nat
  then logs receipt !! index
  else None.

Definition transactionReceiptGetBloomFilter
    (receipt : BREthereumTransactionReceiptRecord) : BREthereumBloomFilter :=
  bloomFilter receipt.

Definition transactionReceiptMatch
    (receipt : BREthereumTransactionReceiptRecord)
    (filter : BREthereumBloomFilter) : bool :=
  bloomFilterMatch (bloomFilter receipt) filter.

Definition transactionReceiptMatchAddress
    (receipt : BREthereumTransactionReceiptRecord)
    (address : BREthereumAddress) : bool :=
  transactionReceiptMatch receipt (logTopicGetBloomFilterAddress address).

Definition transactionReceiptLogsRlpEncode
    (log : BREthereumTransactionReceiptRecord) : BRRlpItem :=
  rlpEncodeListItems
    (map (fun l => logRlpEncode l RLP_TYPE_NETWORK) (logs log)).

Definition transactionReceiptLogsRlpDecode (item : BRRlpItem)
    : list BREthereumLog :=
  map (fun i => logRlpDecode i RLP_TYPE_NETWORK) (rlpDecodeList item).

(** [assert (4 == itemsCount)]: a failed assertion is [None]. *)
Definition transactionReceiptRlpDecode (item : BRRlpItem)
    : option BREthereumTransactionReceiptRecord :=
  match rlpDecodeList item with
  | [item0; item1; item2; item3] =>
      Some {| stateRoot := rlpDecodeItemBytes item0;
              gasUsed := rlpDecodeItemUInt64 item1 0;
              bloomFilter := bloomFilterRlpDecode item2;
              logs := transactionReceiptLogsRlpDecode item3 |}
  | _ => None
  end.

Definition transactionReceiptRlpEncode
    (receipt : BREthereumTransactionReceiptRecord) : BRRlpItem :=
  rlpEncodeListItems
    [rlpEncodeItemBytes (stateRoot receipt);
     rlpEncodeItemUInt64 (gasUsed receipt) 0;
     bloomFilterRlpEncode (bloomFilter receipt);
     transactionReceiptLogsRlpEncode receipt].

(** What the receipt needs of the coders: decoding undoes encoding, for a
    64-bit number in the case of [rlpEncodeItemUInt64]. *)
Definition coders_invert : Prop :=
  (∀ items, rlpDecodeList (rlpEncodeListItems items) = items)
  ∧ (∀ bytes, rlpDecodeItemBytes (rlpEncodeItemBytes bytes) = bytes)
  ∧ (∀ n, 0 ≤ n < UINT64_MODULUS →
          rlpDecodeItemUInt64 (rlpEncodeItemUInt64 n 0) 0 = n)
  ∧ (∀ filter, bloomFilterRlpDecode (bloomFilterRlpEncode filter) = filter)
  ∧ (∀ log, logRlpDecode (logRlpEncode log RLP_TYPE_NETWORK) RLP_TYPE_NETWORK
            = log).

End TransactionReceipt.

End Receipt.

(** ** A small wallet and codec for the examples *)

(** Modelled from the spec: the wallet collaborator (BRWallet.c is not among
    these sources).  It offers what the spec lists: enumerate all addresses,
    enumerate the unused external or internal addresses up to a gap limit,
    fetch by hash, register a transaction, update a transaction, and the
    per-transaction amount sent and validity.  The examples below run the
    managers on it; the theorems do not depend on it. *)
Record SimpleWallet : Type := mkSimpleWallet {
  externalChain : list BRAddress;
  internalChain : list BRAddress;
  usedAddresses : gset BRAddress;
  walletTransactions : list BRTransaction
}.

Definition simple_derive (internal : bool) (index : nat) : BRAddress :=
  String.append (if internal then "i" else "e") (pretty index).

(** The number of addresses at the end of a chain that no transaction used,
    counted on the reversed chain. *)
Fixpoint simple_trailing_unused (used : gset BRAddress)
    (reversed : list BRAddress) : nat :=
  match reversed with
  | [] => O
  | a :: rest =>
      if bool_decide (a ∈ used) then O
      else S (simple_trailing_unused used rest)
  end.

Definition simple_chain (w : SimpleWallet) (internal : bool) : list BRAddress :=
  if internal then internalChain w else externalChain w.

Definition simple_unused_addrs (w : SimpleWallet) (gapLimit : Z)
    (internal : bool) : SimpleWallet * list BRAddress :=
  let chain := simple_chain w internal in
  let count := length chain in
  let i := (count - simple_trailing_unused (usedAddresses w) (rev chain))%nat in
  let gap := Z.to_nat gapLimit in
  let chain' :=
    chain ++ map (simple_derive internal) (seq count (i + gap - count)) in
  (if internal
   then mkSimpleWallet (externalChain w) chain' (usedAddresses w)
          (walletTransactions w)
   else mkSimpleWallet chain' (internalChain w) (usedAddresses w)
          (walletTransactions w),
   take gap (drop i chain')).

(** The sample wire format: the first byte is the hash, the second is 1 for
    a signed transaction, the remaining bytes are the address paid. *)
Definition simple_parse (bytes : list Byte.byte) : option BRTransaction :=
  match bytes with
  | h :: _ :: _ =>
      Some {| txHash := Z.of_N (Byte.to_N h); blockHeight := 2 ^ 31 - 1;
              timestamp := 0; txData := bytes |}
  | _ => None
  end.

Definition simple_is_signed (tx : BRTransaction) : bool :=
  match txData tx with
  | _ :: Byte.x01 :: _ => true
  | _ => false
  end.

Definition simple_paid_address (tx : BRTransaction) : BRAddress :=
  String.string_of_list_byte (drop 2 (txData tx)).

#[global] Instance simple_transaction_ops : BRTransactionOps := {|
  TX_UNCONFIRMED := 2 ^ 31 - 1;
  BRTransactionParse := simple_parse;
  BRTransactionIsSigned := simple_is_signed;
  BRTransactionSerialize := txData
|}.

Definition simple_all_addrs (w : SimpleWallet) : list BRAddress :=
  externalChain w ++ internalChain w.

Definition simple_for_hash (w : SimpleWallet) (hash : UInt256)
    : option BRTransaction :=
  List.find (fun tx => txHash tx =? hash) (walletTransactions w).

Definition simple_register (w : SimpleWallet) (tx : BRTransaction)
    : SimpleWallet :=
  match simple_for_hash w (txHash tx) with
  | Some _ => w
  | None =>
      mkSimpleWallet (externalChain w) (internalChain w)
        ({[simple_paid_address tx]} ∪ usedAddresses w)
        (walletTransactions w ++ [tx])
  end.

Definition simple_update (w : SimpleWallet) (hashes : list UInt256)
    (blockHeight timestamp : Z) : SimpleWallet :=
  mkSimpleWallet (externalChain w) (internalChain w) (usedAddresses w)
    (map (fun tx =>
            if existsb (Z.eqb (txHash tx)) hashes
            then tx_set_block_info tx timestamp blockHeight
            else tx)
         (walletTransactions w)).

(** A payment to an address outside the wallet is a send of one unit. *)
Definition simple_amount_sent (w : SimpleWallet) (tx : BRTransaction) : Z :=
  if bool_decide (simple_paid_address tx ∈ simple_all_addrs w) then 0 else 1.

#[global] Instance simple_wallet_ops : BRWalletOps SimpleWallet := {|
  SEQUENCE_GAP_LIMIT_EXTERNAL := 10;
  SEQUENCE_GAP_LIMIT_INTERNAL := 5;
  BRWalletUnusedAddrs := simple_unused_addrs;
  BRWalletAllAddrs := simple_all_addrs;
  BRWalletAddressToLegacy := fun _ a => a;
  BRWalletTransactions := walletTransactions;
  BRWalletTransactionIsValid := fun _ _ => true;
  BRWalletAmountSentByTx := simple_amount_sent;
  BRWalletTransactionForHash := simple_for_hash;
  BRWalletUpdateTransactions := simple_update;
  BRWalletRegisterTransaction := simple_register
|}.

(** A chain parameter table with one checkpoint, at height 100. *)
Definition simple_params : BRChainParams := {|
  BRChainParamsGetCheckpointBefore := fun _ => Some (mkBRCheckPoint 100 0);
  BRChainParamsGetCheckpointBeforeBlockNumber :=
    fun h => if h >? 100 then Some (mkBRCheckPoint 100 0) else None
|}.

Definition simple_empty_wallet : SimpleWallet :=
  mkSimpleWallet [] [] ∅ [].

(** Modelled from the spec: the chain parameter table (BRChainParams.c is
    not among these sources), a list of trusted (height, time) anchors with
    the checkpoint before a time and the checkpoint before a block number.
    The sample table has three checkpoints. *)
Definition simple_checkpoints : list BRCheckPoint :=
  [mkBRCheckPoint 0 1231006505;
   mkBRCheckPoint 100 1499000000;
   mkBRCheckPoint 200 1499900000].

Definition simple_dated_params : BRChainParams := {|
  BRChainParamsGetCheckpointBefore :=
    fun t => last (List.filter (fun cp => cpTimestamp cp <? t)
                     simple_checkpoints);
  BRChainParamsGetCheckpointBeforeBlockNumber :=
    fun h => last (List.filter (fun cp => height cp <? h) simple_checkpoints)
|}.

(** A wallet whose external chain already holds twelve derived addresses, as
    after a P2P session that derived beyond the gap limit. *)
Definition simple_long_wallet : SimpleWallet :=
  (simple_unused_addrs simple_empty_wallet 12 false).1.

(** A peer manager seen through its two queries. *)
Record SimplePeerManager : Type := mkSimplePeerManager {
  connectStatus : BRPeerStatus;
  lastBlockHeight : Z
}.

#[global] Instance simple_peer_manager_ops
  : BRPeerManagerOps SimpleWallet unit unit SimplePeerManager := {|
  BRPeerManagerNew :=
    fun _ _ _ _ _ => mkSimplePeerManager BRPeerStatusDisconnected 0;
  BRPeerManagerConnectStatus := connectStatus;
  BRPeerManagerLastBlockHeight := lastBlockHeight
|}.

(** The manager of scenario S1 as [BRClientSyncManagerNew] builds it, the
    same manager after [connect], and after the client then announced a
    signed transaction that pays the first unused external address. *)
Definition simple_fresh
    : BRClientSyncManagerStruct (BRWallet := SimpleWallet) :=
  {| wallet := simple_empty_wallet;
     chainParams := simple_params;
     initBlockHeight := 100;
     networkBlockHeight := 244;
     isConnected := false;
     syncedBlockHeight := 100;
     requestIdGenerator := 0;
     scanState := BRClientSyncManagerScanStateWipe |}.

(** The same manager on the dated table, for a key made at time
    1500000000: the checkpoint more than a week older is the one at height
    100. *)
Definition simple_dated_fresh
    : BRClientSyncManagerStruct (BRWallet := SimpleWallet) :=
  {| wallet := simple_empty_wallet;
     chainParams := simple_dated_params;
     initBlockHeight := 100;
     networkBlockHeight := 244;
     isConnected := false;
     syncedBlockHeight := 100;
     requestIdGenerator := 0;
     scanState := BRClientSyncManagerScanStateWipe |}.

Definition simple_after (ops : list ClientOperation)
    (m : BRClientSyncManagerStruct (BRWallet := SimpleWallet))
    : BRClientSyncManagerStruct (BRWallet := SimpleWallet) :=
  match client_run ops m with
  | Some (m', _) => m'
  | None => m
  end.

Definition simple_log (ops : list ClientOperation)
    (m : BRClientSyncManagerStruct (BRWallet := SimpleWallet))
    : list (ClientOperation * list Callback) :=
  match client_run ops m with
  | Some (_, log) => log
  | None => []
  end.

Definition simple_connected
    : BRClientSyncManagerStruct (BRWallet := SimpleWallet) :=
  simple_after [OpConnect] simple_fresh.

(** Hash 7, signed, paying [e0]; and the same payload without signature. *)
Definition simple_payment : list Byte.byte :=
  [Byte.x07; Byte.x01; Byte.x65; Byte.x30].

Definition simple_unsigned_payment : list Byte.byte :=
  [Byte.x07; Byte.x00; Byte.x65; Byte.x30].

Definition simple_paid
    : BRClientSyncManagerStruct (BRWallet := SimpleWallet) :=
  simple_after [OpAnnounceGetTransactionsItem 2 simple_payment 1600000000 200]
    simple_connected.

(** The addresses that the scan of [simple_connected] knows. *)
Definition simple_known : gset BRAddress :=
  list_to_set ["e0"; "e1"; "e2"; "e3"; "e4"; "e5"; "e6"; "e7"; "e8"; "e9";
               "i0"; "i1"; "i2"; "i3"; "i4"].

(** The same three steps on the wallet with twelve external addresses. *)
Definition simple_long_fresh
    : BRClientSyncManagerStruct (BRWallet := SimpleWallet) :=
  set_wallet simple_long_wallet simple_fresh.

Definition simple_long_paid
    : BRClientSyncManagerStruct (BRWallet := SimpleWallet) :=
  simple_after
    [OpConnect; OpAnnounceGetTransactionsItem 2 simple_payment 1600000000 200]
    simple_long_fresh.

(** The manager of S1, and a manager created with block height 10 on the
    chain whose checkpoint is at height 100, both at the moment [connect]
    calls [updateTransactions]: connected, no scan in progress, one request
    id used. *)
Definition simple_s1
    : BRClientSyncManagerStruct (BRWallet := SimpleWallet) :=
  set_requestIdGenerator 1 (set_isConnected true simple_fresh).

Definition simple_young
    : BRClientSyncManagerStruct (BRWallet := SimpleWallet) :=
  {| wallet := simple_empty_wallet;
     chainParams := simple_params;
     initBlockHeight := 10;
     networkBlockHeight := 100;
     isConnected := true;
     syncedBlockHeight := 10;
     requestIdGenerator := 1;
     scanState := BRClientSyncManagerScanStateWipe |}.

(** Hash 9, signed, paying the foreign address [x]: a send. *)
Definition simple_send : list Byte.byte := [Byte.x09; Byte.x01; Byte.x78].

(** A connected manager that knows the network height 1000 and whose wallet
    holds one send, confirmed at the given height. *)
Definition simple_sender (sendHeight : Z)
    : BRClientSyncManagerStruct (BRWallet := SimpleWallet) :=
  simple_after
    [OpConnect; OpAnnounceGetBlockNumber 1 1000;
     OpAnnounceGetTransactionsItem 2 simple_send 1600000000 sendHeight]
    simple_fresh.

(** The run of scenario S2: connect, one transaction on the first unused
    external address, completion. *)
Definition simple_s2_run : list ClientOperation :=
  [OpConnect;
   OpAnnounceGetTransactionsItem 2 simple_payment 1600000000 200;
   OpAnnounceGetTransactionsDone 2 1].

(** In the words of the spec: the height of the most recent valid send
    that is confirmed and at least [CONFIRMATION_BLOCK_COUNT] blocks deep
    below the network height, 0 when there is none. *)
Definition spec_lastConfirmedSendHeight (w : SimpleWallet) (networkHeight : Z)
    : Z :=
  foldl Z.max 0
    (map blockHeight
       (filter (fun tx =>
                  BRWalletTransactionIsValid w tx = true
                  ∧ BRWalletAmountSentByTx w tx ≠ 0
                  ∧ blockHeight tx ≠ TX_UNCONFIRMED
                  ∧ CONFIRMATION_BLOCK_COUNT ≤ networkHeight - blockHeight tx)
               (BRWalletTransactions w))).

(** A peer manager record in a full scan whose peer manager reports that it
    has disconnected. *)
Definition simple_peer_scanning
    : Peer.BRPeerSyncManagerStruct (BRWallet := SimpleWallet)
        (BRPeerManager := SimplePeerManager) :=
  {| Peer.peerManager := mkSimplePeerManager BRPeerStatusDisconnected 500;
     Peer.wallet := simple_empty_wallet;
     Peer.networkBlockHeight := 500;
     Peer.isConnected := true;
     Peer.isFullScan := true |}.

(** The run of S2 carried on: the client announces the height 300, the scan
    completes at the second completion, the owner disconnects and connects
    again. *)
Definition simple_tour : list ClientOperation :=
  [OpConnect;
   OpAnnounceGetBlockNumber 1 300;
   OpAnnounceGetTransactionsItem 2 simple_payment 1600000000 200;
   OpAnnounceGetTransactionsDone 2 1;
   OpAnnounceGetTransactionsDone 2 1;
   OpDisconnect;
   OpConnect].

(** Operations that a manager ignores while it is not connected. *)
Definition simple_idle_run : list ClientOperation :=
  [OpTickTock; OpScan; OpScanToDepth SYNC_DEPTH_LOW;
   OpAnnounceGetBlockNumber 1 300;
   OpAnnounceGetTransactionsItem 0 simple_payment 1600000000 200;
   OpAnnounceGetTransactionsDone 0 1; OpDisconnect].

(** A JSON object seen through its string and integer members, and an array
    whose elements are objects or something else. *)
Record SimpleJSONObject : Type := mkSimpleJSONObject {
  stringMembers : list (string * string);
  intMembers : list (string * Z)
}.

Definition simple_member {A : Type} (members : list (string * A))
    (key : string) : option A :=
  snd <$> List.find (fun kv => String.eqb kv.1 key) members.

#[global] Instance simple_json_ops
  : Brd.JSONOps SimpleJSONObject (list (option SimpleJSONObject)) := {|
  Brd.getString := fun obj key => simple_member (stringMembers obj) key;
  Brd.getInt := fun obj key => simple_member (intMembers obj) key;
  Brd.JSONArray_length := length;
  Brd.optJSONObject := fun json i => mjoin (json !! i)
|}.

Definition simple_token_json (code : string) : SimpleJSONObject :=
  {| stringMembers := [("name", String.append code " token"); ("code", code);
                       ("contract_address", String.append "0x" code)];
     intMembers := [("scale", 18)] |}.

Definition simple_tokens_json : list (option SimpleJSONObject) :=
  [Some (simple_token_json "BRD"); Some (simple_token_json "DAI")].

(** An RLP item as a tree of byte strings and numbers, with a log and an
    address that are numbers and a Bloom filter that is a list of numbers. *)
Definition SimpleRlpItem : Type := gen_tree (list Byte.byte + Z).

Definition simple_rlp_number (item : SimpleRlpItem) : Z :=
  match item with GenLeaf (inr n) => n | _ => 0 end.

Definition simple_rlp_list (item : SimpleRlpItem) : list SimpleRlpItem :=
  match item with GenNode _ items => items | _ => [] end.

#[global] Instance simple_rlp_ops
  : Receipt.BRRlpOps SimpleRlpItem unit (list Z) Z Z := {|
  Receipt.RLP_TYPE_NETWORK := tt;
  Receipt.rlpEncodeListItems := GenNode 0;
  Receipt.rlpDecodeList := simple_rlp_list;
  Receipt.rlpEncodeItemBytes := fun bytes => GenLeaf (inl bytes);
  Receipt.rlpDecodeItemBytes :=
    fun item => match item with GenLeaf (inl bytes) => bytes | _ => [] end;
  Receipt.rlpEncodeItemUInt64 := fun n _ => GenLeaf (inr (to_uint64 n));
  Receipt.rlpDecodeItemUInt64 := fun item _ => simple_rlp_number item;
  Receipt.bloomFilterRlpEncode :=
    fun filter => GenNode 0 (map (fun n => GenLeaf (inr n)) filter);
  Receipt.bloomFilterRlpDecode :=
    fun item => map simple_rlp_number (simple_rlp_list item);
  Receipt.bloomFilterMatch :=
    fun filter other => forallb (fun n => existsb (Z.eqb n) filter) other;
  Receipt.logTopicGetBloomFilterAddress := fun address => [address];
  Receipt.logRlpEncode := fun log _ => GenLeaf (inr log);
  Receipt.logRlpDecode := fun item _ => simple_rlp_number item
|}.

Definition simple_receipt
    : Receipt.BREthereumTransactionReceiptRecord (BREthereumLog := Z)
        (BREthereumBloomFilter := list Z) :=
  {| Receipt.gasUsed := 21000;
     Receipt.logs := [7; 8];
     Receipt.bloomFilter := [7; 8];
     Receipt.stateRoot := [Byte.x01] |}.

(** ** Invariants of the client manager's operations *)

Section ClientSyncManagerFacts.

Context {BRWallet : Type} `{BRWalletOps BRWallet} `{BRTransactionOps}.

Implicit Types m : BRClientSyncManagerStruct (BRWallet := BRWallet).

#[local] Arguments wallet_first_unused : simpl never.
#[local] Arguments _getWalletAddresses : simpl never.
#[local] Arguments _fillWalletAddressSet : simpl never.
#[local] Arguments _updateWalletAddressSet : simpl never.
#[local] Arguments _getLastConfirmedSendTxHeight : simpl never.
#[local] Arguments to_uint32 : simpl never.
#[local] Arguments to_uint64 : simpl never.
#[local] Arguments MAX : simpl never.
#[local] Arguments MIN : simpl never.

Lemma some_pair {A B : Type} (r : A * B) (a : A) (b : B) :
  Some r = Some (a, b) → r.1 = a ∧ r.2 = b.
Proof. by intros [= ->]. Qed.

Lemma MAX_max a b : MAX a b = Z.max a b.
Proof. unfold MAX. destruct (a >? b) eqn:E; lia. Qed.

Lemma MIN_min a b : MIN a b = Z.min a b.
Proof. unfold MIN. destruct (a <? b) eqn:E; lia. Qed.

Lemma to_uint64_small z : 0 ≤ z < UINT64_MODULUS → to_uint64 z = z.
Proof. intros Hz. unfold to_uint64. by apply Z.mod_small. Qed.

Lemma stable_refl m : stable m m.
Proof. unfold stable. repeat split; lia. Qed.

Lemma stable_trans m1 m2 m3 : stable m1 m2 → stable m2 m3 → stable m1 m3.
Proof.
  unfold stable. intros (?&?&?&?) (?&?&?&?).
  repeat split; [congruence | congruence | lia | lia].
Qed.

Ltac stable_fields :=
  unfold stable; simpl; repeat split; try reflexivity; try lia.

Lemma GenerateRid_spec m rid m' :
  BRClientSyncManagerGenerateRid m = Some (rid, m') →
  requestIdGenerator m < INT_MAX
  ∧ rid = requestIdGenerator m + 1
  ∧ m' = set_requestIdGenerator rid m.
Proof.
  unfold BRClientSyncManagerGenerateRid.
  destruct (requestIdGenerator m <? INT_MAX) eqn:E; [|discriminate].
  intros [= <- <-]. apply Z.ltb_lt in E. auto.
Qed.

Lemma GenerateRid_ok m :
  requestIdGenerator m < INT_MAX →
  BRClientSyncManagerGenerateRid m
  = Some (requestIdGenerator m + 1,
          set_requestIdGenerator (requestIdGenerator m + 1) m).
Proof.
  intros Hlt. unfold BRClientSyncManagerGenerateRid.
  apply Z.ltb_lt in Hlt. by rewrite Hlt.
Qed.

Lemma UpdateBlockNumber_inv m m' t :
  BRClientSyncManagerUpdateBlockNumber m = Some (m', t) →
  (isConnected m = false ∧ m' = m ∧ t = [])
  ∨ (isConnected m = true
     ∧ requestIdGenerator m < INT_MAX
     ∧ m' = set_requestIdGenerator (requestIdGenerator m + 1) m
     ∧ t = [funcGetBlockNumber (requestIdGenerator m + 1)]).
Proof.
  unfold BRClientSyncManagerUpdateBlockNumber.
  destruct (isConnected m) eqn:Hc.
  - destruct (BRClientSyncManagerGenerateRid m) as [[rid m1]|] eqn:Hg;
      [|discriminate].
    apply GenerateRid_spec in Hg as (Hlt & -> & ->).
    intros [= <- <-]. right. auto.
  - intros [= <- <-]. left. auto.
Qed.

(** The scan state and wallet that a new scan starts from, and whether the
    initialisation passes its two assertions. *)
Lemma ScanStateInit_inv s wallet synced network rid s' w' :
  BRClientSyncManagerScanStateInit s wallet synced network rid = Some (s', w') →
  let e := to_uint64 (MAX synced network + 1) in
  let b := MIN synced (if e >=? BWM_BRD_SYNC_START_BLOCK_OFFSET
                       then e - BWM_BRD_SYNC_START_BLOCK_OFFSET else 0) in
  let r := wallet_first_unused wallet (lastExternalAddress s)
             (lastInternalAddress s) in
  b < e
  ∧ knownAddresses s = None
  ∧ w' = r.1.1
  ∧ s' = {| requestId := rid;
            lastExternalAddress := r.1.2;
            lastInternalAddress := r.2;
            knownAddresses := Some (_fillWalletAddressSet ∅ r.1.1);
            begBlockNumber := b;
            endBlockNumber := e;
            isFullScan := to_uint64 (e - b) >? BWM_BRD_SYNC_START_BLOCK_OFFSET |}.
Proof.
  unfold BRClientSyncManagerScanStateInit. cbv zeta.
  destruct (negb _) eqn:Hassert; [discriminate|].
  destruct (wallet_first_unused _ _ _) as [[w ext] int].
  destruct (knownAddresses s); [discriminate|].
  intros [= <- <-]. apply negb_false_iff, Z.gtb_lt in Hassert. auto.
Qed.

Lemma ScanStateInit_ok s wallet synced network rid :
  knownAddresses s = None →
  0 ≤ synced → MAX synced network < UINT64_MAX →
  ∃ s' w', BRClientSyncManagerScanStateInit s wallet synced network rid
           = Some (s', w').
Proof.
  intros Hk Hs Hmax. unfold BRClientSyncManagerScanStateInit. cbv zeta.
  assert (He : to_uint64 (MAX synced network + 1) = MAX synced network + 1).
  { unfold to_uint64, UINT64_MODULUS, UINT64_MAX, MAX in *.
    apply Z.mod_small. destruct (synced >? network) eqn:E; lia. }
  rewrite He.
  assert (Hlt : MIN synced
                  (if MAX synced network + 1 >=? BWM_BRD_SYNC_START_BLOCK_OFFSET
                   then MAX synced network + 1 - BWM_BRD_SYNC_START_BLOCK_OFFSET
                   else 0) < MAX synced network + 1).
  { unfold MIN, MAX. repeat case_match; lia. }
  apply Z.gtb_lt in Hlt. rewrite Hlt. cbn [negb].
  destruct (wallet_first_unused wallet _ _) as [[w ext] int].
  rewrite Hk. eauto.
Qed.

(** The two set-building loops in terms of set union. *)
Lemma fill_loop (l : list BRAddress) (addresses : gset BRAddress) :
  foldl fill_step addresses l = addresses ∪ list_to_set l.
Proof.
  revert addresses. induction l as [|a l IH]; intros addresses; simpl.
  - set_solver.
  - rewrite IH. unfold fill_step. case_bool_decide; set_solver.
Qed.

Lemma update_loop (l : list BRAddress) (addresses : gset BRAddress)
    (new : list BRAddress) :
  let r := foldl update_step (addresses, new) l in
  r.1 = addresses ∪ list_to_set l
  ∧ ∃ found, r.2 = new ++ found
      ∧ NoDup found
      ∧ ∀ a, a ∈ found ↔ a ∈ l ∧ a ∉ addresses.
Proof.
  revert addresses new. induction l as [|a l IH]; intros addresses new; simpl.
  - split; [set_solver|]. exists []. rewrite app_nil_r.
    split; [done|]. split; [apply NoDup_nil_2|]. set_solver.
  - unfold update_step at 2 4. simpl. case_bool_decide as Ha.
    + destruct (IH addresses new) as (Hs & found & Hf & Hnd & Hin).
      split; [rewrite Hs; set_solver|].
      exists found. split; [done|]. split; [done|].
      intros x. rewrite Hin. set_solver.
    + destruct (IH ({[a]} ∪ addresses) (new ++ [a]))
        as (Hs & found & Hf & Hnd & Hin).
      split; [rewrite Hs; set_solver|].
      exists (a :: found). rewrite Hf, <- app_assoc. simpl.
      split; [done|]. split.
      * apply NoDup_cons_2; [|done]. rewrite Hin. set_solver.
      * intros x. rewrite elem_of_cons, Hin.
        destruct (decide (x = a)) as [->|Hne]; set_solver.
Qed.

Lemma fillWalletAddressSet_nonempty (wallet : BRWallet) :
  _getWalletAddresses wallet ≠ [] →
  elements (_fillWalletAddressSet ∅ wallet) ≠ [].
Proof.
  unfold _fillWalletAddressSet. rewrite fill_loop.
  destruct (_getWalletAddresses wallet) as [|a l]; [done|].
  intros _ Hnil. apply elements_empty_inv in Hnil.
  assert (a ∈ (∅ ∪ list_to_set (a :: l) : gset BRAddress)) as Ha by set_solver.
  set_solver.
Qed.

(** *** [BRClientSyncManagerUpdateTransactions] *)

Lemma UpdateTransactions_skip m :
  isConnected m = false ∨ requestId (scanState m) ≠ 0 →
  BRClientSyncManagerUpdateTransactions m = Some (m, []).
Proof.
  intros Hc. unfold BRClientSyncManagerUpdateTransactions,
    BRClientSyncManagerScanStateIsInProgress.
  destruct Hc as [->|Hr].
  - by rewrite andb_false_r.
  - apply Z.eqb_neq in Hr. by rewrite Hr.
Qed.

Lemma UpdateTransactions_inv m m' t :
  BRClientSyncManagerUpdateTransactions m = Some (m', t) →
  (m' = m ∧ t = [])
  ∨ (isConnected m = true ∧ requestId (scanState m) = 0
     ∧ requestIdGenerator m < INT_MAX
     ∧ begBlockNumber (started_scan m) < endBlockNumber (started_scan m)
     ∧ m' = started_manager m ∧ t = started_callbacks m).
Proof.
  unfold BRClientSyncManagerUpdateTransactions,
    BRClientSyncManagerScanStateIsInProgress.
  destruct (requestId (scanState m) =? 0) eqn:Hr; simpl;
    [|intros [= <- <-]; by left].
  destruct (isConnected m) eqn:Hc; [|intros [= <- <-]; by left].
  destruct (BRClientSyncManagerGenerateRid m) as [[rid m1]|] eqn:Hg;
    [|discriminate].
  apply GenerateRid_spec in Hg as (Hlt & -> & ->). simpl.
  destruct (BRClientSyncManagerScanStateInit _ _ _ _ _) as [[s w]|] eqn:Hi;
    [|discriminate].
  apply ScanStateInit_inv in Hi as (Hbe & Hk & -> & ->). simpl.
  unfold BRClientSyncManagerScanStateGetAddresses. simpl.
  destruct (Z.of_nat _ =? 0) eqn:Hn; [discriminate|].
  intros [= <- <-]. right. apply Z.eqb_eq in Hr.
  split; [done|]. split; [done|]. split; [done|]. split; [exact Hbe|done].
Qed.

Lemma UpdateTransactions_start m :
  isConnected m = true → requestId (scanState m) = 0 →
  requestIdGenerator m < INT_MAX →
  knownAddresses (scanState m) = None →
  0 ≤ syncedBlockHeight m →
  MAX (syncedBlockHeight m) (networkBlockHeight m) < UINT64_MAX →
  _getWalletAddresses (started_wallet m) ≠ [] →
  BRClientSyncManagerUpdateTransactions m
  = Some (started_manager m, started_callbacks m).
Proof.
  intros Hc Hr Hlt Hk Hs Hmax Haddrs.
  destruct (ScanStateInit_ok (scanState m) (wallet m) (syncedBlockHeight m)
              (networkBlockHeight m) (requestIdGenerator m + 1) Hk Hs Hmax)
    as (s & w & Hi).
  pose proof Hi as Hi'. apply ScanStateInit_inv in Hi' as (_ & _ & -> & ->).
  unfold BRClientSyncManagerUpdateTransactions,
    BRClientSyncManagerScanStateIsInProgress.
  rewrite Hr, Hc, (GenerateRid_ok m Hlt). cbn. rewrite Hi. cbn.
  apply fillWalletAddressSet_nonempty in Haddrs.
  fold (started_wallet m).
  assert (Hn : (Z.of_nat (length (elements (_fillWalletAddressSet ∅
                   (started_wallet m)))) =? 0) = false).
  { apply Z.eqb_neq. destruct (elements _); [done|simpl; lia]. }
  rewrite Hn. reflexivity.
Qed.

(** *** [BRClientSyncManagerAnnounceGetTransactionsDone] *)

Lemma Done_stale m rid success :
  rid ≠ requestId (scanState m) ∨ isConnected m = false →
  BRClientSyncManagerAnnounceGetTransactionsDone m rid success = Some (m, []).
Proof.
  intros Hc. unfold BRClientSyncManagerAnnounceGetTransactionsDone,
    BRClientSyncManagerScanStateGetRequestId.
  destruct Hc as [Hr| ->].
  - apply Z.eqb_neq in Hr. by rewrite Hr.
  - by rewrite andb_false_r.
Qed.

Lemma Done_failure m rid :
  rid = requestId (scanState m) → isConnected m = true →
  BRClientSyncManagerAnnounceGetTransactionsDone m rid 0
  = Some (set_scanState BRClientSyncManagerScanStateWipe m,
          event_if (isFullScan (scanState m)) (SYNC_MANAGER_SYNC_STOPPED (-1))).
Proof.
  intros -> Hc. unfold BRClientSyncManagerAnnounceGetTransactionsDone,
    BRClientSyncManagerScanStateGetRequestId.
  by rewrite Z.eqb_refl, Hc.
Qed.

(** A successful completion, by whether new addresses were found. *)
Lemma Done_success m rid success known :
  rid = requestId (scanState m) → isConnected m = true → success ≠ 0 →
  knownAddresses (scanState m) = Some known →
  let w := (wallet_first_unused (wallet m) BR_ADDRESS_NONE BR_ADDRESS_NONE).1.1 in
  BRClientSyncManagerAnnounceGetTransactionsDone m rid success
  = if first_unused_changed (scanState m) (wallet m)
    then
      if bool_decide (new_addresses (wallet m) known = [])
      then Some (completed_manager m w,
                 event_if (isFullScan (scanState m)) (SYNC_MANAGER_SYNC_STOPPED 0))
      else Some (set_wallet w
                   (set_scanState (advanced_scan (scanState m) (wallet m) known) m),
                 [funcGetTransactions (new_addresses (wallet m) known)
                    (begBlockNumber (scanState m)) (endBlockNumber (scanState m))
                    rid])
    else Some (completed_manager m w,
               event_if (isFullScan (scanState m)) (SYNC_MANAGER_SYNC_STOPPED 0)).
Proof.
  intros -> Hc Hs Hk. cbv zeta.
  unfold BRClientSyncManagerAnnounceGetTransactionsDone,
    BRClientSyncManagerScanStateGetRequestId,
    BRClientSyncManagerScanStateAdvanceAndGetNewAddresses,
    first_unused_changed, new_addresses, advanced_scan, completed_manager.
  apply Z.eqb_neq in Hs. rewrite Z.eqb_refl, Hc, Hs. cbn [andb negb].
  destruct (wallet_first_unused (wallet m) BR_ADDRESS_NONE BR_ADDRESS_NONE)
    as [[w ext] int]. cbn [fst snd].
  destruct (negb (BRAddressEq ext _) || negb (BRAddressEq int _)) eqn:Hch.
  - rewrite Hk. cbn.
    destruct (_updateWalletAddressSet known w) as [known' new]. cbn.
    destruct new as [|a new]; cbn; [reflexivity|].
    destruct (Z.of_nat (S (length new)) =? 0) eqn:E;
      [apply Z.eqb_eq in E; lia|]. reflexivity.
  - cbn. reflexivity.
Qed.

(** *** Request ids of the callbacks *)

Lemma rids_app (t1 t2 : list Callback) : rids (t1 ++ t2) = rids t1 ++ rids t2.
Proof. apply omap_app. Qed.

Lemma rids_event_if (b : bool) (e : BRSyncManagerEvent) : rids (event_if b e) = [].
Proof. by destruct b. Qed.

Lemma issues_quiet m m' t :
  requestIdGenerator m' = requestIdGenerator m → rids t = [] → issues m m' t.
Proof.
  intros Hg Ht. unfold issues. rewrite Hg, Ht, seqZ_nil by lia. split; [lia|done].
Qed.

Lemma issues_app m m1 m2 t1 t2 :
  issues m m1 t1 → issues m1 m2 t2 → issues m m2 (t1 ++ t2).
Proof.
  unfold issues. intros [Hle1 Ht1] [Hle2 Ht2]. split; [lia|].
  rewrite rids_app, Ht1, Ht2.
  replace (requestIdGenerator m2 - requestIdGenerator m)
    with ((requestIdGenerator m1 - requestIdGenerator m)
          + (requestIdGenerator m2 - requestIdGenerator m1)) by lia.
  rewrite seqZ_app by lia. do 2 f_equal. lia.
Qed.

Lemma issues_one m rid (c : Callback) :
  rid = requestIdGenerator m + 1 → callback_rid c = Some rid →
  issues m (set_requestIdGenerator rid m) [c].
Proof.
  intros -> Hc. unfold issues, rids. simpl. rewrite Hc. split; [lia|].
  replace (requestIdGenerator m + 1 - requestIdGenerator m) with 1 by lia.
  reflexivity.
Qed.

Lemma UpdateBlockNumber_facts m m' t :
  BRClientSyncManagerUpdateBlockNumber m = Some (m', t) →
  stable m m' ∧ issues m m' t
  ∧ isConnected m' = isConnected m ∧ scanState m' = scanState m
  ∧ syncedBlockHeight m' = syncedBlockHeight m ∧ wallet m' = wallet m.
Proof.
  intros Hu. apply UpdateBlockNumber_inv in Hu
    as [(_ & -> & ->)|(_ & Hlt & -> & ->)].
  - split; [apply stable_refl|]. split; [by apply issues_quiet|done].
  - split; [stable_fields|]. split; [by apply issues_one|done].
Qed.

Lemma UpdateTransactions_facts m m' t :
  BRClientSyncManagerUpdateTransactions m = Some (m', t) →
  stable m m' ∧ issues m m' t
  ∧ isConnected m' = isConnected m
  ∧ syncedBlockHeight m' = syncedBlockHeight m.
Proof.
  intros Hu. apply UpdateTransactions_inv in Hu
    as [(-> & ->)|(_ & _ & Hlt & _ & -> & ->)].
  - split; [apply stable_refl|]. split; [by apply issues_quiet|done].
  - split; [stable_fields|]. split; [|done].
    unfold started_callbacks. rewrite <- (app_nil_l (event_if _ _ ++ _)).
    rewrite app_assoc.
    apply issues_app with (m1 := m); [by apply issues_quiet, rids_event_if|].
    unfold issues, rids. simpl. split; [lia|].
    replace (requestIdGenerator m + 1 - requestIdGenerator m) with 1 by lia.
    reflexivity.
Qed.

(** The pair of updates that ends [connect], [scanToDepth] and [tickTock]. *)
Lemma updates_facts m m1 m2 t1 t2 :
  BRClientSyncManagerUpdateBlockNumber m = Some (m1, t1) →
  BRClientSyncManagerUpdateTransactions m1 = Some (m2, t2) →
  stable m m2 ∧ issues m m2 (t1 ++ t2)
  ∧ isConnected m2 = isConnected m
  ∧ syncedBlockHeight m2 = syncedBlockHeight m.
Proof.
  intros H1 H2.
  apply UpdateBlockNumber_facts in H1 as (Hs1 & Hi1 & Hc1 & _ & Hy1 & _).
  apply UpdateTransactions_facts in H2 as (Hs2 & Hi2 & Hc2 & Hy2).
  split; [by eapply stable_trans|]. split; [by eapply issues_app|].
  split; congruence.
Qed.

Lemma scan_to_depth_locked_facts m depth :
  let r := scan_to_depth_locked m depth in
  stable m r.1 ∧ requestIdGenerator r.1 = requestIdGenerator m
  ∧ rids r.2 = [] ∧ isConnected r.1 = isConnected m.
Proof.
  unfold scan_to_depth_locked. destruct (isConnected m) eqn:Hc; cbn.
  - destruct depth; cbn; rewrite rids_app, rids_event_if;
      (split; [stable_fields|done]).
  - split; [apply stable_refl|done].
Qed.

Lemma Done_facts m rid success m' t :
  BRClientSyncManagerAnnounceGetTransactionsDone m rid success = Some (m', t) →
  stable m m' ∧ requestIdGenerator m' = requestIdGenerator m
  ∧ (rids t = [] ∨ rids t = [rid] ∧ rid = requestId (scanState m)).
Proof.
  destruct (decide (rid = requestId (scanState m))) as [Hr|Hr];
    [destruct (isConnected m) eqn:Hc|].
  - destruct (decide (success = 0)) as [->|Hs].
    + rewrite Done_failure by done. intros [= <- <-].
      split; [stable_fields|]. split; [done|]. left. apply rids_event_if.
    + destruct (knownAddresses (scanState m)) as [known|] eqn:Hk.
      * rewrite (Done_success m rid success known) by done.
        repeat case_match; intros [= <- <-];
          (split; [stable_fields|]); (split; [done|]);
          first [left; apply rids_event_if | right; done].
      * unfold BRClientSyncManagerAnnounceGetTransactionsDone,
          BRClientSyncManagerScanStateGetRequestId,
          BRClientSyncManagerScanStateAdvanceAndGetNewAddresses.
        apply Z.eqb_neq in Hs. rewrite Hr, Z.eqb_refl, Hc, Hs, Hk. cbn.
        destruct (wallet_first_unused (wallet m) BR_ADDRESS_NONE BR_ADDRESS_NONE)
          as [[w ext] int].
        case_match; cbn; [discriminate|].
        intros [= <- <-]. split; [stable_fields|]. split; [done|].
        left. apply rids_event_if.
  - rewrite Done_stale by auto. intros [= <- <-].
    split; [apply stable_refl|]. auto.
  - rewrite Done_stale by auto. intros [= <- <-].
    split; [apply stable_refl|]. auto.
Qed.

(** *** Every operation *)

Lemma Connect_facts m m' t :
  BRClientSyncManagerConnect m = Some (m', t) → stable m m' ∧ issues m m' t.
Proof.
  unfold BRClientSyncManagerConnect. cbv zeta.
  set (m1 := if negb (isConnected m) then set_isConnected true m else m).
  assert (stable m m1 ∧ requestIdGenerator m1 = requestIdGenerator m)
    as [Hs1 Hg1].
  { subst m1. destruct (negb (isConnected m)); split;
      first [apply stable_refl | stable_fields | done]. }
  destruct (BRClientSyncManagerUpdateBlockNumber m1) as [[m2 t2]|] eqn:H2;
    [|discriminate]. cbn.
  destruct (BRClientSyncManagerUpdateTransactions m2) as [[m3 t3]|] eqn:H3;
    [|discriminate]. cbn.
  intros [= <- <-].
  destruct (updates_facts _ _ _ _ _ H2 H3) as (Hs & Hi & _ & _).
  split; [by eapply stable_trans|].
  apply issues_app with (m1 := m1); [|done].
  apply issues_quiet; [done|apply rids_event_if].
Qed.

Lemma Disconnect_facts m m' t :
  BRClientSyncManagerDisconnect m = Some (m', t) → stable m m' ∧ issues m m' t.
Proof.
  unfold BRClientSyncManagerDisconnect.
  destruct (isConnected m); intros [= <- <-].
  - split; [stable_fields|]. apply issues_quiet; [done|].
    by rewrite rids_app, rids_event_if.
  - split; [apply stable_refl|by apply issues_quiet].
Qed.

Lemma ScanToDepth_facts m depth m' t :
  BRClientSyncManagerScanToDepth m depth = Some (m', t) →
  stable m m' ∧ issues m m' t
  ∧ syncedBlockHeight m' = syncedBlockHeight (scan_to_depth_locked m depth).1.
Proof.
  unfold BRClientSyncManagerScanToDepth.
  pose proof (scan_to_depth_locked_facts m depth) as (Hs1 & Hg1 & Hr1 & _).
  destruct (scan_to_depth_locked m depth) as [m1 t1]. cbn in *.
  destruct (BRClientSyncManagerUpdateBlockNumber m1) as [[m2 t2]|] eqn:H2;
    [|discriminate]. cbn.
  destruct (BRClientSyncManagerUpdateTransactions m2) as [[m3 t3]|] eqn:H3;
    [|discriminate]. cbn.
  intros [= <- <-].
  destruct (updates_facts _ _ _ _ _ H2 H3) as (Hs & Hi & _ & Hy).
  split; [by eapply stable_trans|]. split; [|done].
  apply issues_app with (m1 := m1); [by apply issues_quiet|done].
Qed.

Lemma Submit_facts m transaction m' t :
  BRClientSyncManagerSubmit m transaction = Some (m', t) →
  stable m m' ∧ issues m m' t.
Proof.
  unfold BRClientSyncManagerSubmit. destruct (isConnected m).
  - destruct (BRClientSyncManagerGenerateRid m) as [[rid m1]|] eqn:Hg;
      [|discriminate].
    apply GenerateRid_spec in Hg as (Hlt & -> & ->). intros [= <- <-].
    split; [stable_fields|by apply issues_one].
  - intros [= <- <-]. split; [apply stable_refl|by apply issues_quiet].
Qed.

Lemma TickTock_facts m m' t :
  BRClientSyncManagerTickTock m = Some (m', t) → stable m m' ∧ issues m m' t.
Proof.
  unfold BRClientSyncManagerTickTock.
  destruct (BRClientSyncManagerUpdateBlockNumber m) as [[m1 t1]|] eqn:H1;
    [|discriminate]. cbn.
  destruct (BRClientSyncManagerUpdateTransactions m1) as [[m2 t2]|] eqn:H2;
    [|discriminate]. cbn.
  intros [= <- <-].
  destruct (updates_facts _ _ _ _ _ H1 H2) as (Hs & Hi & _ & _). done.
Qed.

Lemma AnnounceGetBlockNumber_facts m rid h :
  let r := BRClientSyncManagerAnnounceGetBlockNumber m rid h in
  stable m r.1 ∧ issues m r.1 r.2.
Proof.
  unfold BRClientSyncManagerAnnounceGetBlockNumber.
  destruct (h >? networkBlockHeight m) eqn:Hh; cbn;
    [destruct (isConnected m); cbn|].
  - apply Z.gtb_lt in Hh. split; [stable_fields|by apply issues_quiet].
  - split; [apply stable_refl|by apply issues_quiet].
  - split; [apply stable_refl|by apply issues_quiet].
Qed.

Lemma AnnounceSubmitTransaction_facts m rid txn error :
  let r := BRClientSyncManagerAnnounceSubmitTransaction m rid txn error in
  stable m r.1 ∧ issues m r.1 r.2.
Proof.
  unfold BRClientSyncManagerAnnounceSubmitTransaction. cbn.
  case_match; (split; [stable_fields|by apply issues_quiet]).
Qed.

Lemma AnnounceGetTransactionsItem_facts m rid txn ts h :
  let r := BRClientSyncManagerAnnounceGetTransactionsItem m rid txn ts h in
  stable m r.1 ∧ issues m r.1 r.2.
Proof.
  unfold BRClientSyncManagerAnnounceGetTransactionsItem. cbv zeta.
  repeat case_match; cbn;
    (split; [first [apply stable_refl | stable_fields]|by apply issues_quiet]).
Qed.

Lemma client_step_stable op m m' t :
  client_step op m = Some (m', t) → stable m m'.
Proof.
  destruct op as [| | |depth|transaction| |rid blockHeight0
                  |rid txn timestamp0 blockHeight0|rid success|rid txn error];
    unfold client_step; intros Hstep.
  - by apply Connect_facts in Hstep as [? _].
  - by apply Disconnect_facts in Hstep as [? _].
  - by apply ScanToDepth_facts in Hstep as [? _].
  - by apply ScanToDepth_facts in Hstep as [? _].
  - by apply Submit_facts in Hstep as [? _].
  - by apply TickTock_facts in Hstep as [? _].
  - apply some_pair in Hstep as [<- <-]. apply AnnounceGetBlockNumber_facts.
  - apply some_pair in Hstep as [<- <-].
    apply AnnounceGetTransactionsItem_facts.
  - by apply Done_facts in Hstep as [? _].
  - apply some_pair in Hstep as [<- <-].
    apply AnnounceSubmitTransaction_facts.
Qed.

Lemma client_step_issues op m m' t :
  client_step op m = Some (m', t) → is_done op = false → issues m m' t.
Proof.
  destruct op as [| | |depth|transaction| |rid blockHeight0
                  |rid txn timestamp0 blockHeight0|rid success|rid txn error];
    unfold client_step, is_done; intros Hstep Hd; try discriminate.
  - by apply Connect_facts in Hstep as [_ ?].
  - by apply Disconnect_facts in Hstep as [_ ?].
  - by apply ScanToDepth_facts in Hstep as (_ & ? & _).
  - by apply ScanToDepth_facts in Hstep as (_ & ? & _).
  - by apply Submit_facts in Hstep as [_ ?].
  - by apply TickTock_facts in Hstep as [_ ?].
  - apply some_pair in Hstep as [<- <-]. apply AnnounceGetBlockNumber_facts.
  - apply some_pair in Hstep as [<- <-].
    apply AnnounceGetTransactionsItem_facts.
  - apply some_pair in Hstep as [<- <-].
    apply AnnounceSubmitTransaction_facts.
Qed.

Lemma client_run_stable ops m m' log :
  client_run ops m = Some (m', log) → stable m m'.
Proof.
  revert m m' log. induction ops as [|op ops IH]; intros m m' log; cbn.
  - intros [= <- <-]. apply stable_refl.
  - destruct (client_step op m) as [[m1 t]|] eqn:Hstep; [|discriminate]. cbn.
    destruct (client_run ops m1) as [[m2 log']|] eqn:Hrun; [|discriminate]. cbn.
    intros [= <- <-]. eapply stable_trans; [by eapply client_step_stable|].
    by eapply IH.
Qed.

(** *** The height of the last confirmed send *)

Lemma confirmed_send_step_counted wallet lastBlockHeight scanHeight tx :
  CONFIRMATION_BLOCK_COUNT ≤ lastBlockHeight →
  let r := confirmed_send_step wallet lastBlockHeight scanHeight tx in
  scanHeight ≤ r
  ∧ (counted_send wallet lastBlockHeight tx → blockHeight tx ≤ r)
  ∧ (r = scanHeight
     ∨ counted_send wallet lastBlockHeight tx ∧ r = blockHeight tx).
Proof.
  intros HL. cbv zeta. unfold confirmed_send_step, counted_send.
  destruct (BRWalletTransactionIsValid wallet tx); cbn [andb];
    [|split; [lia|]; split; [intros (?&_); done|by left]].
  destruct (BRWalletAmountSentByTx wallet tx =? 0) eqn:Hs; cbn [andb negb];
    [apply Z.eqb_eq in Hs; split; [lia|]; split; [intros (_&?&_); done|by left]|].
  destruct (blockHeight tx =? TX_UNCONFIRMED) eqn:Hu; cbn [andb negb];
    [apply Z.eqb_eq in Hu; split; [lia|]; split;
       [intros (_&_&?&_); done|by left]|].
  apply Z.eqb_neq in Hs, Hu.
  destruct (blockHeight tx <? lastBlockHeight - CONFIRMATION_BLOCK_COUNT) eqn:Hd;
    [apply Z.ltb_lt in Hd|apply Z.ltb_ge in Hd].
  - destruct (blockHeight tx >? scanHeight) eqn:Hg;
      [apply Z.gtb_lt in Hg|rewrite Z.gtb_ltb in Hg; apply Z.ltb_ge in Hg].
    + split; [lia|]. split; [lia|]. right. done.
    + split; [lia|]. split; [lia|]. by left.
  - split; [lia|]. split; [intros (_&_&_&_&?); lia|by left].
Qed.

Lemma confirmed_send_loop wallet lastBlockHeight txs scanHeight :
  CONFIRMATION_BLOCK_COUNT ≤ lastBlockHeight →
  let r := foldl (confirmed_send_step wallet lastBlockHeight) scanHeight txs in
  scanHeight ≤ r
  ∧ (∀ tx, tx ∈ txs → counted_send wallet lastBlockHeight tx → blockHeight tx ≤ r)
  ∧ (r = scanHeight
     ∨ ∃ tx, tx ∈ txs ∧ counted_send wallet lastBlockHeight tx
             ∧ r = blockHeight tx).
Proof.
  intros HL. revert scanHeight.
  induction txs as [|tx txs IH]; intros scanHeight; cbn.
  - split; [lia|]. split; [set_solver|by left].
  - destruct (confirmed_send_step_counted wallet lastBlockHeight scanHeight tx HL)
      as (Hle & Hub & Hwit).
    destruct (IH (confirmed_send_step wallet lastBlockHeight scanHeight tx))
      as (Hle' & Hub' & Hwit').
    split; [lia|]. split.
    + intros tx' Hin Hc. apply elem_of_cons in Hin as [->|Hin];
        [specialize (Hub Hc); lia|by apply Hub'].
    + destruct Hwit' as [Heq|(tx' & Hin & Hc & Heq)].
      * destruct Hwit as [Heq'|[Hc Heq']].
        -- left. congruence.
        -- right. exists tx. split; [set_solver|]. split; [done|congruence].
      * right. exists tx'. split; [set_solver|done].
Qed.

(** The result is the greatest height of a counted transaction, and 0 when
    there is none. *)
Lemma getLastConfirmedSendTxHeight_greatest wallet lastBlockHeight :
  let h := _getLastConfirmedSendTxHeight wallet lastBlockHeight in
  0 ≤ h
  ∧ (∀ tx, tx ∈ BRWalletTransactions wallet →
           counted_send wallet lastBlockHeight tx → blockHeight tx ≤ h)
  ∧ (h = 0
     ∨ ∃ tx, tx ∈ BRWalletTransactions wallet
             ∧ counted_send wallet lastBlockHeight tx ∧ h = blockHeight tx).
Proof.
  cbv zeta. unfold _getLastConfirmedSendTxHeight. cbv zeta.
  destruct (lastBlockHeight >=? CONFIRMATION_BLOCK_COUNT) eqn:HL; cbn [andb].
  - rewrite Z.geb_leb in HL. apply Z.leb_le in HL.
    destruct (BRWalletTransactions wallet) as [|tx txs] eqn:Ht.
    + cbn. assert ((if negb (Z.of_nat 0 =? 0) then 0 else 0) = 0) as ->
        by reflexivity.
      split; [lia|]. split; [set_solver|by left].
    + destruct (Z.of_nat (length (tx :: txs)) =? 0) eqn:E;
        [apply Z.eqb_eq in E; cbn in E; lia|]. cbn [negb].
      apply (confirmed_send_loop wallet lastBlockHeight (tx :: txs) 0 HL).
  - rewrite Z.geb_leb in HL. apply Z.leb_gt in HL.
    split; [lia|]. split; [|by left].
    intros tx _ (_&_&_&HL'&_). lia.
Qed.

(** *** Well-formed states *)

Lemma to_uint64_range z : 0 ≤ to_uint64 z < UINT64_MODULUS.
Proof. unfold to_uint64. apply Z.mod_pos_bound. by vm_compute. Qed.

Lemma scan_wf_wipe generated : scan_wf BRClientSyncManagerScanStateWipe generated.
Proof. split; [done|]. intros Hr. by destruct Hr. Qed.

Lemma scan_wf_mono s g g' : g ≤ g' → scan_wf s g → scan_wf s g'.
Proof.
  intros Hg [Hidle Hbusy]. split; [done|].
  intros Hr. destruct (Hbusy Hr) as (Hrid & Hk & Hw).
  split; [lia|done].
Qed.

(** A step that leaves the heights and the scan state alone. *)
Lemma client_wf_frame m m' :
  stable m m' → syncedBlockHeight m' = syncedBlockHeight m →
  scanState m' = scanState m → client_wf m → client_wf m'.
Proof.
  intros (Hi & Hp & _ & Hg) Hy Hs (Hinit & Hsynced & Hgen & Hparams & Hscan).
  unfold client_wf. rewrite Hi, Hy, Hp, Hs.
  split; [done|]. split; [done|]. split; [lia|]. split; [done|].
  by eapply scan_wf_mono.
Qed.

(** A step that wipes the scan state and sets a synced height. *)
Lemma client_wf_wipe m m' :
  stable m m' → 0 ≤ syncedBlockHeight m' →
  scanState m' = BRClientSyncManagerScanStateWipe → client_wf m → client_wf m'.
Proof.
  intros (Hi & Hp & _ & Hg) Hy Hs (Hinit & Hsynced & Hgen & Hparams & Hscan).
  unfold client_wf. rewrite Hi, Hp, Hs.
  split; [done|]. split; [done|]. split; [lia|]. split; [done|].
  apply scan_wf_wipe.
Qed.

Lemma UpdateBlockNumber_wf m m' t :
  BRClientSyncManagerUpdateBlockNumber m = Some (m', t) →
  client_wf m → client_wf m'.
Proof.
  intros Hu. apply UpdateBlockNumber_facts in Hu as (Hs & _ & _ & Hscan & Hy & _).
  by apply client_wf_frame.
Qed.

Lemma UpdateTransactions_wf m m' t :
  BRClientSyncManagerUpdateTransactions m = Some (m', t) →
  client_wf m → client_wf m'.
Proof.
  intros Hu Hwf. apply UpdateTransactions_inv in Hu
    as [(-> & _)|(_ & _ & Hlt & Hwin & -> & _)]; [done|].
  destruct Hwf as (Hinit & Hsynced & Hgen & Hparams & Hscan).
  unfold client_wf. cbn.
  split; [done|]. split; [done|]. split; [lia|]. split; [done|].
  unfold scan_wf, started_scan in *. cbn in *.
  split; [intros Hz; lia|]. intros _. split; [lia|]. split; [by eexists|].
  pose proof (to_uint64_range
                (MAX (syncedBlockHeight m) (networkBlockHeight m) + 1)) as He.
  split; [|lia]. split; [|lia].
  unfold MIN. change BWM_BRD_SYNC_START_BLOCK_OFFSET with 144.
  repeat case_match; lia.
Qed.

Lemma Done_wf m rid success m' t :
  BRClientSyncManagerAnnounceGetTransactionsDone m rid success = Some (m', t) →
  client_wf m → client_wf m'.
Proof.
  intros Hdone Hwf. pose proof Hdone as Hfacts.
  apply Done_facts in Hfacts as (Hstable & _ & _). revert Hdone.
  destruct (decide (rid = requestId (scanState m))) as [Hr|Hr];
    [destruct (isConnected m) eqn:Hc|].
  - destruct (decide (success = 0)) as [->|Hs].
    + rewrite Done_failure by done. intros [= <- <-].
      apply (client_wf_wipe m); [done| |done|done]. by destruct Hwf as (_&?&_).
    + destruct (knownAddresses (scanState m)) as [known|] eqn:Hk.
      * rewrite (Done_success m rid success known) by done.
        assert (Hcomplete :
                  ∀ w, stable m (completed_manager m w) →
                       client_wf (completed_manager m w)).
        { intros w Hst. apply (client_wf_wipe m); [done| |done|done].
          apply to_uint64_range. }
        destruct (first_unused_changed _ _);
          [destruct (bool_decide _)|]; intros [= <- <-]; auto.
        destruct Hwf as (Hinit & Hsynced & Hgen & Hparams & Hidle & Hbusy).
        unfold client_wf. cbn.
        split; [done|]. split; [done|]. split; [done|]. split; [done|].
        split; cbn.
        -- intros Hz. apply Hidle in Hz. by rewrite Hz in Hk.
        -- intros Hz. destruct (Hbusy Hz) as (Hrid & _ & Hw).
           split; [done|]. split; [by eexists|done].
      * unfold BRClientSyncManagerAnnounceGetTransactionsDone,
          BRClientSyncManagerScanStateGetRequestId,
          BRClientSyncManagerScanStateAdvanceAndGetNewAddresses.
        apply Z.eqb_neq in Hs. rewrite Hr, Z.eqb_refl, Hc, Hs, Hk. cbn.
        destruct (wallet_first_unused (wallet m) BR_ADDRESS_NONE BR_ADDRESS_NONE)
          as [[w ext] int].
        case_match; cbn; [discriminate|].
        intros [= <- <-].
        apply (client_wf_wipe m); [done| |done|done]. cbn.
        apply to_uint64_range.
  - rewrite Done_stale by auto. by intros [= <- <-].
  - rewrite Done_stale by auto. by intros [= <- <-].
Qed.

Lemma scan_to_depth_locked_wf m depth :
  client_wf m → client_wf (scan_to_depth_locked m depth).1.
Proof.
  intros Hwf. pose proof (scan_to_depth_locked_facts m depth) as (Hst & _).
  revert Hst. unfold scan_to_depth_locked.
  destruct (isConnected m); [|done]. cbn [fst]. intros Hst.
  apply (client_wf_wipe m); [done| |by destruct depth|done].
  destruct Hwf as (Hinit & Hsynced & Hgen & [Hcp1 Hcp2] & Hscan).
  clear Hst. destruct depth; cbn.
  - pose proof (getLastConfirmedSendTxHeight_greatest (wallet m)
                  (to_uint32 (networkBlockHeight m))) as Hgreatest.
    cbv zeta in Hgreatest. destruct Hgreatest as (Hpos & _).
    case_match; lia.
  - case_match; [by eapply Hcp2|done].
  - done.
Qed.

Lemma client_step_wf op m m' t :
  client_step op m = Some (m', t) → client_wf m → client_wf m'.
Proof.
  destruct op as [| | |depth|transaction| |rid blockHeight0
                  |rid txn timestamp0 blockHeight0|rid success|rid txn error];
    unfold client_step; intros Hstep Hwf.
  - unfold BRClientSyncManagerConnect in Hstep. cbv zeta in Hstep.
    destruct (BRClientSyncManagerUpdateBlockNumber _) as [[m2 t2]|] eqn:H2;
      [|discriminate]. cbn in Hstep.
    destruct (BRClientSyncManagerUpdateTransactions m2) as [[m3 t3]|] eqn:H3;
      [|discriminate]. cbn in Hstep. injection Hstep as <- _.
    apply (UpdateTransactions_wf _ _ _ H3), (UpdateBlockNumber_wf _ _ _ H2).
    by destruct (negb (isConnected m)).
  - pose proof (Disconnect_facts _ _ _ Hstep) as [Hst _]. revert Hstep Hst.
    unfold BRClientSyncManagerDisconnect.
    destruct (isConnected m); intros [= <- <-] Hst; [|done].
    apply (client_wf_wipe m); [done| |done|done]. by destruct Hwf as (_&?&_).
  - unfold BRClientSyncManagerScan, BRClientSyncManagerScanToDepth in Hstep.
    pose proof (scan_to_depth_locked_wf m SYNC_DEPTH_HIGH Hwf) as Hwf1.
    destruct (scan_to_depth_locked m SYNC_DEPTH_HIGH) as [m1 t1].
    destruct (BRClientSyncManagerUpdateBlockNumber m1) as [[m2 t2]|] eqn:H2;
      [|discriminate]. cbn in Hstep.
    destruct (BRClientSyncManagerUpdateTransactions m2) as [[m3 t3]|] eqn:H3;
      [|discriminate]. cbn in Hstep. injection Hstep as <- _.
    by apply (UpdateTransactions_wf _ _ _ H3), (UpdateBlockNumber_wf _ _ _ H2).
  - unfold BRClientSyncManagerScanToDepth in Hstep.
    pose proof (scan_to_depth_locked_wf m depth Hwf) as Hwf1.
    destruct (scan_to_depth_locked m depth) as [m1 t1].
    destruct (BRClientSyncManagerUpdateBlockNumber m1) as [[m2 t2]|] eqn:H2;
      [|discriminate]. cbn in Hstep.
    destruct (BRClientSyncManagerUpdateTransactions m2) as [[m3 t3]|] eqn:H3;
      [|discriminate]. cbn in Hstep. injection Hstep as <- _.
    by apply (UpdateTransactions_wf _ _ _ H3), (UpdateBlockNumber_wf _ _ _ H2).
  - pose proof (Submit_facts _ _ _ _ Hstep) as [Hst _]. revert Hstep Hst.
    unfold BRClientSyncManagerSubmit. destruct (isConnected m).
    + destruct (BRClientSyncManagerGenerateRid m) as [[rid m1]|] eqn:Hg;
        [|discriminate].
      apply GenerateRid_spec in Hg as (_ & -> & ->). intros [= <- <-] Hst.
      by apply (client_wf_frame m).
    + by intros [= <- <-].
  - unfold BRClientSyncManagerTickTock in Hstep.
    destruct (BRClientSyncManagerUpdateBlockNumber m) as [[m1 t1]|] eqn:H1;
      [|discriminate]. cbn in Hstep.
    destruct (BRClientSyncManagerUpdateTransactions m1) as [[m2 t2]|] eqn:H2;
      [|discriminate]. cbn in Hstep. injection Hstep as <- _.
    by apply (UpdateTransactions_wf _ _ _ H2), (UpdateBlockNumber_wf _ _ _ H1).
  - apply some_pair in Hstep as [<- _].
    pose proof (AnnounceGetBlockNumber_facts m rid blockHeight0) as [Hst _].
    apply (client_wf_frame m); [done| | |done];
      unfold BRClientSyncManagerAnnounceGetBlockNumber; by case_match.
  - apply some_pair in Hstep as [<- _].
    pose proof (AnnounceGetTransactionsItem_facts m rid txn timestamp0
                  blockHeight0) as [Hst _].
    apply (client_wf_frame m); [done| | |done];
      unfold BRClientSyncManagerAnnounceGetTransactionsItem;
      by repeat case_match.
  - by eapply Done_wf.
  - apply some_pair in Hstep as [<- _].
    pose proof (AnnounceSubmitTransaction_facts m rid txn error) as [Hst _].
    apply (client_wf_frame m); [done| | |done];
      unfold BRClientSyncManagerAnnounceSubmitTransaction; cbn; by case_match.
Qed.

Lemma client_run_wf ops m m' log :
  client_run ops m = Some (m', log) → client_wf m → client_wf m'.
Proof.
  revert m m' log. induction ops as [|op ops IH]; intros m m' log; cbn.
  - by intros [= <- <-].
  - destruct (client_step op m) as [[m1 t]|] eqn:Hstep; [|discriminate]. cbn.
    destruct (client_run ops m1) as [[m2 log']|] eqn:Hrun; [|discriminate]. cbn.
    intros [= <- <-] Hwf. eapply IH; [done|]. by eapply client_step_wf.
Qed.

Lemma ClientSyncManagerNew_wf params wallet earliestKeyTime blockHeight m :
  params_wf params → 0 ≤ blockHeight →
  BRClientSyncManagerNew params wallet earliestKeyTime blockHeight = Some m →
  client_wf m.
Proof.
  intros Hparams Hb. unfold BRClientSyncManagerNew.
  destruct (BRChainParamsGetCheckpointBefore params _) as [cp|] eqn:Hcp;
    [|discriminate].
  cbn. intros [= <-]. unfold client_wf. cbn.
  assert (0 ≤ MIN (height cp) blockHeight).
  { destruct Hparams as [Hcp1 _]. apply Hcp1 in Hcp.
    unfold MIN. case_match; lia. }
  split; [done|]. split; [done|]. split; [done|]. split; [done|].
  apply scan_wf_wipe.
Qed.

(** ** The claims about the client manager *)

(** C3: [announceGetBlockNumber rid h] accepts the height exactly when
    [h > networkBlockHeight] and the manager is connected; an accepted height
    becomes [networkBlockHeight] and one [BlockHeightUpdated h] is sent, a
    rejected one changes nothing and sends nothing; and over every run of
    operations the height that [getBlockHeight] returns never decreases. *)
Theorem announceGetBlockNumber_only_advances m rid h ops m' log :
  client_run ops m = Some (m', log) →
  let r := BRClientSyncManagerAnnounceGetBlockNumber m rid h in
  (networkBlockHeight m < h ∧ isConnected m = true →
   r = (set_networkBlockHeight h m,
        [eventCallback (SYNC_MANAGER_BLOCK_HEIGHT_UPDATED h)])
   ∧ BRClientSyncManagerGetBlockHeight r.1 = h)
  ∧ (¬ (networkBlockHeight m < h ∧ isConnected m = true) → r = (m, []))
  ∧ BRClientSyncManagerGetBlockHeight m ≤ BRClientSyncManagerGetBlockHeight m'.
Proof.
  intros Hrun r. subst r. unfold BRClientSyncManagerAnnounceGetBlockNumber.
  split; [|split].
  - intros [Hh ->]. apply Z.gtb_lt in Hh. by rewrite Hh.
  - intros Hn. destruct (h >? networkBlockHeight m) eqn:Hh; [|done].
    destruct (isConnected m); [|done].
    apply Z.gtb_lt in Hh. by destruct Hn.
  - apply client_run_stable in Hrun as (_ & _ & Hn & _).
    by unfold BRClientSyncManagerGetBlockHeight.
Qed.

(** C4: [disconnect] on a manager that is not connected changes nothing and
    sends nothing; on a connected one it clears the connection flag, sends
    [SyncStopped -1] exactly when a full scan was active, then sends
    [Disconnected], and leaves the scan state wiped, so that no scan is in
    progress. *)
Theorem disconnect_stops_scan m :
  ∃ m' t,
    BRClientSyncManagerDisconnect m = Some (m', t)
    ∧ if isConnected m
      then isConnected m' = false
           ∧ t = (if BRClientSyncManagerIsInFullScan m
                  then [eventCallback (SYNC_MANAGER_SYNC_STOPPED (-1))]
                  else [])
                 ++ [eventCallback SYNC_MANAGER_DISCONNECTED]
           ∧ (eventCallback (SYNC_MANAGER_SYNC_STOPPED (-1)) ∈ t
              ↔ BRClientSyncManagerIsInFullScan m = true)
           ∧ last t = Some (eventCallback SYNC_MANAGER_DISCONNECTED)
           ∧ scanState m' = BRClientSyncManagerScanStateWipe
           ∧ BRClientSyncManagerScanStateIsInProgress (scanState m') = false
           ∧ BRClientSyncManagerIsInFullScan m' = false
      else m' = m ∧ t = [].
Proof.
  unfold BRClientSyncManagerDisconnect, BRClientSyncManagerIsInFullScan,
    BRClientSyncManagerScanStateIsFullScan, event_if.
  destruct (isConnected m); eexists _, _; (split; [reflexivity|]); [|done].
  split; [done|]. split; [done|]. split; [|split; [|done]].
  - destruct (isFullScan (scanState m)); cbn.
    + split; [done|]. intros _. by left.
    + split; [|done]. intros Hin. apply list_elem_of_singleton in Hin.
      discriminate.
  - by destruct (isFullScan (scanState m)).
Qed.

(** C8: [submit tx] on a connected manager serialises the transaction and
    calls [submitTransaction] with the id just generated (the counter after
    its increment) and sends no event; on a disconnected manager it sends
    [TxnSubmitted tx -1] and makes no client call, and nothing changes. *)
Theorem submit_connected_or_not m tx :
  (isConnected m = true → requestIdGenerator m < INT_MAX) →
  ∃ m' t,
    BRClientSyncManagerSubmit m tx = Some (m', t)
    ∧ if isConnected m
      then t = [funcSubmitTransaction (BRTransactionSerialize tx) (txHash tx)
                  (requestIdGenerator m + 1)]
           ∧ requestIdGenerator m' = requestIdGenerator m + 1
           ∧ filter (fun c => is_event c = true) t = []
      else m' = m
           ∧ t = [eventCallback (SYNC_MANAGER_TXN_SUBMITTED tx (-1))]
           ∧ rids t = [].
Proof.
  intros Hroom. unfold BRClientSyncManagerSubmit.
  destruct (isConnected m).
  - rewrite GenerateRid_ok by auto. eexists _, _. split; [reflexivity|]. done.
  - eexists _, _. split; [reflexivity|]. done.
Qed.

(** C10: [announceGetTransactionsItem] sends no event; it changes nothing but
    the wallet; the wallet changes only if the payload parses to a signed
    transaction (and the request id is the scan's and the manager is
    connected); a payload that does not parse or is not signed leaves the
    manager as it was. *)
Theorem announceGetTransactionsItem_needs_signed m rid txn ts h :
  let r := BRClientSyncManagerAnnounceGetTransactionsItem m rid txn ts h in
  r.2 = []
  ∧ r.1 = set_wallet (wallet r.1) m
  ∧ (wallet r.1 ≠ wallet m →
     ∃ tx, BRTransactionParse txn = Some tx
           ∧ BRTransactionIsSigned tx = true
           ∧ rid = requestId (scanState m) ∧ isConnected m = true)
  ∧ ((∀ tx, BRTransactionParse txn = Some tx → BRTransactionIsSigned tx = false) →
     r = (m, [])).
Proof.
  cbv zeta. unfold BRClientSyncManagerAnnounceGetTransactionsItem,
    BRClientSyncManagerScanStateGetRequestId.
  destruct (BRTransactionParse txn) as [tx|] eqn:Hp.
  - destruct (BRTransactionIsSigned tx) eqn:Hs; cbn [andb].
    + destruct (rid =? requestId (scanState m)) eqn:Hr; cbn [andb];
        [destruct (isConnected m) eqn:Hc|].
      * apply Z.eqb_eq in Hr.
        destruct (BRWalletTransactionForHash _ _); cbn;
          (split; [done|]); (split; [by destruct m|]);
          (split; [intros _; by exists tx|]);
          intros Hu; specialize (Hu tx eq_refl); congruence.
      * cbn. split; [done|]. split; [by destruct m|].
        split; [done|]. done.
      * cbn. split; [done|]. split; [by destruct m|].
        split; [done|]. done.
    + cbn. split; [done|]. split; [by destruct m|]. split; [done|]. done.
  - cbn. split; [done|]. split; [by destruct m|]. split; [done|]. done.
Qed.

Lemma UpdateBlockNumber_connected m :
  isConnected m = true → requestIdGenerator m < INT_MAX →
  BRClientSyncManagerUpdateBlockNumber m
  = Some (set_requestIdGenerator (requestIdGenerator m + 1) m,
          [funcGetBlockNumber (requestIdGenerator m + 1)]).
Proof.
  intros Hc Hlt. unfold BRClientSyncManagerUpdateBlockNumber.
  by rewrite Hc, GenerateRid_ok.
Qed.

(** C7 (as amended): [scanToDepth] at depth low on a connected manager sets
    [syncedBlockHeight] to the greatest block height among the wallet's
    valid, sending, confirmed transactions that lie strictly below
    [networkBlockHeight - 6] (the network height taken as a 32-bit value),
    when that height is non-zero, and to [initBlockHeight] otherwise; the
    two updates that follow keep it.  The call returns when the counter has
    room for two more ids, the new window fits 64 bits and the wallet has an
    address (the assertions of [updateTransactions]). *)
Theorem scanToDepth_low_resets_synced m :
  client_wf m →
  isConnected m = true →
  requestIdGenerator m + 1 < INT_MAX →
  Z.max (low_depth_height m) (networkBlockHeight m) < UINT64_MAX →
  _getWalletAddresses
    (wallet_first_unused (wallet m) BR_ADDRESS_NONE BR_ADDRESS_NONE).1.1 ≠ [] →
  let lastBlockHeight := to_uint32 (networkBlockHeight m) in
  let h := _getLastConfirmedSendTxHeight (wallet m) lastBlockHeight in
  (∃ m' t,
     BRClientSyncManagerScanToDepth m SYNC_DEPTH_LOW = Some (m', t)
     ∧ syncedBlockHeight m' = (if h =? 0 then initBlockHeight m else h))
  ∧ (∀ tx, tx ∈ BRWalletTransactions (wallet m) →
           counted_send (wallet m) lastBlockHeight tx → blockHeight tx ≤ h)
  ∧ (h = 0
     ∨ ∃ tx, tx ∈ BRWalletTransactions (wallet m)
             ∧ counted_send (wallet m) lastBlockHeight tx
             ∧ h = blockHeight tx).
Proof.
  intros Hwf Hc Hroom Hmax Haddrs lastBlockHeight h.
  split; [|apply getLastConfirmedSendTxHeight_greatest].
  pose proof (scan_to_depth_locked_wf m SYNC_DEPTH_LOW Hwf) as Hwf1.
  revert Hwf1.
  unfold BRClientSyncManagerScanToDepth, scan_to_depth_locked.
  rewrite Hc. cbv zeta. cbn [fst].
  match goal with
  | |- context [BRClientSyncManagerUpdateBlockNumber ?x] => set (m1 := x)
  end.
  intros (_ & Hsynced1 & _).
  assert (Hm1 : requestIdGenerator m1 = requestIdGenerator m
                ∧ syncedBlockHeight m1 = low_depth_height m) by done.
  destruct Hm1 as (Hg1 & Hs1).
  rewrite (UpdateBlockNumber_connected m1) by (rewrite ?Hg1; first [done|lia]).
  cbn [mbind option_bind].
  set (m2 := set_requestIdGenerator (requestIdGenerator m1 + 1) m1).
  rewrite (UpdateTransactions_start m2).
  - cbn [mbind option_bind]. eexists _, _. split; [reflexivity|].
    cbn. apply Hs1.
  - done.
  - done.
  - cbn. lia.
  - done.
  - exact Hsynced1.
  - rewrite MAX_max. exact Hmax.
  - done.
Qed.

(** *** The scan window *)

Lemma started_window m :
  0 ≤ syncedBlockHeight m →
  Z.max (syncedBlockHeight m) (networkBlockHeight m) < UINT64_MAX →
  let e := endBlockNumber (started_scan m) in
  let b := begBlockNumber (started_scan m) in
  e = Z.max (syncedBlockHeight m) (networkBlockHeight m) + 1
  ∧ b = Z.min (syncedBlockHeight m) (if 144 <=? e then e - 144 else 0)
  ∧ 0 ≤ b < e
  ∧ (isFullScan (started_scan m) = true ↔ e - b > 144).
Proof.
  intros Hs Hmax. cbv zeta. unfold started_scan. cbn.
  rewrite MAX_max, MIN_min.
  assert (He : to_uint64 (Z.max (syncedBlockHeight m) (networkBlockHeight m) + 1)
               = Z.max (syncedBlockHeight m) (networkBlockHeight m) + 1).
  { apply to_uint64_small. unfold UINT64_MODULUS, UINT64_MAX in *. lia. }
  rewrite He.
  change BWM_BRD_SYNC_START_BLOCK_OFFSET with 144.
  rewrite Z.geb_leb.
  set (e := Z.max (syncedBlockHeight m) (networkBlockHeight m) + 1).
  set (b := Z.min (syncedBlockHeight m) (if 144 <=? e then e - 144 else 0)).
  assert (Hb : 0 ≤ b < e).
  { subst b e. destruct (144 <=? _) eqn:E;
      [apply Z.leb_le in E|apply Z.leb_gt in E]; lia. }
  split; [done|]. split; [done|]. split; [done|].
  rewrite to_uint64_small
    by (unfold UINT64_MODULUS, UINT64_MAX in *; subst e; lia).
  rewrite Z.gtb_ltb, Z.ltb_lt. lia.
Qed.

(** C2 (as amended): in client mode [updateTransactions], when the manager
    is connected and no scan is in progress, builds the window with
    [endBlockNumber = max syncedBlockHeight networkBlockHeight + 1] and
    [begBlockNumber = min syncedBlockHeight (endBlockNumber - 144)] when
    [endBlockNumber >= 144] and [min syncedBlockHeight 0] otherwise, marks
    the scan full exactly when [endBlockNumber - begBlockNumber > 144],
    sends [SyncStarted] exactly for a full scan and then asks the client for
    the transactions of the window; when the manager is disconnected or a
    scan is in progress it changes nothing and sends nothing. *)
Theorem updateTransactions_window m :
  client_wf m →
  (isConnected m = true ∧ requestId (scanState m) = 0 →
   requestIdGenerator m < INT_MAX
   ∧ Z.max (syncedBlockHeight m) (networkBlockHeight m) < UINT64_MAX
   ∧ _getWalletAddresses (started_wallet m) ≠ []) →
  ∃ m' t,
    BRClientSyncManagerUpdateTransactions m = Some (m', t)
    ∧ if isConnected m && (requestId (scanState m) =? 0)
      then
        let e := endBlockNumber (scanState m') in
        let b := begBlockNumber (scanState m') in
        e = Z.max (syncedBlockHeight m) (networkBlockHeight m) + 1
        ∧ b = Z.min (syncedBlockHeight m) (if 144 <=? e then e - 144 else 0)
        ∧ (isFullScan (scanState m') = true ↔ e - b > 144)
        ∧ requestId (scanState m') = requestIdGenerator m + 1
        ∧ (eventCallback SYNC_MANAGER_SYNC_STARTED ∈ t ↔ e - b > 144)
        ∧ ∃ addresses,
            t = (if isFullScan (scanState m')
                 then [eventCallback SYNC_MANAGER_SYNC_STARTED]
                 else [])
                ++ [funcGetTransactions addresses b e (requestIdGenerator m + 1)]
      else m' = m ∧ t = [].
Proof.
  intros (_ & Hs & _ & _ & Hidle & _) Hpre.
  destruct (isConnected m) eqn:Hc;
    [destruct (requestId (scanState m) =? 0) eqn:Hr|]; cbn [andb].
  - apply Z.eqb_eq in Hr.
    destruct (Hpre (conj eq_refl Hr)) as (Hroom & Hmax & Haddrs).
    assert (Hk : knownAddresses (scanState m) = None)
      by (by rewrite (Hidle Hr)).
    rewrite UpdateTransactions_start by (rewrite ?MAX_max; done).
    eexists _, _. split; [reflexivity|].
    destruct (started_window m Hs Hmax) as (He & Hb & _ & Hfull).
    cbn [started_manager scanState set_wallet set_scanState].
    split; [done|]. split; [done|]. split; [done|]. split; [done|].
    unfold started_callbacks, event_if. split; [|eexists; reflexivity].
    rewrite <- Hfull, elem_of_app, list_elem_of_singleton.
    destruct (isFullScan (started_scan m)).
    + split; [done|]. intros _. left. by apply list_elem_of_singleton.
    + split; [|done]. intros [Hin|Hin]; [|done]. by apply elem_of_nil in Hin.
  - apply Z.eqb_neq in Hr. rewrite UpdateTransactions_skip by auto.
    by eexists _, _.
  - rewrite UpdateTransactions_skip by auto. by eexists _, _.
Qed.

(** *** Completion of a scan *)

Lemma new_addresses_spec wallet known :
  let w := (wallet_first_unused wallet BR_ADDRESS_NONE BR_ADDRESS_NONE).1.1 in
  NoDup (new_addresses wallet known)
  ∧ ∀ a, a ∈ new_addresses wallet known
         ↔ a ∈ _getWalletAddresses w ∧ a ∉ known.
Proof.
  cbv zeta. unfold new_addresses, _updateWalletAddressSet.
  destruct (update_loop
              (_getWalletAddresses
                 (wallet_first_unused wallet BR_ADDRESS_NONE BR_ADDRESS_NONE).1.1)
              known []) as (_ & found & -> & Hnd & Hin).
  done.
Qed.

(** C1 (as amended): [announceGetTransactionsDone rid success] with
    [success] true, on a connected manager whose scan in progress has the
    id [rid]: when the first unused external or internal address differs
    from the captured pair and the wallet has an address (or legacy form)
    that the scan does not know yet, the manager asks the client again with
    the same [rid], the same window and exactly the new addresses, and the
    scan state keeps its window with the captured pair advanced; otherwise
    (the pair is unchanged, or no address is new) it sets
    [syncedBlockHeight] to [endBlockNumber - 1], sends [SyncStopped 0]
    exactly when the scan was full, and wipes the scan state. *)
Theorem announceGetTransactionsDone_success m rid success :
  client_wf m →
  isConnected m = true →
  rid = requestId (scanState m) → requestId (scanState m) ≠ 0 →
  success ≠ 0 →
  ∃ known,
    knownAddresses (scanState m) = Some known
    ∧ let w :=
        (wallet_first_unused (wallet m) BR_ADDRESS_NONE BR_ADDRESS_NONE).1.1 in
      let new := new_addresses (wallet m) known in
      (NoDup new ∧ ∀ a, a ∈ new ↔ a ∈ _getWalletAddresses w ∧ a ∉ known)
      ∧ ∃ m' t,
          BRClientSyncManagerAnnounceGetTransactionsDone m rid success
          = Some (m', t)
          ∧ if first_unused_changed (scanState m) (wallet m)
               && negb (bool_decide (new = []))
            then t = [funcGetTransactions new (begBlockNumber (scanState m))
                        (endBlockNumber (scanState m)) rid]
                 ∧ scanState m' = advanced_scan (scanState m) (wallet m) known
                 ∧ syncedBlockHeight m' = syncedBlockHeight m
                 ∧ BRClientSyncManagerScanStateIsInProgress (scanState m') = true
            else t = event_if (isFullScan (scanState m))
                       (SYNC_MANAGER_SYNC_STOPPED 0)
                 ∧ syncedBlockHeight m' = endBlockNumber (scanState m) - 1
                 ∧ scanState m' = BRClientSyncManagerScanStateWipe
                 ∧ BRClientSyncManagerScanStateIsInProgress (scanState m')
                   = false.
Proof.
  intros (_ & _ & _ & _ & _ & Hbusy) Hc Hrid Hprog Hs.
  destruct (Hbusy Hprog) as (_ & [known Hk] & Hwin & Hend).
  exists known. split; [exact Hk|]. intros w new.
  split; [apply new_addresses_spec|].
  rewrite (Done_success m rid success known) by done.
  fold new.
  assert (Hsynced : to_uint64 (endBlockNumber (scanState m) - 1)
                    = endBlockNumber (scanState m) - 1)
    by (apply to_uint64_small; lia).
  destruct (first_unused_changed (scanState m) (wallet m)); cbn [andb].
  - destruct (bool_decide (new = [])); cbn [negb];
      eexists _, _; (split; [reflexivity|]).
    + by cbn.
    + cbn. split; [done|]. split; [done|]. split; [done|].
      unfold BRClientSyncManagerScanStateIsInProgress. cbn.
      apply Z.eqb_neq in Hprog. by rewrite Hprog.
  - eexists _, _. split; [reflexivity|]. by cbn.
Qed.

(** *** The request ids of a run *)

Lemma seqZ_sorted (a n : Z) : StronglySorted Z.lt (seqZ a n).
Proof.
  destruct (decide (n ≤ 0)) as [Hn|Hn];
    [rewrite seqZ_nil by done; constructor|].
  rewrite <- (Z2Nat.id n) by lia.
  induction (Z.to_nat n) as [|k IH]; [constructor|].
  rewrite seqZ_S. apply StronglySorted_app_2; [|done|].
  - intros x y Hx Hy. apply elem_of_seqZ in Hx.
    apply list_elem_of_singleton in Hy as ->. lia.
  - repeat constructor.
Qed.

Lemma fresh_rids_cons op t (log : list (ClientOperation * list Callback)) :
  fresh_rids ((op, t) :: log)
  = (if is_done op then [] else rids t) ++ fresh_rids log.
Proof. reflexivity. Qed.

Lemma client_run_fresh_rids ops m m' log :
  client_run ops m = Some (m', log) →
  fresh_rids log
  = seqZ (requestIdGenerator m + 1) (requestIdGenerator m' - requestIdGenerator m).
Proof.
  revert m m' log. induction ops as [|op ops IH]; intros m m' log; cbn.
  - intros [= <- <-]. cbn. by rewrite seqZ_nil by lia.
  - destruct (client_step op m) as [[m1 t]|] eqn:Hstep; [|discriminate]. cbn.
    destruct (client_run ops m1) as [[m2 log']|] eqn:Hrun; [|discriminate]. cbn.
    intros [= <- <-]. rewrite fresh_rids_cons.
    pose proof (client_step_stable _ _ _ _ Hstep) as (_ & _ & _ & Hg1).
    pose proof (client_run_stable _ _ _ _ Hrun) as (_ & _ & _ & Hg2).
    rewrite (IH _ _ _ Hrun).
    replace (requestIdGenerator m2 - requestIdGenerator m)
      with ((requestIdGenerator m1 - requestIdGenerator m)
            + (requestIdGenerator m2 - requestIdGenerator m1)) by lia.
    rewrite seqZ_app by lia.
    replace (requestIdGenerator m + 1
             + (requestIdGenerator m1 - requestIdGenerator m))
      with (requestIdGenerator m1 + 1) by lia.
    f_equal. destruct (is_done op) eqn:Hd.
    + destruct op; try discriminate. unfold client_step in Hstep.
      apply Done_facts in Hstep as (_ & -> & _). by rewrite seqZ_nil by lia.
    + by apply client_step_issues in Hstep as [_ ->].
Qed.

Lemma client_run_done_rids ops m m' log rid success t :
  client_run ops m = Some (m', log) →
  (OpAnnounceGetTransactionsDone rid success, t) ∈ log →
  rids t = [] ∨ rids t = [rid].
Proof.
  revert m m' log. induction ops as [|op ops IH]; intros m m' log; cbn.
  - intros [= <- <-]. set_solver.
  - destruct (client_step op m) as [[m1 t1]|] eqn:Hstep; [|discriminate]. cbn.
    destruct (client_run ops m1) as [[m2 log']|] eqn:Hrun; [|discriminate]. cbn.
    intros [= <- <-] Hin. apply elem_of_cons in Hin as [[= <- <-]|Hin].
    + unfold client_step in Hstep.
      apply Done_facts in Hstep as (_ & _ & [?|[? _]]); auto.
    + by eapply IH.
Qed.

(** C9 (as amended): over every run of a client-mode manager whose counter
    is not negative, the request ids that the operations other than
    [announceGetTransactionsDone] hand to [getBlockNumber], [getTransactions]
    and [submitTransaction] are the consecutive integers that follow the
    counter, hence strictly increasing and positive; the [getTransactions]
    that [announceGetTransactionsDone] asks again carries the id it was
    called with, the id of the scan, once more. *)
Theorem request_ids_fresh_increase m ops m' log :
  0 ≤ requestIdGenerator m →
  client_run ops m = Some (m', log) →
  fresh_rids log
  = seqZ (requestIdGenerator m + 1) (requestIdGenerator m' - requestIdGenerator m)
  ∧ StronglySorted Z.lt (fresh_rids log)
  ∧ Forall (fun rid => 0 < rid) (fresh_rids log)
  ∧ ∀ rid success t,
      (OpAnnounceGetTransactionsDone rid success, t) ∈ log →
      rids t = [] ∨ rids t = [rid].
Proof.
  intros Hpos Hrun. pose proof (client_run_fresh_rids _ _ _ _ Hrun) as Hfresh.
  split; [done|]. rewrite Hfresh. split; [apply seqZ_sorted|]. split.
  - apply Forall_seqZ. intros. lia.
  - intros rid success t. by apply (client_run_done_rids ops m m' log).
Qed.

(** The construction fixes [initBlockHeight]; no run changes it. *)
Lemma ClientSyncManagerNew_initBlockHeight params wallet earliestKeyTime blockHeight
    m ops m' log :
  BRClientSyncManagerNew params wallet earliestKeyTime blockHeight = Some m →
  client_run ops m = Some (m', log) →
  ∃ checkpoint,
    BRChainParamsGetCheckpointBefore params
      (to_uint32 (earliestKeyTime - ONE_WEEK_IN_SECONDS)) = Some checkpoint
    ∧ initBlockHeight m = Z.min (height checkpoint) blockHeight
    ∧ initBlockHeight m ≤ height checkpoint
    ∧ initBlockHeight m' = initBlockHeight m.
Proof.
  unfold BRClientSyncManagerNew. intros Hnew Hrun.
  destruct (BRChainParamsGetCheckpointBefore params _) as [cp|] eqn:Hcp;
    [|discriminate].
  cbn in Hnew. injection Hnew as <-.
  apply client_run_stable in Hrun as (Hinit & _).
  exists cp. cbn in *. rewrite MIN_min in *. split; [done|]. split; [done|].
  split; [lia|done].
Qed.

End ClientSyncManagerFacts.

(** ** The claim about the peer manager *)

Section PeerSyncManagerFacts.

Context {BRWallet BRMerkleBlock BRPeer BRPeerManager : Type}
        `{BRPeerManagerOps BRWallet BRMerkleBlock BRPeer BRPeerManager}.

Implicit Types m : Peer.BRPeerSyncManagerStruct (BRWallet := BRWallet)
                     (BRPeerManager := BRPeerManager).

(** C5: what [txStatusUpdate] does in P2P mode.  The network height becomes
    the greater of its value and the peer manager's last block height;
    [BlockHeightUpdated] is sent when the height advanced; when the peer
    manager is disconnected and the manager was connected, a stop event (if
    a full scan was in progress) and then [Disconnected] are sent;
    [TxnsUpdated] is always sent last.  The stop event carries the reason 0,
    never -1. *)
Theorem txStatusUpdate_callbacks m :
  let r := Peer._BRPeerSyncManagerTxStatusUpdate m in
  let h := BRPeerManagerLastBlockHeight (Peer.peerManager m) in
  let lost := negb (Peer.peer_is_connected m) && Peer.isConnected m in
  Peer.networkBlockHeight r.1 = Z.max h (Peer.networkBlockHeight m)
  ∧ r.2 = event_if (Peer.networkBlockHeight m <? h)
            (SYNC_MANAGER_BLOCK_HEIGHT_UPDATED h)
          ++ event_if (lost && Peer.isFullScan m) (SYNC_MANAGER_SYNC_STOPPED 0)
          ++ event_if lost SYNC_MANAGER_DISCONNECTED
          ++ [eventCallback SYNC_MANAGER_TXNS_UPDATED]
  ∧ eventCallback (SYNC_MANAGER_SYNC_STOPPED (-1)) ∉ r.2.
Proof.
  cbv zeta. unfold Peer._BRPeerSyncManagerTxStatusUpdate. cbn.
  rewrite MAX_max, Z.gtb_ltb. split; [done|]. split; [done|].
  destruct (_ <? _), (negb _ && _), (Peer.isFullScan m); cbn;
    rewrite ?elem_of_cons; set_solver.
Qed.

End PeerSyncManagerFacts.

(** ** The claim about construction *)

Section SyncManagerFacts.

Context {BRWallet BRMerkleBlock BRPeer BRPeerManager : Type}
        `{BRWalletOps BRWallet} `{BRTransactionOps}
        `{BRPeerManagerOps BRWallet BRMerkleBlock BRPeer BRPeerManager}.

(** C6: the manager that [newForMode] creates in client mode has its
    [initBlockHeight] fixed at construction from the height of the
    checkpoint that the table returns for the 32-bit difference
    [earliestKeyTime - ONE_WEEK_IN_SECONDS] (the lesser of that height and
    the block height handed to the constructor, so never above the
    checkpoint), and no run of operations changes it.  For an
    [earliestKeyTime] of one week (604800 seconds) or more that is the
    checkpoint before [earliestKeyTime - 604800]; for a smaller one the
    difference wraps, and the checkpoint is the one before
    [earliestKeyTime + 2^32 - 604800]. *)
Theorem initBlockHeight_fixed (params : BRChainParams) (wallet : BRWallet)
    (earliestKeyTime blockHeight : Z) (blocks : list BRMerkleBlock)
    (peers : list BRPeer) (m m' : BRClientSyncManagerStruct)
    (ops : list ClientOperation) (log : list (ClientOperation * list Callback)) :
  BRSyncManagerNewForMode SYNC_MODE_BRD_ONLY params wallet earliestKeyTime
    blockHeight blocks peers = Some (ClientSyncManager m) →
  client_run ops m = Some (m', log) →
  ∃ checkpoint,
    BRChainParamsGetCheckpointBefore params
      (to_uint32 (earliestKeyTime - ONE_WEEK_IN_SECONDS)) = Some checkpoint
    ∧ initBlockHeight m = Z.min (height checkpoint) blockHeight
    ∧ initBlockHeight m ≤ height checkpoint
    ∧ initBlockHeight m' = initBlockHeight m
    ∧ (604800 ≤ earliestKeyTime < 4294967296 →
       BRChainParamsGetCheckpointBefore params (earliestKeyTime - 604800)
       = Some checkpoint)
    ∧ (0 ≤ earliestKeyTime < 604800 →
       BRChainParamsGetCheckpointBefore params (earliestKeyTime + 4294362496)
       = Some checkpoint).
Proof.
  unfold BRSyncManagerNewForMode. intros Hnew Hrun.
  destruct (BRClientSyncManagerNew params wallet earliestKeyTime blockHeight)
    as [m0|] eqn:Hclient; [|discriminate].
  cbn in Hnew. injection Hnew as ->.
  destruct (ClientSyncManagerNew_initBlockHeight _ _ _ _ _ _ _ _ Hclient Hrun)
    as (checkpoint & Hcp & Hmin & Hle & Hkeep).
  exists checkpoint. split; [done|]. split; [done|]. split; [done|].
  split; [done|]. split.
  - intros Hweek. rewrite <- Hcp. f_equal. unfold to_uint32.
    change ONE_WEEK_IN_SECONDS with 604800.
    change UINT32_MODULUS with 4294967296. by rewrite Z.mod_small by lia.
  - intros Hsmall. rewrite <- Hcp. f_equal. unfold to_uint32.
    change ONE_WEEK_IN_SECONDS with 604800.
    change UINT32_MODULUS with 4294967296.
    replace (earliestKeyTime - 604800)
      with (earliestKeyTime + 4294362496 + (-1) * 4294967296) by lia.
    rewrite Z.mod_add by lia. by rewrite Z.mod_small by lia.
Qed.

End SyncManagerFacts.

(** ** The scenarios, run on the small wallet *)

Lemma simple_params_wf : params_wf simple_params.
Proof.
  split.
  - intros t cp [= <-]. cbn. lia.
  - intros h cp. cbn. case_match; [|done]. intros [= <-]. cbn. lia.
Qed.

Lemma simple_fresh_wf : client_wf simple_fresh.
Proof.
  apply (ClientSyncManagerNew_wf simple_params simple_empty_wallet
           1500000000 244); [apply simple_params_wf|lia|reflexivity].
Qed.

Lemma simple_after_wf ops m : client_wf m → client_wf (simple_after ops m).
Proof.
  intros Hwf. unfold simple_after.
  destruct (client_run ops m) as [[m' log]|] eqn:Hrun; [|done].
  by eapply client_run_wf.
Qed.

(** The states of the scenarios, written out. *)
Example simple_paid_state :
  simple_paid
  = {| wallet :=
         {| externalChain :=
              ["e0"; "e1"; "e2"; "e3"; "e4"; "e5"; "e6"; "e7"; "e8"; "e9"];
            internalChain := ["i0"; "i1"; "i2"; "i3"; "i4"];
            usedAddresses := {["e0"]};
            walletTransactions :=
              [mkBRTransaction 7 200 1600000000 simple_payment] |};
       chainParams := simple_params;
       initBlockHeight := 100;
       networkBlockHeight := 244;
       isConnected := true;
       syncedBlockHeight := 100;
       requestIdGenerator := 2;
       scanState :=
         {| requestId := 2;
            lastExternalAddress := "e0";
            lastInternalAddress := "i0";
            knownAddresses := Some simple_known;
            begBlockNumber := 100;
            endBlockNumber := 245;
            isFullScan := true |} |}.
Proof. vm_compute. reflexivity. Qed.

Example simple_long_paid_state :
  simple_long_paid
  = {| wallet :=
         {| externalChain :=
              ["e0"; "e1"; "e2"; "e3"; "e4"; "e5"; "e6"; "e7"; "e8"; "e9";
               "e10"; "e11"];
            internalChain := ["i0"; "i1"; "i2"; "i3"; "i4"];
            usedAddresses := {["e0"]};
            walletTransactions :=
              [mkBRTransaction 7 200 1600000000 simple_payment] |};
       chainParams := simple_params;
       initBlockHeight := 100;
       networkBlockHeight := 244;
       isConnected := true;
       syncedBlockHeight := 100;
       requestIdGenerator := 2;
       scanState :=
         {| requestId := 2;
            lastExternalAddress := "e0";
            lastInternalAddress := "i0";
            knownAddresses := Some ({["e10"; "e11"]} ∪ simple_known);
            begBlockNumber := 100;
            endBlockNumber := 245;
            isFullScan := true |} |}.
Proof. vm_compute. reflexivity. Qed.

Example simple_sender_state :
  simple_sender 994
  = {| wallet :=
         {| externalChain :=
              ["e0"; "e1"; "e2"; "e3"; "e4"; "e5"; "e6"; "e7"; "e8"; "e9"];
            internalChain := ["i0"; "i1"; "i2"; "i3"; "i4"];
            usedAddresses := {["x"]};
            walletTransactions :=
              [mkBRTransaction 9 994 1600000000 simple_send] |};
       chainParams := simple_params;
       initBlockHeight := 100;
       networkBlockHeight := 1000;
       isConnected := true;
       syncedBlockHeight := 100;
       requestIdGenerator := 2;
       scanState :=
         {| requestId := 2;
            lastExternalAddress := "e0";
            lastInternalAddress := "i0";
            knownAddresses := Some simple_known;
            begBlockNumber := 100;
            endBlockNumber := 245;
            isFullScan := true |} |}.
Proof. vm_compute. reflexivity. Qed.

(** S1 and S2: what the client and the event sink see. *)
Example simple_s2_log :
  simple_log simple_s2_run simple_fresh
  = [(OpConnect,
      [eventCallback SYNC_MANAGER_CONNECTED;
       funcGetBlockNumber 1;
       eventCallback SYNC_MANAGER_SYNC_STARTED;
       funcGetTransactions (elements simple_known) 100 245 2]);
     (OpAnnounceGetTransactionsItem 2 simple_payment 1600000000 200, []);
     (OpAnnounceGetTransactionsDone 2 1,
      [funcGetTransactions ["e10"] 100 245 2])].
Proof. vm_compute. reflexivity. Qed.

(** S2: the completion after a payment on the first unused external address
    asks again, with the one address the gap limit added. *)
Lemma announceGetTransactionsDone_success_witness :
  ∃ m' t,
    BRClientSyncManagerAnnounceGetTransactionsDone simple_paid 2 1 = Some (m', t)
    ∧ t = [funcGetTransactions ["e10"] 100 245 2]
    ∧ syncedBlockHeight m' = 100
    ∧ BRClientSyncManagerScanStateIsInProgress (scanState m') = true.
Proof.
  destruct (announceGetTransactionsDone_success simple_paid 2 1)
    as (known & Hknown & _ & m' & t & Hdone & Hcase).
  - unfold simple_paid, simple_connected.
    apply simple_after_wf, simple_after_wf, simple_fresh_wf.
  - reflexivity.
  - reflexivity.
  - vm_compute. discriminate.
  - lia.
  - assert (Hk : knownAddresses (scanState simple_paid) = Some simple_known)
      by (vm_compute; reflexivity).
    rewrite Hk in Hknown. injection Hknown as <-.
    exists m', t. split; [exact Hdone|].
    vm_compute in Hcase. destruct Hcase as (Ht & _ & Hsynced & Hprog).
    split; [exact Ht|]. split; [exact Hsynced|exact Hprog].
Defined.

(** On the wallet whose external chain is longer than the gap limit the
    same payment moves the first unused address, yet no address is new: the
    manager does not ask again, it completes the scan. *)
Lemma announceGetTransactionsDone_changed_without_new :
  isConnected simple_long_paid = true
  ∧ requestId (scanState simple_long_paid) = 2
  ∧ first_unused_changed (scanState simple_long_paid) (wallet simple_long_paid)
    = true
  ∧ ∃ m',
      BRClientSyncManagerAnnounceGetTransactionsDone simple_long_paid 2 1
      = Some (m', [eventCallback (SYNC_MANAGER_SYNC_STOPPED 0)])
      ∧ scanState m' = BRClientSyncManagerScanStateWipe
      ∧ syncedBlockHeight m' = 244.
Proof.
  split; [reflexivity|]. split; [reflexivity|]. split; [by vm_compute|].
  eexists. split; [vm_compute; reflexivity|]. split; reflexivity.
Qed.

(** S1: the window of the first scan is [100, 245), a full scan, and
    [SyncStarted] comes before the request. *)
Lemma updateTransactions_window_witness :
  ∃ m' t,
    BRClientSyncManagerUpdateTransactions simple_s1 = Some (m', t)
    ∧ endBlockNumber (scanState m') = 245
    ∧ begBlockNumber (scanState m') = 100
    ∧ (isFullScan (scanState m') = true ↔ 245 - 100 > 144)
    ∧ eventCallback SYNC_MANAGER_SYNC_STARTED ∈ t
    ∧ t = [eventCallback SYNC_MANAGER_SYNC_STARTED;
           funcGetTransactions (elements simple_known) 100 245 2]
    ∧ BRClientSyncManagerUpdateTransactions simple_fresh = Some (simple_fresh, []).
Proof.
  assert (Hwf1 : client_wf simple_s1).
  { apply (client_wf_frame simple_fresh); [|reflexivity|reflexivity|].
    - unfold stable. vm_compute.
      split; [reflexivity|]. split; [reflexivity|]. split; discriminate.
    - apply simple_fresh_wf. }
  destruct (updateTransactions_window simple_s1 Hwf1) as (m' & t & Hu & Hcase).
  { intros _. vm_compute. split; [reflexivity|]. split; [reflexivity|].
    discriminate. }
  destruct (updateTransactions_window simple_fresh simple_fresh_wf)
    as (m0 & t0 & Hu0 & Hcase0).
  { intros [Hc _]. vm_compute in Hc. discriminate. }
  exists m', t. split; [exact Hu|].
  change (isConnected simple_s1 && (requestId (scanState simple_s1) =? 0))
    with true in Hcase.
  cbv zeta iota in Hcase.
  destruct Hcase as (He & Hb & Hfull & _ & Hevent & addresses & Ht).
  rewrite He in Hb, Hfull, Hevent. rewrite Hb in Hfull, Hevent.
  assert (Hwide : 245 - 100 > 144) by lia.
  split; [exact He|]. split; [exact Hb|]. split; [exact Hfull|].
  split; [apply Hevent; exact Hwide|]. split.
  - assert (Hrun : BRClientSyncManagerUpdateTransactions simple_s1
                   = Some (started_manager simple_s1,
                           [eventCallback SYNC_MANAGER_SYNC_STARTED;
                            funcGetTransactions (elements simple_known)
                              100 245 2]))
      by (vm_compute; reflexivity).
    rewrite Hrun in Hu. by injection Hu as _ <-.
  - change (isConnected simple_fresh
            && (requestId (scanState simple_fresh) =? 0))
      with false in Hcase0.
    cbv iota in Hcase0. destruct Hcase0 as [-> ->]. exact Hu0.
Defined.

(** Below height 144 the window starts at 0: not at
    [min syncedBlockHeight (endBlockNumber - 144)], whether the difference
    is taken in the integers or in 64 bits. *)
Lemma updateTransactions_window_below_offset :
  isConnected simple_young = true
  ∧ requestId (scanState simple_young) = 0
  ∧ ∃ m' t,
      BRClientSyncManagerUpdateTransactions simple_young = Some (m', t)
      ∧ endBlockNumber (scanState m') = 101
      ∧ begBlockNumber (scanState m') = 0
      ∧ Z.min (syncedBlockHeight simple_young)
              (endBlockNumber (scanState m') - 144) = -43
      ∧ Z.min (syncedBlockHeight simple_young)
              (to_uint64 (endBlockNumber (scanState m') - 144)) = 10.
Proof.
  split; [reflexivity|]. split; [reflexivity|].
  eexists _, _. split; [vm_compute; reflexivity|].
  repeat split; by vm_compute.
Qed.

(** S5 and its converse: a greater height is taken, and the height only
    grows along a run. *)
Lemma announceGetBlockNumber_only_advances_witness :
  ∃ m' log,
    client_run [OpAnnounceGetBlockNumber 1 300; OpAnnounceGetBlockNumber 3 200]
      simple_connected = Some (m', log)
    ∧ BRClientSyncManagerAnnounceGetBlockNumber simple_connected 1 300
      = (set_networkBlockHeight 300 simple_connected,
         [eventCallback (SYNC_MANAGER_BLOCK_HEIGHT_UPDATED 300)])
    ∧ BRClientSyncManagerGetBlockHeight simple_connected
      ≤ BRClientSyncManagerGetBlockHeight m'.
Proof.
  set (ops := [OpAnnounceGetBlockNumber 1 300; OpAnnounceGetBlockNumber 3 200]).
  assert (Hrun : client_run ops simple_connected
                 = Some (simple_after ops simple_connected,
                         simple_log ops simple_connected))
    by (vm_compute; reflexivity).
  exists (simple_after ops simple_connected), (simple_log ops simple_connected).
  split; [exact Hrun|].
  destruct (announceGetBlockNumber_only_advances simple_connected 1 300
              _ _ _ Hrun) as (Haccept & _ & Hmono).
  split; [|exact Hmono].
  assert (Hpre : networkBlockHeight simple_connected < 300
                 ∧ isConnected simple_connected = true)
    by (vm_compute; split; reflexivity).
  apply Haccept in Hpre. destruct Hpre as [Heq _]. exact Heq.
Defined.

(** S4: submit while connected and while disconnected. *)
Lemma submit_connected_or_not_witness :
  (∃ m', BRClientSyncManagerSubmit simple_connected
           (mkBRTransaction 7 200 0 simple_payment)
         = Some (m', [funcSubmitTransaction simple_payment 7 3]))
  ∧ BRClientSyncManagerSubmit simple_fresh
      (mkBRTransaction 7 200 0 simple_payment)
    = Some (simple_fresh,
            [eventCallback
               (SYNC_MANAGER_TXN_SUBMITTED
                  (mkBRTransaction 7 200 0 simple_payment) (-1))]).
Proof.
  split.
  - destruct (submit_connected_or_not simple_connected
                (mkBRTransaction 7 200 0 simple_payment))
      as (m' & t & Hs & Hcase); [intros _; by vm_compute|].
    exists m'. change (isConnected simple_connected) with true in Hcase.
    destruct Hcase as (-> & _). exact Hs.
  - destruct (submit_connected_or_not simple_fresh
                (mkBRTransaction 7 200 0 simple_payment))
      as (m' & t & Hs & Hcase); [intros Hc; by vm_compute in Hc|].
    change (isConnected simple_fresh) with false in Hcase.
    destruct Hcase as (-> & -> & _). exact Hs.
Defined.

(** An unsigned payload is dropped although the request id is the scan's. *)
Lemma announceGetTransactionsItem_needs_signed_witness :
  BRClientSyncManagerAnnounceGetTransactionsItem simple_connected 2
    simple_unsigned_payment 1600000000 200 = (simple_connected, []).
Proof.
  apply (announceGetTransactionsItem_needs_signed simple_connected 2
           simple_unsigned_payment 1600000000 200).
  intros tx [= <-]. reflexivity.
Defined.

(** On the dated table a key made at time 1500000000 starts from the
    checkpoint at height 100, the last one more than a week older, and not
    from the one at height 200 that is only older than the key; the initial
    height is still 100 after the run of S2. *)
Lemma initBlockHeight_fixed_witness :
  ∃ m m' log,
    BRSyncManagerNewForMode (BRMerkleBlock := unit) (BRPeer := unit)
      (BRPeerManager := SimplePeerManager)
      SYNC_MODE_BRD_ONLY simple_dated_params simple_empty_wallet 1500000000
      244 [] []
    = Some (ClientSyncManager m)
    ∧ client_run simple_s2_run m = Some (m', log)
    ∧ BRChainParamsGetCheckpointBefore simple_dated_params
        (1500000000 - 604800) = Some (mkBRCheckPoint 100 1499000000)
    ∧ BRChainParamsGetCheckpointBefore simple_dated_params 1500000000
      = Some (mkBRCheckPoint 200 1499900000)
    ∧ initBlockHeight m = 100
    ∧ initBlockHeight m' = 100.
Proof.
  assert (Hnew : BRSyncManagerNewForMode (BRMerkleBlock := unit) (BRPeer := unit)
                   (BRPeerManager := SimplePeerManager)
                   SYNC_MODE_BRD_ONLY simple_dated_params simple_empty_wallet
                   1500000000 244 [] []
                 = Some (ClientSyncManager simple_dated_fresh))
    by (vm_compute; reflexivity).
  assert (Hrun : client_run simple_s2_run simple_dated_fresh
                 = Some (simple_after simple_s2_run simple_dated_fresh,
                         simple_log simple_s2_run simple_dated_fresh))
    by (vm_compute; reflexivity).
  destruct (initBlockHeight_fixed _ _ _ _ _ _ _ _ _ _ Hnew Hrun)
    as (checkpoint & _ & Hmin & _ & Hkeep & Hweek & _).
  assert (Hrange : 604800 ≤ 1500000000 < 4294967296) by lia.
  apply Hweek in Hrange.
  assert (Hcp : BRChainParamsGetCheckpointBefore simple_dated_params
                  (1500000000 - 604800) = Some (mkBRCheckPoint 100 1499000000))
    by (vm_compute; reflexivity).
  rewrite Hcp in Hrange. injection Hrange as <-.
  exists simple_dated_fresh, (simple_after simple_s2_run simple_dated_fresh),
    (simple_log simple_s2_run simple_dated_fresh).
  split; [exact Hnew|]. split; [exact Hrun|]. split; [exact Hcp|].
  split; [vm_compute; reflexivity|]. split; [exact Hmin|].
  rewrite Hkeep. exact Hmin.
Defined.

(** A key whose time is below one week, here 0: no checkpoint is a week
    older, the 32-bit difference wraps to 4294362496 and the constructor
    starts from the newest checkpoint, at height 200. *)
Lemma initBlockHeight_wraps_below_one_week :
  BRChainParamsGetCheckpointBefore simple_dated_params (0 - 604800) = None
  ∧ to_uint32 (0 - ONE_WEEK_IN_SECONDS) = 4294362496
  ∧ ∃ m,
      BRSyncManagerNewForMode (BRMerkleBlock := unit) (BRPeer := unit)
        (BRPeerManager := SimplePeerManager)
        SYNC_MODE_BRD_ONLY simple_dated_params simple_empty_wallet 0 244 [] []
      = Some (ClientSyncManager m)
      ∧ initBlockHeight m = 200
      ∧ syncedBlockHeight m = 200.
Proof.
  split; [reflexivity|]. split; [reflexivity|].
  eexists. split; [vm_compute; reflexivity|]. split; reflexivity.
Qed.

(** S1 after [connect]: the full scan is stopped with -1 before
    [Disconnected]; before [connect] there is nothing to stop. *)
Lemma disconnect_stops_scan_witness :
  (∃ m',
     BRClientSyncManagerDisconnect simple_connected
     = Some (m', [eventCallback (SYNC_MANAGER_SYNC_STOPPED (-1));
                  eventCallback SYNC_MANAGER_DISCONNECTED])
     ∧ isConnected m' = false
     ∧ scanState m' = BRClientSyncManagerScanStateWipe)
  ∧ BRClientSyncManagerDisconnect simple_fresh = Some (simple_fresh, []).
Proof.
  split.
  - destruct (disconnect_stops_scan simple_connected)
      as (m' & t & Hd & Hcase).
    change (isConnected simple_connected) with true in Hcase.
    destruct Hcase as (Hc & Ht & _ & _ & Hwipe & _).
    assert (Hfull : BRClientSyncManagerIsInFullScan simple_connected = true)
      by (vm_compute; reflexivity).
    rewrite Hfull in Ht. cbn [app] in Ht. subst t.
    assert (Heval : snd <$> BRClientSyncManagerDisconnect simple_connected
                    = Some [eventCallback (SYNC_MANAGER_SYNC_STOPPED (-1));
                            eventCallback SYNC_MANAGER_DISCONNECTED])
      by (vm_compute; reflexivity).
    exists m'. split; [exact Hd|]. split; [exact Hc|exact Hwipe].
  - destruct (disconnect_stops_scan simple_fresh) as (m' & t & Hd & Hcase).
    change (isConnected simple_fresh) with false in Hcase.
    destruct Hcase as [-> ->]. exact Hd.
Defined.

(** S6 with the send at height 200 and the network at 1000. *)
Lemma scanToDepth_low_resets_synced_witness :
  ∃ m' t,
    BRClientSyncManagerScanToDepth (simple_sender 200) SYNC_DEPTH_LOW
    = Some (m', t)
    ∧ syncedBlockHeight m' = 200.
Proof.
  destruct (scanToDepth_low_resets_synced (simple_sender 200))
    as [(m' & t & Hscan & Hsynced) _].
  - unfold simple_sender. apply simple_after_wf, simple_fresh_wf.
  - vm_compute. reflexivity.
  - vm_compute. reflexivity.
  - vm_compute. reflexivity.
  - vm_compute. discriminate.
  - exists m', t. split; [exact Hscan|]. rewrite Hsynced.
    vm_compute. reflexivity.
Defined.

(** A send exactly six blocks below the network height is confirmed and six
    blocks deep, yet the rescan starts from [initBlockHeight]. *)
Lemma scanToDepth_low_skips_six_deep :
  isConnected (simple_sender 994) = true
  ∧ networkBlockHeight (simple_sender 994) = 1000
  ∧ initBlockHeight (simple_sender 994) = 100
  ∧ spec_lastConfirmedSendHeight (wallet (simple_sender 994)) 1000 = 994
  ∧ ∃ m' t,
      BRClientSyncManagerScanToDepth (simple_sender 994) SYNC_DEPTH_LOW
      = Some (m', t)
      ∧ syncedBlockHeight m' = 100.
Proof.
  split; [vm_compute; reflexivity|]. split; [vm_compute; reflexivity|].
  split; [vm_compute; reflexivity|]. split; [vm_compute; reflexivity|].
  eexists _, _. split; [vm_compute; reflexivity|]. reflexivity.
Qed.

(** In the run of S2 the two fresh ids are 1 and 2. *)
Lemma request_ids_fresh_increase_witness :
  ∃ m' log,
    client_run simple_s2_run simple_fresh = Some (m', log)
    ∧ fresh_rids log = [1; 2]
    ∧ StronglySorted Z.lt (fresh_rids log)
    ∧ Forall (fun rid => 0 < rid) (fresh_rids log).
Proof.
  assert (Hrun : client_run simple_s2_run simple_fresh
                 = Some (simple_after simple_s2_run simple_fresh,
                         simple_log simple_s2_run simple_fresh))
    by (vm_compute; reflexivity).
  assert (Hpos : 0 ≤ requestIdGenerator simple_fresh) by (vm_compute; discriminate).
  destruct (request_ids_fresh_increase _ _ _ _ Hpos Hrun)
    as (_ & Hsorted & Hpositive & _).
  exists (simple_after simple_s2_run simple_fresh),
    (simple_log simple_s2_run simple_fresh).
  split; [exact Hrun|]. split; [vm_compute; reflexivity|].
  split; [exact Hsorted|exact Hpositive].
Defined.

(** In the same run the client sees the ids 1, 2, 2: the completion asks
    again with the id of the scan, so the ids handed to the client are not
    strictly increasing. *)
Lemma request_ids_repeat_on_reissue :
  ∃ m' log,
    client_run simple_s2_run simple_fresh = Some (m', log)
    ∧ all_rids log = [1; 2; 2]
    ∧ ¬ StronglySorted Z.lt (all_rids log).
Proof.
  assert (Hrun : client_run simple_s2_run simple_fresh
                 = Some (simple_after simple_s2_run simple_fresh,
                         simple_log simple_s2_run simple_fresh))
    by (vm_compute; reflexivity).
  assert (Hall : all_rids (simple_log simple_s2_run simple_fresh) = [1; 2; 2])
    by (vm_compute; reflexivity).
  exists (simple_after simple_s2_run simple_fresh),
    (simple_log simple_s2_run simple_fresh).
  split; [exact Hrun|]. split; [exact Hall|]. rewrite Hall. intros Hsorted.
  apply StronglySorted_inv in Hsorted as [Hsorted _].
  apply StronglySorted_inv in Hsorted as [_ Hsorted].
  apply Forall_cons in Hsorted as [Hlt _]. lia.
Qed.

(** A P2P manager in a full scan whose peer manager has disconnected: the
    stop event of [txStatusUpdate] carries 0, where the one that
    [syncStarted] sends for the same interrupted scan carries -1. *)
Lemma txStatusUpdate_stop_reason_zero :
  (Peer._BRPeerSyncManagerTxStatusUpdate simple_peer_scanning).2
  = [eventCallback (SYNC_MANAGER_SYNC_STOPPED 0);
     eventCallback SYNC_MANAGER_DISCONNECTED;
     eventCallback SYNC_MANAGER_TXNS_UPDATED]
  ∧ (Peer._BRPeerSyncManagerSyncStarted simple_peer_scanning).2
    = [eventCallback (SYNC_MANAGER_SYNC_STOPPED (-1));
       eventCallback SYNC_MANAGER_SYNC_STARTED].
Proof. split; reflexivity. Qed.

(** ** Runs of the client manager: events and invariants *)

Lemma replay_app {S E : Type} (step : S → E → option S) (s : S)
    (l1 l2 : list E) :
  replay step s (l1 ++ l2) = s' ← replay step s l1; replay step s' l2.
Proof.
  revert s. induction l1 as [|e l1 IH]; intros s; cbn; [done|].
  destruct (step s e); cbn; [apply IH|done].
Qed.

(** Heights that replay through [climb_step] are strictly increasing and lie
    between the height at the start and the height at the end. *)
Lemma replay_climb_sorted (l : list Z) (s s' : Z) :
  replay climb_step s l = Some s' →
  s ≤ s' ∧ Forall (fun h => s < h ≤ s') l ∧ StronglySorted Z.lt l.
Proof.
  revert s. induction l as [|h l IH]; intros s; cbn.
  - intros [= <-]. split; [lia|]. split; constructor.
  - unfold climb_step. destruct (s <? h) eqn:E; [|discriminate].
    apply Z.ltb_lt in E. intros Hr. apply IH in Hr as (Hle & Hall & Hsorted).
    split; [lia|]. split.
    + constructor; [lia|]. eapply Forall_impl; [exact Hall|].
      intros x Hx. cbn in Hx. lia.
    + constructor; [done|]. eapply Forall_impl; [exact Hall|].
      intros x Hx. cbn in Hx. lia.
Qed.

(** Events that replay through [flip_step] alternate: no event repeats the
    one before it, and the first differs from the flag at the start. *)
Lemma replay_flip_alternates (l : list bool) (b b' : bool) :
  replay flip_step b l = Some b' →
  last (b :: l) = Some b' ∧ ∀ i x y, (b :: l) !! i = Some x →
                                 (b :: l) !! S i = Some y → y = negb x.
Proof.
  revert b. induction l as [|e l IH]; intros b; cbn [replay].
  - intros [= <-]. split; [done|]. intros [|i] x y; cbn; intros; discriminate.
  - unfold flip_step. destruct (Bool.eqb e b) eqn:E; [discriminate|].
    apply Bool.eqb_false_iff in E.
    intros Hr. apply IH in Hr as (Hlast & Halt). split; [by rewrite last_cons_cons|].
    intros [|i] x y Hx Hy.
    + cbn in Hx, Hy. injection Hx as <-. injection Hy as <-.
      by destruct e, b.
    + by apply (Halt i).
Qed.

Section ClientSyncManagerRuns.

Context {BRWallet : Type} `{BRWalletOps BRWallet} `{BRTransactionOps}.

Implicit Types m : BRClientSyncManagerStruct (BRWallet := BRWallet).

#[local] Arguments wallet_first_unused : simpl never.
#[local] Arguments _getWalletAddresses : simpl never.
#[local] Arguments _fillWalletAddressSet : simpl never.
#[local] Arguments _updateWalletAddressSet : simpl never.
#[local] Arguments _getLastConfirmedSendTxHeight : simpl never.
#[local] Arguments to_uint32 : simpl never.
#[local] Arguments to_uint64 : simpl never.
#[local] Arguments MAX : simpl never.
#[local] Arguments MIN : simpl never.

(** *** The cases of the operations *)

Lemma UpdateTransactions_idle_inv m m' t :
  BRClientSyncManagerUpdateTransactions m = Some (m', t) →
  isConnected m = true → requestId (scanState m) = 0 →
  m' = started_manager m ∧ t = started_callbacks m.
Proof.
  intros Hu Hc Hr. pose proof Hu as Hu'.
  apply UpdateTransactions_inv in Hu' as [(-> & ->)|(_ & _ & _ & _ & ? & ?)];
    [|done].
  revert Hu. unfold BRClientSyncManagerUpdateTransactions,
    BRClientSyncManagerScanStateIsInProgress.
  rewrite Hr, Hc. cbn [negb andb Z.eqb].
  destruct (BRClientSyncManagerGenerateRid m) as [[rid m1]|] eqn:Hg;
    [|discriminate].
  apply GenerateRid_spec in Hg as (Hlt & -> & ->). cbn.
  destruct (BRClientSyncManagerScanStateInit _ _ _ _ _) as [[s w]|] eqn:Hi;
    [|discriminate]. cbn.
  destruct (BRClientSyncManagerScanStateGetAddresses _); [|discriminate]. cbn.
  case_match; [discriminate|]. intros [= Hm _].
  apply (f_equal requestIdGenerator) in Hm. cbn in Hm. lia.
Qed.

(** The outcomes of [announceGetTransactionsDone]: ignored, failed,
    completed, or asked again with the new addresses. *)
Lemma Done_cases m rid success m' t :
  BRClientSyncManagerAnnounceGetTransactionsDone m rid success = Some (m', t) →
  (m' = m ∧ t = []
   ∧ (rid ≠ requestId (scanState m) ∨ isConnected m = false))
  ∨ rid = requestId (scanState m) ∧ isConnected m = true
    ∧ ((success = 0
        ∧ m' = set_scanState BRClientSyncManagerScanStateWipe m
        ∧ t = event_if (isFullScan (scanState m))
                (SYNC_MANAGER_SYNC_STOPPED (-1)))
       ∨ (success ≠ 0
          ∧ (∃ w, m' = completed_manager m w)
          ∧ t = event_if (isFullScan (scanState m))
                  (SYNC_MANAGER_SYNC_STOPPED 0))
       ∨ (success ≠ 0
          ∧ ∃ known w,
              knownAddresses (scanState m) = Some known
              ∧ m' = set_wallet w
                       (set_scanState
                          (advanced_scan (scanState m) (wallet m) known) m)
              ∧ t = [funcGetTransactions (new_addresses (wallet m) known)
                       (begBlockNumber (scanState m))
                       (endBlockNumber (scanState m)) rid])).
Proof.
  destruct (decide (rid = requestId (scanState m))) as [Hr|Hr];
    [destruct (isConnected m) eqn:Hc|].
  - destruct (decide (success = 0)) as [->|Hs].
    + rewrite Done_failure by done. intros [= <- <-]. right.
      split; [done|]. split; [done|]. by left.
    + destruct (knownAddresses (scanState m)) as [known|] eqn:Hk.
      * rewrite (Done_success m rid success known) by done.
        destruct (first_unused_changed _ _);
          [destruct (bool_decide _)|]; intros [= <- <-]; right;
          (split; [done|]); (split; [done|]); right.
        -- left. eauto.
        -- right. split; [done|]. eauto.
        -- left. eauto.
      * unfold BRClientSyncManagerAnnounceGetTransactionsDone,
          BRClientSyncManagerScanStateGetRequestId,
          BRClientSyncManagerScanStateAdvanceAndGetNewAddresses.
        apply Z.eqb_neq in Hs. rewrite Hr, Z.eqb_refl, Hc, Hs, Hk. cbn.
        destruct (wallet_first_unused (wallet m) BR_ADDRESS_NONE BR_ADDRESS_NONE)
          as [[w ext] int].
        case_match; cbn; [discriminate|].
        intros [= <- <-]. right. split; [done|]. split; [done|]. right. left.
        apply Z.eqb_neq in Hs. split; [done|]. split; [|done].
        exists w. unfold completed_manager. by destruct m.
  - rewrite Done_stale by auto. intros [= <- <-]. left. auto.
  - rewrite Done_stale by auto. intros [= <- <-]. left. auto.
Qed.

(** An operation that needs the connection does nothing without it. *)
Lemma disconnected_step op m :
  isConnected m = false → needs_connection op = true →
  client_step op m = Some (m, []).
Proof.
  intros Hc Hop.
  assert (Hu : BRClientSyncManagerUpdateBlockNumber m = Some (m, []))
    by (unfold BRClientSyncManagerUpdateBlockNumber; by rewrite Hc).
  assert (Hscan : ∀ depth, BRClientSyncManagerScanToDepth m depth = Some (m, [])).
  { intros depth. unfold BRClientSyncManagerScanToDepth, scan_to_depth_locked.
    rewrite Hc, Hu. cbn. rewrite UpdateTransactions_skip by auto. done. }
  destruct op as [| | |depth|transaction| |rid blockHeight0
                  |rid txn timestamp0 blockHeight0|rid success|rid txn error];
    try discriminate; unfold client_step.
  - unfold BRClientSyncManagerDisconnect. by rewrite Hc.
  - apply Hscan.
  - apply Hscan.
  - unfold BRClientSyncManagerTickTock. rewrite Hu. cbn.
    rewrite UpdateTransactions_skip by auto. done.
  - unfold BRClientSyncManagerAnnounceGetBlockNumber.
    by rewrite Hc, andb_false_r.
  - unfold BRClientSyncManagerAnnounceGetTransactionsItem.
    destruct (BRTransactionParse txn); [|done].
    by rewrite Hc, !andb_false_r.
  - by rewrite Done_stale by auto.
Qed.

(** Only [connect] and [disconnect] change the connection flag. *)
Lemma client_step_connection op m m' t :
  client_step op m = Some (m', t) →
  isConnected m' = match op with
                   | OpConnect => true
                   | OpDisconnect => false
                   | _ => isConnected m
                   end.
Proof.
  destruct op as [| | |depth|transaction| |rid blockHeight0
                  |rid txn timestamp0 blockHeight0|rid success|rid txn error];
    unfold client_step; intros Hstep.
  - unfold BRClientSyncManagerConnect in Hstep. cbv zeta in Hstep.
    destruct (BRClientSyncManagerUpdateBlockNumber _) as [[m2 t2]|] eqn:H2;
      [|discriminate]. cbn in Hstep.
    destruct (BRClientSyncManagerUpdateTransactions m2) as [[m3 t3]|] eqn:H3;
      [|discriminate]. cbn in Hstep. injection Hstep as <- _.
    destruct (updates_facts _ _ _ _ _ H2 H3) as (_ & _ & -> & _).
    by destruct (isConnected m) eqn:Hc.
  - revert Hstep. unfold BRClientSyncManagerDisconnect.
    destruct (isConnected m) eqn:Hc; by intros [= <- <-].
  - unfold BRClientSyncManagerScan, BRClientSyncManagerScanToDepth in Hstep.
    pose proof (scan_to_depth_locked_facts m SYNC_DEPTH_HIGH) as (_ & _ & _ & Hc1).
    destruct (scan_to_depth_locked m SYNC_DEPTH_HIGH) as [m1 t1].
    destruct (BRClientSyncManagerUpdateBlockNumber m1) as [[m2 t2]|] eqn:H2;
      [|discriminate]. cbn in Hstep.
    destruct (BRClientSyncManagerUpdateTransactions m2) as [[m3 t3]|] eqn:H3;
      [|discriminate]. cbn in Hstep. injection Hstep as <- _.
    destruct (updates_facts _ _ _ _ _ H2 H3) as (_ & _ & -> & _). done.
  - unfold BRClientSyncManagerScanToDepth in Hstep.
    pose proof (scan_to_depth_locked_facts m depth) as (_ & _ & _ & Hc1).
    destruct (scan_to_depth_locked m depth) as [m1 t1].
    destruct (BRClientSyncManagerUpdateBlockNumber m1) as [[m2 t2]|] eqn:H2;
      [|discriminate]. cbn in Hstep.
    destruct (BRClientSyncManagerUpdateTransactions m2) as [[m3 t3]|] eqn:H3;
      [|discriminate]. cbn in Hstep. injection Hstep as <- _.
    destruct (updates_facts _ _ _ _ _ H2 H3) as (_ & _ & -> & _). done.
  - revert Hstep. unfold BRClientSyncManagerSubmit.
    destruct (isConnected m) eqn:Hc.
    + destruct (BRClientSyncManagerGenerateRid m) as [[rid m1]|] eqn:Hg;
        [|discriminate].
      apply GenerateRid_spec in Hg as (_ & -> & ->). by intros [= <- <-].
    + by intros [= <- <-].
  - unfold BRClientSyncManagerTickTock in Hstep.
    destruct (BRClientSyncManagerUpdateBlockNumber m) as [[m1 t1]|] eqn:H1;
      [|discriminate]. cbn in Hstep.
    destruct (BRClientSyncManagerUpdateTransactions m1) as [[m2 t2]|] eqn:H2;
      [|discriminate]. cbn in Hstep. injection Hstep as <- _.
    by destruct (updates_facts _ _ _ _ _ H1 H2) as (_ & _ & -> & _).
  - apply some_pair in Hstep as [<- _].
    unfold BRClientSyncManagerAnnounceGetBlockNumber. by case_match.
  - apply some_pair in Hstep as [<- _].
    unfold BRClientSyncManagerAnnounceGetTransactionsItem.
    by repeat case_match.
  - apply Done_cases in Hstep
      as [(-> & _)|(_ & Hc & [(_ & -> & _)|[(_ & [w ->] & _)
                                            |(_ & known & w & _ & -> & _)]])];
      done.
  - apply some_pair in Hstep as [<- _].
    unfold BRClientSyncManagerAnnounceSubmitTransaction. cbn. by case_match.
Qed.

(** *** The callbacks account for the changes of state *)

#[local] Arguments started_scan : simpl never.
#[local] Arguments advanced_scan : simpl never.

Lemma tracks_app m m1 m2 t1 t2 :
  tracks m t1 m1 → tracks m1 t2 m2 → tracks m (t1 ++ t2) m2.
Proof.
  unfold tracks, connection_events, sync_events, announced_heights.
  intros (A1 & B1 & C1) (A2 & B2 & C2).
  rewrite !omap_app, !replay_app, A1, B1, C1. done.
Qed.

Lemma tracks_quiet m m' t :
  isConnected m' = isConnected m →
  isFullScan (scanState m') = isFullScan (scanState m) →
  networkBlockHeight m' = networkBlockHeight m →
  connection_events t = [] → sync_events t = [] → announced_heights t = [] →
  tracks m t m'.
Proof.
  intros Hc Hf Hn Ht1 Ht2 Ht3. unfold tracks.
  by rewrite Ht1, Ht2, Ht3, Hc, Hf, Hn.
Qed.

Lemma UpdateBlockNumber_tracks m m' t :
  BRClientSyncManagerUpdateBlockNumber m = Some (m', t) → tracks m t m'.
Proof.
  intros Hu. apply UpdateBlockNumber_inv in Hu
    as [(_ & -> & ->)|(_ & _ & -> & ->)]; by apply tracks_quiet.
Qed.

Lemma UpdateTransactions_tracks m m' t :
  BRClientSyncManagerUpdateTransactions m = Some (m', t) →
  client_wf m → tracks m t m'.
Proof.
  intros Hu (_ & _ & _ & _ & Hidle & _). apply UpdateTransactions_inv in Hu
    as [(-> & ->)|(_ & Hr & _ & _ & -> & ->)]; [by apply tracks_quiet|].
  unfold tracks, started_callbacks, started_manager.
  cbn [isConnected scanState networkBlockHeight set_wallet set_scanState
       set_requestIdGenerator].
  rewrite (Hidle Hr). cbn [isFullScan BRClientSyncManagerScanStateWipe].
  destruct (isFullScan (started_scan m)); cbn; by destruct (isConnected m).
Qed.

Lemma updates_tracks m m1 m2 t1 t2 :
  BRClientSyncManagerUpdateBlockNumber m = Some (m1, t1) →
  BRClientSyncManagerUpdateTransactions m1 = Some (m2, t2) →
  client_wf m → tracks m (t1 ++ t2) m2.
Proof.
  intros H1 H2 Hwf. eapply tracks_app; [by eapply UpdateBlockNumber_tracks|].
  eapply UpdateTransactions_tracks; [done|]. by eapply UpdateBlockNumber_wf.
Qed.

Lemma scan_to_depth_locked_tracks m depth :
  tracks m (scan_to_depth_locked m depth).2 (scan_to_depth_locked m depth).1.
Proof.
  unfold scan_to_depth_locked. destruct (isConnected m) eqn:Hc;
    [|by apply tracks_quiet].
  unfold tracks. cbn [fst snd].
  unfold BRClientSyncManagerScanStateIsFullScan.
  destruct depth; cbn; rewrite ?Hc; by destruct (isFullScan (scanState m)).
Qed.

Lemma Done_tracks m rid success m' t :
  BRClientSyncManagerAnnounceGetTransactionsDone m rid success = Some (m', t) →
  tracks m t m'.
Proof.
  intros Hd. apply Done_cases in Hd
    as [(-> & -> & _)|(_ & Hc & [(_ & -> & ->)|[(_ & [w ->] & ->)
                                          |(_ & known & w & _ & -> & ->)]])].
  - by apply tracks_quiet.
  - unfold tracks. cbn. rewrite Hc. by destruct (isFullScan (scanState m)).
  - unfold tracks. cbn. rewrite Hc. by destruct (isFullScan (scanState m)).
  - by apply tracks_quiet.
Qed.

Lemma client_step_tracks op m m' t :
  client_step op m = Some (m', t) → client_wf m → tracks m t m'.
Proof.
  destruct op as [| | |depth|transaction| |rid blockHeight0
                  |rid txn timestamp0 blockHeight0|rid success|rid txn error];
    unfold client_step; intros Hstep Hwf.
  - unfold BRClientSyncManagerConnect in Hstep. cbv zeta in Hstep.
    destruct (BRClientSyncManagerUpdateBlockNumber _) as [[m2 t2]|] eqn:H2;
      [|discriminate]. cbn in Hstep.
    destruct (BRClientSyncManagerUpdateTransactions m2) as [[m3 t3]|] eqn:H3;
      [|discriminate]. cbn in Hstep. injection Hstep as <- <-.
    eapply tracks_app; [|eapply updates_tracks; [done|done|]].
    + destruct (isConnected m) eqn:Hc; [by apply tracks_quiet|].
      unfold tracks. cbn. by rewrite Hc.
    + by destruct (negb (isConnected m)).
  - revert Hstep. unfold BRClientSyncManagerDisconnect.
    destruct (isConnected m) eqn:Hc; intros [= <- <-];
      [|by apply tracks_quiet].
    unfold tracks, BRClientSyncManagerScanStateIsFullScan. cbn. rewrite Hc.
    by destruct (isFullScan (scanState m)).
  - unfold BRClientSyncManagerScan, BRClientSyncManagerScanToDepth in Hstep.
    pose proof (scan_to_depth_locked_wf m SYNC_DEPTH_HIGH Hwf) as Hwf1.
    pose proof (scan_to_depth_locked_tracks m SYNC_DEPTH_HIGH) as Ht1.
    destruct (scan_to_depth_locked m SYNC_DEPTH_HIGH) as [m1 t1].
    destruct (BRClientSyncManagerUpdateBlockNumber m1) as [[m2 t2]|] eqn:H2;
      [|discriminate]. cbn in Hstep.
    destruct (BRClientSyncManagerUpdateTransactions m2) as [[m3 t3]|] eqn:H3;
      [|discriminate]. cbn in Hstep. injection Hstep as <- <-.
    eapply tracks_app; [exact Ht1|]. by eapply updates_tracks.
  - unfold BRClientSyncManagerScanToDepth in Hstep.
    pose proof (scan_to_depth_locked_wf m depth Hwf) as Hwf1.
    pose proof (scan_to_depth_locked_tracks m depth) as Ht1.
    destruct (scan_to_depth_locked m depth) as [m1 t1].
    destruct (BRClientSyncManagerUpdateBlockNumber m1) as [[m2 t2]|] eqn:H2;
      [|discriminate]. cbn in Hstep.
    destruct (BRClientSyncManagerUpdateTransactions m2) as [[m3 t3]|] eqn:H3;
      [|discriminate]. cbn in Hstep. injection Hstep as <- <-.
    eapply tracks_app; [exact Ht1|]. by eapply updates_tracks.
  - revert Hstep. unfold BRClientSyncManagerSubmit.
    destruct (isConnected m) eqn:Hc.
    + destruct (BRClientSyncManagerGenerateRid m) as [[rid m1]|] eqn:Hg;
        [|discriminate].
      apply GenerateRid_spec in Hg as (_ & -> & ->). intros [= <- <-].
      by apply tracks_quiet.
    + intros [= <- <-]. by apply tracks_quiet.
  - unfold BRClientSyncManagerTickTock in Hstep.
    destruct (BRClientSyncManagerUpdateBlockNumber m) as [[m1 t1]|] eqn:H1;
      [|discriminate]. cbn in Hstep.
    destruct (BRClientSyncManagerUpdateTransactions m1) as [[m2 t2]|] eqn:H2;
      [|discriminate]. cbn in Hstep. injection Hstep as <- <-.
    by eapply updates_tracks.
  - apply some_pair in Hstep as [<- <-].
    unfold BRClientSyncManagerAnnounceGetBlockNumber.
    destruct (blockHeight0 >? networkBlockHeight m) eqn:Hh; cbn [andb];
      [destruct (isConnected m) eqn:Hc|]; cbn [fst snd];
      try by apply tracks_quiet.
    unfold tracks. cbn. unfold climb_step. rewrite Hc.
    apply Z.gtb_lt, Z.ltb_lt in Hh. by rewrite Hh.
  - apply some_pair in Hstep as [<- <-].
    unfold BRClientSyncManagerAnnounceGetTransactionsItem.
    repeat case_match; by apply tracks_quiet.
  - by eapply Done_tracks.
  - apply some_pair in Hstep as [<- <-].
    unfold BRClientSyncManagerAnnounceSubmitTransaction. cbn [fst snd].
    case_match; by apply tracks_quiet.
Qed.

Lemma run_callbacks_cons op t (log : list (ClientOperation * list Callback)) :
  run_callbacks ((op, t) :: log) = t ++ run_callbacks log.
Proof. reflexivity. Qed.

Lemma client_run_tracks ops m m' log :
  client_run ops m = Some (m', log) → client_wf m →
  tracks m (run_callbacks log) m'.
Proof.
  revert m m' log. induction ops as [|op ops IH]; intros m m' log; cbn.
  - intros [= <- <-] _. by apply tracks_quiet.
  - destruct (client_step op m) as [[m1 t]|] eqn:Hstep; [|discriminate]. cbn.
    destruct (client_run ops m1) as [[m2 log']|] eqn:Hrun; [|discriminate]. cbn.
    intros [= <- <-] Hwf. rewrite run_callbacks_cons.
    eapply tracks_app; [by eapply client_step_tracks|].
    eapply IH; [done|]. by eapply client_step_wf.
Qed.


(** *** A manager that is not connected *)

Lemma client_step_idle op m m' t :
  client_step op m = Some (m', t) →
  idle_when_disconnected m → idle_when_disconnected m'.
Proof.
  intros Hstep Hidle Hc'.
  pose proof (client_step_connection _ _ _ _ Hstep) as Hconn.
  rewrite Hc' in Hconn. destruct (isConnected m) eqn:Hc.
  - destruct op; try discriminate. revert Hstep.
    unfold client_step, BRClientSyncManagerDisconnect. rewrite Hc.
    by intros [= <- <-].
  - specialize (Hidle Hc).
    destruct (needs_connection op) eqn:Hn.
    + rewrite disconnected_step in Hstep by done. by injection Hstep as <- _.
    + destruct op; try discriminate; unfold client_step in Hstep.
      * revert Hstep. unfold BRClientSyncManagerSubmit. rewrite Hc.
        by intros [= <- <-].
      * apply some_pair in Hstep as [<- _].
        unfold BRClientSyncManagerAnnounceSubmitTransaction. cbn [fst].
        by case_match.
Qed.

Lemma client_run_idle ops m m' log :
  client_run ops m = Some (m', log) →
  idle_when_disconnected m → idle_when_disconnected m'.
Proof.
  revert m m' log. induction ops as [|op ops IH]; intros m m' log; cbn.
  - by intros [= <- <-].
  - destruct (client_step op m) as [[m1 t]|] eqn:Hstep; [|discriminate]. cbn.
    destruct (client_run ops m1) as [[m2 log']|] eqn:Hrun; [|discriminate]. cbn.
    intros [= <- <-] Hidle. eapply IH; [done|]. by eapply client_step_idle.
Qed.

(** *** The two updates on a connected manager *)

Lemma started_wallet_frame m m2 :
  wallet m2 = wallet m → scanState m2 = scanState m →
  started_wallet m2 = started_wallet m.
Proof. unfold started_wallet. by intros -> ->. Qed.

(** [updateBlockNumber] followed by [updateTransactions], as [connect],
    [scanToDepth] and [tickTock] call them, on a connected manager. *)
Lemma updates_connected m :
  client_wf m → isConnected m = true →
  requestIdGenerator m + 1 < INT_MAX →
  (requestId (scanState m) = 0 →
   Z.max (syncedBlockHeight m) (networkBlockHeight m) < UINT64_MAX
   ∧ _getWalletAddresses (started_wallet m) ≠ []) →
  ∃ m2 m' addresses,
    BRClientSyncManagerUpdateBlockNumber m
    = Some (m2, [funcGetBlockNumber (requestIdGenerator m + 1)])
    ∧ BRClientSyncManagerUpdateTransactions m2
      = Some (m', if requestId (scanState m) =? 0
                  then event_if (isFullScan (scanState m'))
                         SYNC_MANAGER_SYNC_STARTED
                       ++ [funcGetTransactions addresses
                             (begBlockNumber (scanState m'))
                             (endBlockNumber (scanState m'))
                             (requestIdGenerator m + 2)]
                  else [])
    ∧ isConnected m' = true
    ∧ syncedBlockHeight m' = syncedBlockHeight m
    ∧ networkBlockHeight m' = networkBlockHeight m
    ∧ if requestId (scanState m) =? 0
      then requestId (scanState m') = requestIdGenerator m + 2
           ∧ requestIdGenerator m' = requestIdGenerator m + 2
           ∧ begBlockNumber (scanState m') ≤ syncedBlockHeight m
             < endBlockNumber (scanState m')
      else scanState m' = scanState m
           ∧ requestIdGenerator m' = requestIdGenerator m + 1.
Proof.
  intros Hwf Hc Hroom Hpre.
  rewrite (UpdateBlockNumber_connected m) by (first [done|lia]).
  set (m2 := set_requestIdGenerator (requestIdGenerator m + 1) m).
  destruct (requestId (scanState m) =? 0) eqn:Hr.
  - apply Z.eqb_eq in Hr. destruct (Hpre Hr) as [Hmax Haddrs].
    destruct Hwf as (_ & Hs & Hg & _ & Hidle & _).
    assert (Hw2 : started_wallet m2 = started_wallet m)
      by (by apply started_wallet_frame).
    exists m2, (started_manager m2),
      (elements (_fillWalletAddressSet ∅ (started_wallet m2))).
    split; [done|].
    rewrite (UpdateTransactions_start m2);
      [|done|done|cbn; lia
       |change (scanState m2) with (scanState m); by rewrite (Hidle Hr)|done
       |by rewrite MAX_max|by rewrite Hw2].
    split.
    { unfold started_callbacks. cbn [started_manager scanState set_wallet
        set_scanState requestIdGenerator set_requestIdGenerator m2].
      by replace (requestIdGenerator m + 1 + 1)
        with (requestIdGenerator m + 2) by lia. }
    destruct (started_window m2 Hs Hmax) as (He & Hb & _ & _).
    cbn in He, Hb |- *.
    split; [done|]. split; [done|]. split; [done|].
    split; [unfold started_scan; cbn; lia|]. split; [lia|].
    rewrite He, Hb. lia.
  - apply Z.eqb_neq in Hr. exists m2, m2, []. split; [done|].
    rewrite (UpdateTransactions_skip m2) by (right; done). done.
Qed.

(** *** Properties of runs *)

(** X1: over every run of a client-mode manager the Connected and
    Disconnected events alternate in step with the connection flag: each
    event reports a change of the flag, so no event repeats the one before
    it, the first differs from the flag at the start and the last is the
    flag at the end. *)
Theorem connection_events_alternate m ops m' log :
  client_wf m → client_run ops m = Some (m', log) →
  let events := connection_events (run_callbacks log) in
  replay flip_step (isConnected m) events = Some (isConnected m')
  ∧ last (isConnected m :: events) = Some (isConnected m')
  ∧ ∀ i x y, (isConnected m :: events) !! i = Some x →
             (isConnected m :: events) !! S i = Some y → y = negb x.
Proof.
  intros Hwf Hrun events.
  destruct (client_run_tracks _ _ _ _ Hrun Hwf) as (Hc & _ & _).
  split; [exact Hc|]. by apply replay_flip_alternates.
Qed.

(** X2: over every run of a client-mode manager the SyncStarted and
    SyncStopped events alternate in step with the full-scan flag that
    [isInFullScan] returns: a SyncStarted is sent only when no full scan is
    active, a SyncStopped only when one is, and the flag at the end is the
    last event. *)
Theorem sync_events_alternate m ops m' log :
  client_wf m → client_run ops m = Some (m', log) →
  let events := sync_events (run_callbacks log) in
  replay flip_step (BRClientSyncManagerIsInFullScan m) events
  = Some (BRClientSyncManagerIsInFullScan m')
  ∧ last (BRClientSyncManagerIsInFullScan m :: events)
    = Some (BRClientSyncManagerIsInFullScan m')
  ∧ ∀ i x y, (BRClientSyncManagerIsInFullScan m :: events) !! i = Some x →
             (BRClientSyncManagerIsInFullScan m :: events) !! S i = Some y →
             y = negb x.
Proof.
  intros Hwf Hrun events.
  destruct (client_run_tracks _ _ _ _ Hrun Hwf) as (_ & Hf & _).
  split; [exact Hf|]. by apply replay_flip_alternates.
Qed.

(** X3: over every run of a client-mode manager the heights of the
    BlockHeightUpdated events are strictly increasing, each above the
    network height at the start and none above the network height at the
    end, which is the last height announced (the height at the start when
    none was). *)
Theorem announced_heights_increase m ops m' log :
  client_wf m → client_run ops m = Some (m', log) →
  let heights := announced_heights (run_callbacks log) in
  StronglySorted Z.lt heights
  ∧ Forall (fun h => networkBlockHeight m < h ≤ networkBlockHeight m') heights
  ∧ last (networkBlockHeight m :: heights) = Some (networkBlockHeight m').
Proof.
  intros Hwf Hrun heights.
  destruct (client_run_tracks _ _ _ _ Hrun Hwf) as (_ & _ & Hn).
  fold heights in Hn.
  destruct (replay_climb_sorted _ _ _ Hn) as (_ & Hall & Hsorted).
  split; [done|]. split; [done|].
  clear Hall Hsorted. revert Hn. generalize (networkBlockHeight m).
  induction heights as [|h l IH]; intros s; cbn [replay].
  - by intros [= <-].
  - unfold climb_step. destruct (s <? h); [|discriminate].
    intros Hr. rewrite last_cons_cons. by apply IH.
Qed.

(** X4: every state that a manager made by [BRClientSyncManagerNew] reaches
    has no scan while it is not connected; a scan in progress has a
    positive request id that the counter has reached, an allocated address
    set and a window [begBlockNumber < endBlockNumber] that fits 64 bits;
    without a scan in progress the scan state is the wiped one, so a full
    scan is reported only while a scan is in progress. *)
Theorem constructed_manager_invariants params w earliestKeyTime blockHeight
    m ops m' log :
  params_wf params → 0 ≤ blockHeight →
  BRClientSyncManagerNew params w earliestKeyTime blockHeight = Some m →
  client_run ops m = Some (m', log) →
  (isConnected m' = false → scanState m' = BRClientSyncManagerScanStateWipe)
  ∧ (BRClientSyncManagerScanStateIsInProgress (scanState m') = false →
     scanState m' = BRClientSyncManagerScanStateWipe)
  ∧ (BRClientSyncManagerScanStateIsInProgress (scanState m') = true →
     isConnected m' = true
     ∧ 0 < requestId (scanState m') ≤ requestIdGenerator m'
     ∧ is_Some (knownAddresses (scanState m'))
     ∧ 0 ≤ begBlockNumber (scanState m') < endBlockNumber (scanState m')
     ∧ endBlockNumber (scanState m') < UINT64_MODULUS)
  ∧ (BRClientSyncManagerIsInFullScan m' = true →
     BRClientSyncManagerScanStateIsInProgress (scanState m') = true)
  ∧ 0 ≤ syncedBlockHeight m'.
Proof.
  intros Hparams Hb Hnew Hrun.
  pose proof (ClientSyncManagerNew_wf _ _ _ _ _ Hparams Hb Hnew) as Hwf.
  assert (Hidle : idle_when_disconnected m).
  { revert Hnew. unfold BRClientSyncManagerNew.
    destruct (BRChainParamsGetCheckpointBefore params _); [|discriminate].
    cbn. by intros [= <-]. }
  apply (client_run_idle _ _ _ _ Hrun) in Hidle.
  apply (client_run_wf _ _ _ _ Hrun) in Hwf
    as (_ & Hsynced & _ & _ & Hwipe & Hbusy).
  unfold BRClientSyncManagerScanStateIsInProgress,
    BRClientSyncManagerIsInFullScan, BRClientSyncManagerScanStateIsFullScan.
  split; [exact Hidle|]. split; [|split; [|split; [|exact Hsynced]]].
  - intros Hr. apply negb_false_iff, Z.eqb_eq in Hr. by apply Hwipe.
  - intros Hr. apply negb_true_iff, Z.eqb_neq in Hr.
    split; [|by apply Hbusy].
    destruct (isConnected m') eqn:Hc; [done|].
    rewrite (Hidle Hc) in Hr. by destruct Hr.
  - intros Hf. apply negb_true_iff, Z.eqb_neq. intros Hr.
    rewrite (Hwipe Hr) in Hf. discriminate.
Qed.

(** X5: a manager that is not connected ignores every operation other than
    [connect], [submit] and [announceSubmitTransaction]: whatever sequence of
    [disconnect], [scan], [scanToDepth], [tickTock], [announceGetBlockNumber],
    [announceGetTransactionsItem] and [announceGetTransactionsDone] is run,
    the manager is unchanged and no callback is made. *)
Theorem disconnected_manager_ignores m ops :
  isConnected m = false →
  Forall (fun op => needs_connection op = true) ops →
  client_run ops m = Some (m, map (fun op => (op, [])) ops).
Proof.
  intros Hc Hops. induction Hops as [|op ops Hop _ IH]; [done|].
  cbn. rewrite (disconnected_step op m Hc Hop). cbn. by rewrite IH.
Qed.

(** X6: [syncedBlockHeight] moves only on a connected manager, and only by
    [scan] and [scanToDepth] or by an [announceGetTransactionsDone] that
    reports success under the id that the scan state holds and wipes the
    scan state: with a scan in progress, whose id is not 0, it completes
    the scan and leaves [endBlockNumber - 1]; without one, under the id 0,
    it leaves [2^64 - 1]. *)
Theorem syncedBlockHeight_moves op m m' t :
  client_wf m →
  client_step op m = Some (m', t) →
  syncedBlockHeight m' = syncedBlockHeight m
  ∨ isConnected m = true
    ∧ (op = OpScan
       ∨ (∃ depth, op = OpScanToDepth depth)
       ∨ ∃ rid success,
           op = OpAnnounceGetTransactionsDone rid success
           ∧ success ≠ 0 ∧ rid = requestId (scanState m)
           ∧ scanState m' = BRClientSyncManagerScanStateWipe
           ∧ (BRClientSyncManagerScanStateIsInProgress (scanState m) = true
              ∧ rid ≠ 0
              ∧ syncedBlockHeight m' = endBlockNumber (scanState m) - 1
              ∨ BRClientSyncManagerScanStateIsInProgress (scanState m) = false
                ∧ rid = 0
                ∧ syncedBlockHeight m' = 18446744073709551615)).
Proof.
  intros Hwf Hstep. destruct (isConnected m) eqn:Hc.
  2:{ left. destruct (needs_connection op) eqn:Hn.
      - rewrite disconnected_step in Hstep by done. by injection Hstep as <- _.
      - destruct op; try discriminate; unfold client_step in Hstep.
        + unfold BRClientSyncManagerConnect in Hstep. cbv zeta in Hstep.
          destruct (BRClientSyncManagerUpdateBlockNumber _) as [[m2 t2]|] eqn:H2;
            [|discriminate]. cbn in Hstep.
          destruct (BRClientSyncManagerUpdateTransactions m2) as [[m3 t3]|]
            eqn:H3; [|discriminate]. cbn in Hstep. injection Hstep as <- _.
          destruct (updates_facts _ _ _ _ _ H2 H3) as (_ & _ & _ & ->).
          by rewrite Hc.
        + revert Hstep. unfold BRClientSyncManagerSubmit. rewrite Hc.
          by intros [= <- <-].
        + apply some_pair in Hstep as [<- _].
          unfold BRClientSyncManagerAnnounceSubmitTransaction. cbn [fst].
          by case_match. }
  destruct op as [| | |depth|transaction| |rid blockHeight0
                  |rid txn timestamp0 blockHeight0|rid success|rid txn error];
    unfold client_step in Hstep.
  - left. unfold BRClientSyncManagerConnect in Hstep. cbv zeta in Hstep.
    destruct (BRClientSyncManagerUpdateBlockNumber _) as [[m2 t2]|] eqn:H2;
      [|discriminate]. cbn in Hstep.
    destruct (BRClientSyncManagerUpdateTransactions m2) as [[m3 t3]|] eqn:H3;
      [|discriminate]. cbn in Hstep. injection Hstep as <- _.
    destruct (updates_facts _ _ _ _ _ H2 H3) as (_ & _ & _ & ->).
    by rewrite Hc.
  - left. revert Hstep. unfold BRClientSyncManagerDisconnect. rewrite Hc.
    by intros [= <- <-].
  - right. split; [done|]. by left.
  - right. split; [done|]. right. left. by exists depth.
  - left. revert Hstep. unfold BRClientSyncManagerSubmit. rewrite Hc.
    destruct (BRClientSyncManagerGenerateRid m) as [[rid m1]|] eqn:Hg;
      [|discriminate].
    apply GenerateRid_spec in Hg as (_ & -> & ->). by intros [= <- <-].
  - left. unfold BRClientSyncManagerTickTock in Hstep.
    destruct (BRClientSyncManagerUpdateBlockNumber m) as [[m1 t1]|] eqn:H1;
      [|discriminate]. cbn in Hstep.
    destruct (BRClientSyncManagerUpdateTransactions m1) as [[m2 t2]|] eqn:H2;
      [|discriminate]. cbn in Hstep. injection Hstep as <- _.
    by destruct (updates_facts _ _ _ _ _ H1 H2) as (_ & _ & _ & ->).
  - left. apply some_pair in Hstep as [<- _].
    unfold BRClientSyncManagerAnnounceGetBlockNumber. by case_match.
  - left. apply some_pair in Hstep as [<- _].
    unfold BRClientSyncManagerAnnounceGetTransactionsItem.
    by repeat case_match.
  - apply Done_cases in Hstep
      as [(-> & _)|(Hr & _ & [(_ & -> & _)|[(Hs & [w ->] & _)
                                            |(_ & known & w & _ & -> & _)]])].
    + by left.
    + by left.
    + right. split; [done|]. right. right. exists rid, success.
      split; [done|]. split; [done|]. split; [done|]. split; [done|].
      destruct Hwf as (_ & _ & _ & _ & Hidle & Hbusy).
      unfold BRClientSyncManagerScanStateIsInProgress, completed_manager.
      cbn [syncedBlockHeight set_scanState set_syncedBlockHeight set_wallet].
      destruct (decide (requestId (scanState m) = 0)) as [Hz|Hnz].
      * right. rewrite (Hidle Hz) in *. cbn in Hr. subst rid.
        split; [done|]. split; [done|]. reflexivity.
      * left. destruct (Hbusy Hnz) as (_ & _ & Hwin & Hend).
        apply Z.eqb_neq in Hnz as Hnz'. rewrite Hnz'.
        split; [done|]. split; [congruence|].
        apply to_uint64_small. lia.
    + by left.
  - left. apply some_pair in Hstep as [<- _].
    unfold BRClientSyncManagerAnnounceSubmitTransaction. cbn [fst].
    by case_match.
Qed.

(** *** What the operations of the owner do on a connected manager *)

(** X7: [connect] returns when the counter has room for two ids and, if no
    scan is in progress, the window fits 64 bits and the wallet has an
    address; the manager is then connected with a scan in progress.
    [Connected] is sent exactly when the manager was not connected, then
    the block number is asked for with the next id; a scan in progress is
    left as it is, and otherwise a scan starts with the id after that one
    and a window that holds [syncedBlockHeight]. *)
Theorem connect_starts_scan m :
  client_wf m →
  requestIdGenerator m + 1 < INT_MAX →
  (requestId (scanState m) = 0 →
   Z.max (syncedBlockHeight m) (networkBlockHeight m) < UINT64_MAX
   ∧ _getWalletAddresses (started_wallet m) ≠ []) →
  ∃ m' addresses,
    BRClientSyncManagerConnect m
    = Some (m', event_if (negb (isConnected m)) SYNC_MANAGER_CONNECTED
                ++ [funcGetBlockNumber (requestIdGenerator m + 1)]
                ++ if requestId (scanState m) =? 0
                   then event_if (isFullScan (scanState m'))
                          SYNC_MANAGER_SYNC_STARTED
                        ++ [funcGetTransactions addresses
                              (begBlockNumber (scanState m'))
                              (endBlockNumber (scanState m'))
                              (requestIdGenerator m + 2)]
                   else [])
    ∧ isConnected m' = true
    ∧ BRClientSyncManagerScanStateIsInProgress (scanState m') = true
    ∧ syncedBlockHeight m' = syncedBlockHeight m
    ∧ if requestId (scanState m) =? 0
      then requestId (scanState m') = requestIdGenerator m + 2
           ∧ begBlockNumber (scanState m') ≤ syncedBlockHeight m
             < endBlockNumber (scanState m')
      else scanState m' = scanState m.
Proof.
  intros Hwf Hroom Hpre. unfold BRClientSyncManagerConnect. cbv zeta.
  set (m1 := if negb (isConnected m) then set_isConnected true m else m).
  assert (Hm1 : isConnected m1 = true ∧ client_wf m1
                ∧ requestIdGenerator m1 = requestIdGenerator m
                ∧ scanState m1 = scanState m
                ∧ syncedBlockHeight m1 = syncedBlockHeight m
                ∧ networkBlockHeight m1 = networkBlockHeight m
                ∧ started_wallet m1 = started_wallet m).
  { subst m1. by destruct (isConnected m) eqn:Hc. }
  destruct Hm1 as (Hc1 & Hwf1 & Hg1 & Hs1 & Hy1 & Hn1 & Hw1).
  destruct (updates_connected m1 Hwf1 Hc1) as (m2 & m' & addresses & H2 & H3
                                                & Hc' & Hy' & _ & Hcase).
  { lia. }
  { rewrite Hs1, Hy1, Hn1, Hw1. exact Hpre. }
  rewrite H2. cbn [mbind option_bind]. rewrite H3. cbn [mbind option_bind].
  rewrite Hs1, Hg1, Hy1 in *. exists m', addresses.
  split; [done|]. split; [done|]. split; [|split; [done|]].
  - unfold BRClientSyncManagerScanStateIsInProgress.
    apply negb_true_iff, Z.eqb_neq.
    destruct (requestId (scanState m) =? 0) eqn:Hr.
    + destruct Hwf as (_ & _ & Hg & _). destruct Hcase as (-> & _). lia.
    + destruct Hcase as (-> & _). by apply Z.eqb_neq.
  - destruct (requestId (scanState m) =? 0); [|by destruct Hcase].
    by destruct Hcase as (? & _ & ?).
Qed.

(** X8: [tickTock] on a connected manager asks for the block number with
    the next id and nothing more while a scan is in progress, which it
    leaves as it is; when no scan is in progress it also starts one, with
    the id after that one.  It changes neither [syncedBlockHeight] nor
    [networkBlockHeight]. *)
Theorem tickTock_polls m :
  client_wf m → isConnected m = true →
  requestIdGenerator m + 1 < INT_MAX →
  (requestId (scanState m) = 0 →
   Z.max (syncedBlockHeight m) (networkBlockHeight m) < UINT64_MAX
   ∧ _getWalletAddresses (started_wallet m) ≠ []) →
  ∃ m' t,
    BRClientSyncManagerTickTock m = Some (m', t)
    ∧ syncedBlockHeight m' = syncedBlockHeight m
    ∧ networkBlockHeight m' = networkBlockHeight m
    ∧ if BRClientSyncManagerScanStateIsInProgress (scanState m)
      then t = [funcGetBlockNumber (requestIdGenerator m + 1)]
           ∧ scanState m' = scanState m
      else rids t = [requestIdGenerator m + 1; requestIdGenerator m + 2]
           ∧ requestId (scanState m') = requestIdGenerator m + 2.
Proof.
  intros Hwf Hc Hroom Hpre.
  destruct (updates_connected m Hwf Hc Hroom Hpre)
    as (m2 & m' & addresses & H2 & H3 & _ & Hy' & Hn' & Hcase).
  unfold BRClientSyncManagerTickTock,
    BRClientSyncManagerScanStateIsInProgress.
  rewrite H2. cbn [mbind option_bind]. rewrite H3. cbn [mbind option_bind].
  eexists _, _. split; [reflexivity|]. split; [done|]. split; [done|].
  destruct (requestId (scanState m) =? 0); cbn [negb].
  - destruct Hcase as (Hr & _). split; [|done].
    rewrite !rids_app, rids_event_if. reflexivity.
  - by destruct Hcase as (? & _).
Qed.

(** X9: [scan], which is [scanToDepth] at depth high, and [scanToDepth] on
    a connected manager send [SyncStopped -1] exactly when a full scan was
    active, then [Disconnected] and [Connected], reset [syncedBlockHeight]
    by the depth (low: the greatest block height among the wallet's valid,
    sending, confirmed transactions below [networkBlockHeight - 6], the
    network height taken as a 32-bit value, or [initBlockHeight] when that
    height is 0; medium: the height of the checkpoint before
    [networkBlockHeight], or [initBlockHeight] when there is none; high:
    [initBlockHeight]), ask for the block number with the next id and start
    a new scan with the id after that one: its window ends one block above
    the greater of the new [syncedBlockHeight] and [networkBlockHeight] and
    begins at the lesser of the new [syncedBlockHeight] and 144 blocks below
    its end, and it is a full scan, announced by [SyncStarted], exactly when
    [networkBlockHeight] is at least 144 blocks above the new
    [syncedBlockHeight]. *)
Theorem scanToDepth_restarts m op depth :
  (op = OpScan ∧ depth = SYNC_DEPTH_HIGH) ∨ op = OpScanToDepth depth →
  client_wf m → isConnected m = true →
  requestIdGenerator m + 1 < INT_MAX →
  networkBlockHeight m < UINT64_MAX → initBlockHeight m < UINT64_MAX →
  (∀ checkpoint,
     BRChainParamsGetCheckpointBeforeBlockNumber (chainParams m)
       (networkBlockHeight m) = Some checkpoint →
     height checkpoint < UINT64_MAX) →
  _getWalletAddresses
    (wallet_first_unused (wallet m) BR_ADDRESS_NONE BR_ADDRESS_NONE).1.1 ≠ [] →
  ∃ m' addresses,
    let s := syncedBlockHeight m' in
    let n := networkBlockHeight m in
    let e := Z.max s n + 1 in
    let b := Z.min s (if 144 <=? e then e - 144 else 0) in
    client_step op m
    = Some (m', (if isFullScan (scanState m)
                 then [eventCallback (SYNC_MANAGER_SYNC_STOPPED (-1))]
                 else [])
                ++ [eventCallback SYNC_MANAGER_DISCONNECTED;
                    eventCallback SYNC_MANAGER_CONNECTED;
                    funcGetBlockNumber (requestIdGenerator m + 1)]
                ++ (if s + 144 <=? n
                    then [eventCallback SYNC_MANAGER_SYNC_STARTED]
                    else [])
                ++ [funcGetTransactions addresses b e
                      (requestIdGenerator m + 2)])
    ∧ isConnected m' = true
    ∧ requestId (scanState m') = requestIdGenerator m + 2
    ∧ networkBlockHeight m' = n
    ∧ begBlockNumber (scanState m') = b
    ∧ endBlockNumber (scanState m') = e
    ∧ (BRClientSyncManagerIsInFullScan m' = true ↔ s + 144 ≤ n)
    ∧ match depth with
      | SYNC_DEPTH_LOW =>
          ∃ h, s = (if h =? 0 then initBlockHeight m else h)
               ∧ 0 ≤ h
               ∧ (∀ tx, tx ∈ BRWalletTransactions (wallet m) →
                        counted_send (wallet m) (to_uint32 n) tx →
                        blockHeight tx ≤ h)
               ∧ (h = 0
                  ∨ ∃ tx, tx ∈ BRWalletTransactions (wallet m)
                          ∧ counted_send (wallet m) (to_uint32 n) tx
                          ∧ h = blockHeight tx)
      | SYNC_DEPTH_MEDIUM =>
          s = match BRChainParamsGetCheckpointBeforeBlockNumber
                      (chainParams m) n with
              | None => initBlockHeight m
              | Some checkpoint => height checkpoint
              end
      | SYNC_DEPTH_HIGH => s = initBlockHeight m
      end.
Proof.
  intros Hop.
  assert (Hcall : client_step op m = BRClientSyncManagerScanToDepth m depth)
    by (by destruct Hop as [[-> ->]| ->]).
  rewrite Hcall. clear Hop Hcall.
  intros Hwf Hc Hroom Hn Hi Hcp Haddrs.
  pose proof (scan_to_depth_locked_wf m depth Hwf) as Hwf1.
  pose proof (getLastConfirmedSendTxHeight_greatest (wallet m)
                (to_uint32 (networkBlockHeight m))) as Hgreatest.
  cbv zeta in Hgreatest. destruct Hgreatest as (Hpos & Hmax & Hwitness).
  revert Hwf1.
  unfold BRClientSyncManagerScanToDepth, scan_to_depth_locked,
    BRClientSyncManagerScanStateIsFullScan.
  rewrite Hc. cbv zeta. cbn [fst].
  match goal with
  | |- context [BRClientSyncManagerUpdateBlockNumber ?x] => set (m1 := x)
  end.
  intros Hwf1.
  assert (Hm1 : isConnected m1 = true
                ∧ requestIdGenerator m1 = requestIdGenerator m
                ∧ networkBlockHeight m1 = networkBlockHeight m
                ∧ scanState m1 = BRClientSyncManagerScanStateWipe
                ∧ started_wallet m1
                  = (wallet_first_unused (wallet m)
                       BR_ADDRESS_NONE BR_ADDRESS_NONE).1.1)
    by (subst m1; by destruct depth).
  destruct Hm1 as (Hc1 & Hg1 & Hn1 & Hs1 & Hw1).
  assert (Hdepth :
            match depth with
            | SYNC_DEPTH_LOW =>
                syncedBlockHeight m1
                = (if _getLastConfirmedSendTxHeight (wallet m)
                        (to_uint32 (networkBlockHeight m)) =? 0
                   then initBlockHeight m
                   else _getLastConfirmedSendTxHeight (wallet m)
                          (to_uint32 (networkBlockHeight m)))
            | SYNC_DEPTH_MEDIUM =>
                syncedBlockHeight m1
                = match BRChainParamsGetCheckpointBeforeBlockNumber
                          (chainParams m) (networkBlockHeight m) with
                  | None => initBlockHeight m
                  | Some checkpoint => height checkpoint
                  end
            | SYNC_DEPTH_HIGH => syncedBlockHeight m1 = initBlockHeight m
            end)
    by (subst m1; by destruct depth).
  assert (Hbound : syncedBlockHeight m1 < UINT64_MAX).
  { destruct depth; rewrite Hdepth.
    - destruct (_ =? 0) eqn:E; [done|].
      destruct Hwitness as [Hz|(tx & _ & (_ & _ & _ & _ & Hlt) & ->)];
        [by apply Z.eqb_neq in E|].
      assert (to_uint32 (networkBlockHeight m) < UINT32_MODULUS)
        by (unfold to_uint32; apply Z.mod_pos_bound; by vm_compute).
      unfold UINT32_MODULUS, UINT64_MAX, CONFIRMATION_BLOCK_COUNT in *. lia.
    - destruct (BRChainParamsGetCheckpointBeforeBlockNumber _ _) eqn:E;
        [by apply Hcp|done].
    - done. }
  assert (Hsynced1 : 0 ≤ syncedBlockHeight m1) by (by destruct Hwf1 as (_ & ? & _)).
  assert (Hwide : Z.max (syncedBlockHeight m1) (networkBlockHeight m1)
                  < UINT64_MAX) by (rewrite Hn1; lia).
  rewrite (UpdateBlockNumber_connected m1) by (rewrite ?Hg1; first [done|lia]).
  cbn [mbind option_bind].
  set (m2 := set_requestIdGenerator (requestIdGenerator m1 + 1) m1).
  assert (Hw2 : started_wallet m2 = started_wallet m1)
    by (by apply started_wallet_frame).
  rewrite (UpdateTransactions_start m2);
    [|done|change (scanState m2) with (scanState m1); by rewrite Hs1
     |cbn; lia
     |change (scanState m2) with (scanState m1); by rewrite Hs1|done
     |by rewrite MAX_max|by rewrite Hw2, Hw1].
  cbn [mbind option_bind].
  destruct (started_window m2 Hsynced1 Hwide) as (He & Hb & _ & Hfull).
  change (syncedBlockHeight m2) with (syncedBlockHeight m1) in He, Hb.
  change (networkBlockHeight m2) with (networkBlockHeight m1) in He.
  rewrite Hn1 in He. rewrite He in Hb, Hfull. rewrite Hb in Hfull.
  assert (Hflag : isFullScan (started_scan m2)
                  = (syncedBlockHeight m1 + 144 <=? networkBlockHeight m)).
  { destruct (isFullScan (started_scan m2)) eqn:Ef.
    - symmetry. apply Z.leb_le. destruct Hfull as [Hfull _].
      specialize (Hfull eq_refl). revert Hfull.
      destruct (144 <=? _) eqn:E;
        [apply Z.leb_le in E|apply Z.leb_gt in E]; lia.
    - symmetry. apply Z.leb_gt.
      destruct (decide (syncedBlockHeight m1 + 144 ≤ networkBlockHeight m))
        as [Hle|Hgt]; [|lia].
      exfalso. enough (false = true) by done. apply Hfull.
      destruct (144 <=? _) eqn:E;
        [apply Z.leb_le in E|apply Z.leb_gt in E]; lia. }
  exists (started_manager m2),
    (elements (_fillWalletAddressSet ∅ (started_wallet m2))).
  cbv zeta.
  change (syncedBlockHeight (started_manager m2))
    with (syncedBlockHeight m1).
  change (scanState (started_manager m2)) with (started_scan m2).
  split.
  { unfold started_callbacks, event_if. rewrite Hflag, He, Hb, <- app_assoc.
    cbn [app requestIdGenerator set_requestIdGenerator m2]. rewrite Hg1.
    by replace (requestIdGenerator m + 1 + 1)
      with (requestIdGenerator m + 2) by lia. }
  split; [done|].
  split; [unfold started_scan; cbn [requestId requestIdGenerator
                                    set_requestIdGenerator m2];
          rewrite Hg1; lia|].
  split; [done|]. split; [done|]. split; [done|].
  split.
  { unfold BRClientSyncManagerIsInFullScan,
      BRClientSyncManagerScanStateIsFullScan.
    change (scanState (started_manager m2)) with (started_scan m2).
    rewrite Hflag. apply Z.leb_le. }
  destruct depth.
  - eexists. split; [exact Hdepth|]. done.
  - exact Hdepth.
  - exact Hdepth.
Qed.

(** X10: [updateTransactions] on a connected manager without a scan in
    progress marks the scan full, and sends [SyncStarted], exactly when
    [networkBlockHeight] is at least 144 blocks above [syncedBlockHeight];
    the window is then [syncedBlockHeight, networkBlockHeight + 1), and
    otherwise it is the last 144 blocks below its end (all the blocks below
    its end when there are fewer). *)
Theorem syncStarted_when_behind m :
  client_wf m → isConnected m = true → requestId (scanState m) = 0 →
  requestIdGenerator m < INT_MAX →
  Z.max (syncedBlockHeight m) (networkBlockHeight m) < UINT64_MAX →
  _getWalletAddresses (started_wallet m) ≠ [] →
  ∃ m' t,
    BRClientSyncManagerUpdateTransactions m = Some (m', t)
    ∧ (eventCallback SYNC_MANAGER_SYNC_STARTED ∈ t
       ↔ syncedBlockHeight m + 144 ≤ networkBlockHeight m)
    ∧ (BRClientSyncManagerIsInFullScan m' = true
       ↔ syncedBlockHeight m + 144 ≤ networkBlockHeight m)
    ∧ (syncedBlockHeight m + 144 ≤ networkBlockHeight m →
       begBlockNumber (scanState m') = syncedBlockHeight m
       ∧ endBlockNumber (scanState m') = networkBlockHeight m + 1)
    ∧ (networkBlockHeight m < syncedBlockHeight m + 144 →
       endBlockNumber (scanState m') - begBlockNumber (scanState m')
       = Z.min 144 (endBlockNumber (scanState m'))).
Proof.
  intros Hwf Hc Hr Hroom Hmax Haddrs.
  destruct Hwf as (_ & Hs & _ & _ & Hidle & _).
  rewrite UpdateTransactions_start;
    [|done|done|done|by rewrite (Hidle Hr)|done|by rewrite MAX_max|done].
  eexists _, _. split; [reflexivity|].
  destruct (started_window m Hs Hmax) as (He & Hb & Hbe & Hfull).
  unfold BRClientSyncManagerIsInFullScan,
    BRClientSyncManagerScanStateIsFullScan.
  cbn [started_manager scanState set_wallet set_scanState].
  rewrite He in Hb, Hbe, Hfull |- *. rewrite Hb in Hbe, Hfull |- *.
  clear He Hb.
  assert (Hiff : isFullScan (started_scan m) = true
                 ↔ syncedBlockHeight m + 144 ≤ networkBlockHeight m).
  { rewrite Hfull. destruct (144 <=? _) eqn:E;
      [apply Z.leb_le in E|apply Z.leb_gt in E]; lia. }
  split; [|split; [exact Hiff|split]].
  - rewrite <- Hiff. unfold started_callbacks.
    rewrite elem_of_app, list_elem_of_singleton.
    destruct (isFullScan (started_scan m)); cbn.
    + split; [done|]. intros _. left. apply list_elem_of_singleton. done.
    + split; [|done]. intros [Hin|Hin]; [|done]. by apply elem_of_nil in Hin.
  - intros Hbehind. destruct (144 <=? _) eqn:E;
      [apply Z.leb_le in E|apply Z.leb_gt in E]; lia.
  - intros Hnear. destruct (144 <=? _) eqn:E;
      [apply Z.leb_le in E|apply Z.leb_gt in E]; lia.
Qed.

(** X11: the [getTransactions] request that starts a scan carries every
    address of the wallet and the legacy form of every address, each once:
    the wallet is the one left by deriving addresses up to the gap limits. *)
Theorem updateTransactions_asks_every_address m m' t :
  BRClientSyncManagerUpdateTransactions m = Some (m', t) →
  isConnected m = true → requestId (scanState m) = 0 →
  ∃ addresses b e rid,
    filter (fun c => negb (is_event c)) t
    = [funcGetTransactions addresses b e rid]
    ∧ NoDup addresses
    ∧ (∀ a, a ∈ addresses
            ↔ a ∈ BRWalletAllAddrs (wallet m')
              ∨ ∃ a', a' ∈ BRWalletAllAddrs (wallet m')
                      ∧ a = BRWalletAddressToLegacy (wallet m') a')
    ∧ knownAddresses (scanState m') = Some (list_to_set addresses)
    ∧ wallet m'
      = (BRWalletUnusedAddrs
           (BRWalletUnusedAddrs
              (BRWalletUnusedAddrs
                 (BRWalletUnusedAddrs (wallet m)
                    SEQUENCE_GAP_LIMIT_EXTERNAL false).1
                 SEQUENCE_GAP_LIMIT_INTERNAL true).1 1 false).1 1 true).1.
Proof.
  intros Hu Hc Hr.
  destruct (UpdateTransactions_idle_inv _ _ _ Hu Hc Hr) as [-> ->].
  exists (elements (_fillWalletAddressSet ∅ (started_wallet m))),
    (begBlockNumber (started_scan m)), (endBlockNumber (started_scan m)),
    (requestIdGenerator m + 1).
  split; [unfold started_callbacks; by destruct (isFullScan _)|].
  split; [apply NoDup_elements|].
  cbn [started_manager wallet scanState set_wallet set_scanState].
  split; [|split].
  - intros a. rewrite elem_of_elements. unfold _fillWalletAddressSet.
    rewrite fill_loop. unfold _getWalletAddresses.
    rewrite elem_of_union, elem_of_list_to_set, elem_of_app, list_elem_of_fmap.
    split.
    + intros [Hin|[Hin|(a' & -> & Hin)]]; [set_solver|by left|].
      right. by exists a'.
    + intros [Hin|(a' & Hin & ->)]; right; [by left|]. right. by exists a'.
  - unfold started_scan. cbn [knownAddresses]. f_equal.
    fold (started_wallet m). apply set_eq. intros a.
    by rewrite elem_of_list_to_set, elem_of_elements.
  - reflexivity.
Qed.

(** X12: [_updateWalletAddressSet] leaves in the set exactly the addresses
    it held and the wallet's addresses with their legacy forms, which is the
    set that [_fillWalletAddressSet] builds; it returns the wallet's
    addresses and legacy forms that the set did not hold, each once, and a
    second call for the same wallet finds none and leaves the set. *)
Theorem updateWalletAddressSet_absorbs (known : gset BRAddress) (w : BRWallet) :
  let r := _updateWalletAddressSet known w in
  r.1 = _fillWalletAddressSet known w
  ∧ (∀ a, a ∈ r.1 ↔ a ∈ known ∨ a ∈ _getWalletAddresses w)
  ∧ NoDup r.2
  ∧ (∀ a, a ∈ r.2 ↔ a ∈ _getWalletAddresses w ∧ a ∉ known)
  ∧ _updateWalletAddressSet r.1 w = (r.1, [])
  ∧ _fillWalletAddressSet r.1 w = r.1.
Proof.
  cbv zeta. unfold _updateWalletAddressSet, _fillWalletAddressSet.
  set (l := _getWalletAddresses w).
  destruct (update_loop l known []) as (Hset & found & Hfound & Hnd & Hin).
  cbn [app] in Hfound.
  rewrite fill_loop. split; [exact Hset|]. split; [|split; [|split; [|split]]].
  - intros a. rewrite Hset. set_solver.
  - by rewrite Hfound.
  - intros a. by rewrite Hfound.
  - destruct (update_loop l (foldl update_step (known, []) l).1 [])
      as (Hset2 & found2 & Hfound2 & _ & Hin2).
    cbn [app] in Hfound2.
    destruct (foldl update_step ((foldl update_step (known, []) l).1, []) l)
      as [s2 l2] eqn:E2. cbn [fst snd] in *. f_equal.
    + rewrite Hset2, Hset. set_solver.
    + subst l2. destruct found2 as [|a found2]; [done|].
      assert (Ha : a ∈ a :: found2) by (left).
      apply Hin2 in Ha as [Ha1 Ha2]. rewrite Hset in Ha2. set_solver.
  - rewrite fill_loop, Hset. set_solver.
Qed.

(** X13: [announceSubmitTransaction] always sends one [TxnSubmitted] with
    the transaction and the error it was given, whatever the request id and
    whether or not the manager is connected; it changes nothing but the
    wallet, and the wallet only by registering the transaction, when the
    error is 0 and the wallet does not hold a transaction of that hash. *)
Theorem announceSubmitTransaction_reports m rid txn error :
  let r := BRClientSyncManagerAnnounceSubmitTransaction m rid txn error in
  r.2 = [eventCallback (SYNC_MANAGER_TXN_SUBMITTED txn error)]
  ∧ r.1 = set_wallet (wallet r.1) m
  ∧ wallet r.1
    = (if (error =? 0)
          && bool_decide (BRWalletTransactionForHash (wallet m) (txHash txn)
                          = None)
       then BRWalletRegisterTransaction (wallet m) txn
       else wallet m)
  ∧ (error ≠ 0 → r.1 = m).
Proof.
  cbv zeta. unfold BRClientSyncManagerAnnounceSubmitTransaction. cbn [fst snd].
  split; [done|].
  destruct (error =? 0) eqn:He; cbn [andb].
  - destruct (BRWalletTransactionForHash (wallet m) (txHash txn)) as [tx|]
      eqn:Hfind.
    + rewrite bool_decide_eq_true_2 by by eexists. cbn [negb].
      rewrite bool_decide_eq_false_2 by done.
      split; [by destruct m|]. split; [done|]. done.
    + rewrite bool_decide_eq_false_2 by (by intros [? ?]). cbn [negb].
      rewrite bool_decide_eq_true_2 by done.
      split; [done|]. split; [done|]. intros Hne.
      apply Z.eqb_eq in He. done.
  - split; [by destruct m|]. done.
Qed.

(** X14: [announceGetTransactionsDone] under the id 0 is not ignored by a
    connected manager without a scan in progress, whose scan state holds the
    id 0: a failure changes nothing and sends nothing, but a success either
    goes on to update the address set that is not allocated, when the
    wallet's first unused addresses are not the empty ones of the wiped scan
    state, or completes a scan that never started and sets
    [syncedBlockHeight] to [2^64 - 1]. *)
Theorem announceGetTransactionsDone_zero_id m success :
  client_wf m → isConnected m = true → requestId (scanState m) = 0 →
  BRClientSyncManagerAnnounceGetTransactionsDone m 0 success
  = if success =? 0 then Some (m, [])
    else if first_unused_changed BRClientSyncManagerScanStateWipe (wallet m)
         then None
         else Some (set_syncedBlockHeight UINT64_MAX
                      (set_wallet
                         (wallet_first_unused (wallet m)
                            BR_ADDRESS_NONE BR_ADDRESS_NONE).1.1 m), []).
Proof.
  intros (_ & _ & _ & _ & Hidle & _) Hc Hr. specialize (Hidle Hr).
  unfold BRClientSyncManagerAnnounceGetTransactionsDone,
    BRClientSyncManagerScanStateGetRequestId,
    BRClientSyncManagerScanStateAdvanceAndGetNewAddresses,
    first_unused_changed.
  rewrite Hidle, Hc. cbn [requestId BRClientSyncManagerScanStateWipe Z.eqb andb
                          lastExternalAddress lastInternalAddress
                          knownAddresses].
  destruct (success =? 0); cbn [negb].
  - f_equal. f_equal. destruct m. cbn in *. by rewrite Hidle.
  - destruct (wallet_first_unused (wallet m) BR_ADDRESS_NONE BR_ADDRESS_NONE)
      as [[w ext] int]. cbn [fst snd].
    destruct (negb (BRAddressEq ext BR_ADDRESS_NONE)
              || negb (BRAddressEq int BR_ADDRESS_NONE)); [done|].
    cbn. f_equal. f_equal. destruct m. cbn in *. by rewrite Hidle.
Qed.

(** *** The heights stay below the network height *)

Lemma to_uint64_le z : 0 ≤ z → to_uint64 z ≤ z.
Proof. intros Hz. unfold to_uint64. apply Z.mod_le; [done|]. by vm_compute. Qed.

Lemma to_uint32_le z : 0 ≤ z → to_uint32 z ≤ z.
Proof. intros Hz. unfold to_uint32. apply Z.mod_le; [done|]. by vm_compute. Qed.

Lemma heights_wf_frame m m' :
  chainParams m' = chainParams m → initBlockHeight m' = initBlockHeight m →
  networkBlockHeight m ≤ networkBlockHeight m' →
  syncedBlockHeight m' = syncedBlockHeight m → scanState m' = scanState m →
  heights_wf m → heights_wf m'.
Proof.
  intros Hp Hi Hn Hy Hs (Hcp & Hinit & Hsynced & Hscan).
  unfold heights_wf. rewrite Hp, Hi, Hy, Hs.
  split; [done|]. split; [lia|]. split; [lia|].
  intros Hr. specialize (Hscan Hr). lia.
Qed.

Lemma UpdateBlockNumber_heights m m' t :
  BRClientSyncManagerUpdateBlockNumber m = Some (m', t) →
  heights_wf m → heights_wf m'.
Proof.
  intros Hu. apply UpdateBlockNumber_inv in Hu
    as [(_ & -> & _)|(_ & _ & -> & _)]; [done|].
  by apply heights_wf_frame.
Qed.

Lemma UpdateTransactions_heights m m' t :
  BRClientSyncManagerUpdateTransactions m = Some (m', t) →
  client_wf m → heights_wf m → heights_wf m'.
Proof.
  intros Hu (_ & Hs & _) (Hcp & Hinit & Hsynced & Hscan).
  apply UpdateTransactions_inv in Hu
    as [(-> & _)|(_ & _ & _ & _ & -> & _)]; [done|].
  unfold heights_wf, started_manager, started_scan.
  cbn [chainParams initBlockHeight networkBlockHeight syncedBlockHeight
       scanState set_wallet set_scanState set_requestIdGenerator
       endBlockNumber requestId].
  split; [done|]. split; [done|]. split; [done|]. intros _.
  rewrite MAX_max.
  pose proof (to_uint64_le
                (Z.max (syncedBlockHeight m) (networkBlockHeight m) + 1)).
  lia.
Qed.

Lemma scan_to_depth_locked_heights m depth :
  client_wf m → heights_wf m → heights_wf (scan_to_depth_locked m depth).1.
Proof.
  intros (Hi0 & _) (Hcp & Hinit & Hsynced & Hscan).
  unfold scan_to_depth_locked. destruct (isConnected m); [|done].
  unfold heights_wf. destruct depth; cbn.
  - split; [done|]. split; [done|]. split; [|done].
    pose proof (getLastConfirmedSendTxHeight_greatest (wallet m)
                  (to_uint32 (networkBlockHeight m))) as Hgreatest.
    cbv zeta in Hgreatest. destruct Hgreatest as (_ & _ & Hwitness).
    destruct (_getLastConfirmedSendTxHeight _ _ =? 0) eqn:E; [done|].
    destruct Hwitness as [Hz|(tx & _ & (_ & _ & _ & _ & Hlt) & Htx)].
    + apply Z.eqb_neq in E. done.
    + pose proof (to_uint32_le (networkBlockHeight m)).
      unfold CONFIRMATION_BLOCK_COUNT in Hlt. lia.
  - split; [done|]. split; [done|]. split; [|done].
    case_match; [by eapply Hcp|done].
  - done.
Qed.

Lemma Done_heights m rid success m' t :
  BRClientSyncManagerAnnounceGetTransactionsDone m rid success = Some (m', t) →
  rid ≠ 0 → client_wf m → heights_wf m → heights_wf m'.
Proof.
  intros Hd Hrid (_ & _ & _ & _ & _ & Hbusy) (Hcp & Hinit & Hsynced & Hscan).
  apply Done_cases in Hd
    as [(-> & _)|(Hr & _ & [(_ & -> & _)|[(_ & [w ->] & _)
                                          |(_ & known & w & _ & -> & _)]])];
    [done| | |done].
  - done.
  - subst rid. destruct (Hbusy Hrid) as (_ & _ & Hwin & Hend).
    specialize (Hscan Hrid). unfold heights_wf. cbn.
    split; [done|]. split; [done|]. split; [|done].
    rewrite to_uint64_small by lia. done.
Qed.

Lemma client_step_heights op m m' t :
  client_step op m = Some (m', t) → done_rid_nonzero op = true →
  client_wf m → heights_wf m → heights_wf m'.
Proof.
  destruct op as [| | |depth|transaction| |rid blockHeight0
                  |rid txn timestamp0 blockHeight0|rid success|rid txn error];
    unfold client_step; intros Hstep Hop Hwf Hh.
  - unfold BRClientSyncManagerConnect in Hstep. cbv zeta in Hstep.
    destruct (BRClientSyncManagerUpdateBlockNumber _) as [[m2 t2]|] eqn:H2;
      [|discriminate]. cbn in Hstep.
    destruct (BRClientSyncManagerUpdateTransactions m2) as [[m3 t3]|] eqn:H3;
      [|discriminate]. cbn in Hstep. injection Hstep as <- _.
    apply (UpdateTransactions_heights _ _ _ H3).
    + apply (UpdateBlockNumber_wf _ _ _ H2). by destruct (negb (isConnected m)).
    + apply (UpdateBlockNumber_heights _ _ _ H2).
      by destruct (negb (isConnected m)).
  - revert Hstep. unfold BRClientSyncManagerDisconnect.
    destruct (isConnected m); intros [= <- _]; [|done].
    destruct Hh as (? & ? & ? & _). by split.
  - unfold BRClientSyncManagerScan, BRClientSyncManagerScanToDepth in Hstep.
    pose proof (scan_to_depth_locked_wf m SYNC_DEPTH_HIGH Hwf) as Hwf1.
    pose proof (scan_to_depth_locked_heights m SYNC_DEPTH_HIGH Hwf Hh) as Hh1.
    destruct (scan_to_depth_locked m SYNC_DEPTH_HIGH) as [m1 t1].
    destruct (BRClientSyncManagerUpdateBlockNumber m1) as [[m2 t2]|] eqn:H2;
      [|discriminate]. cbn in Hstep.
    destruct (BRClientSyncManagerUpdateTransactions m2) as [[m3 t3]|] eqn:H3;
      [|discriminate]. cbn in Hstep. injection Hstep as <- _.
    apply (UpdateTransactions_heights _ _ _ H3).
    + by apply (UpdateBlockNumber_wf _ _ _ H2).
    + by apply (UpdateBlockNumber_heights _ _ _ H2).
  - unfold BRClientSyncManagerScanToDepth in Hstep.
    pose proof (scan_to_depth_locked_wf m depth Hwf) as Hwf1.
    pose proof (scan_to_depth_locked_heights m depth Hwf Hh) as Hh1.
    destruct (scan_to_depth_locked m depth) as [m1 t1].
    destruct (BRClientSyncManagerUpdateBlockNumber m1) as [[m2 t2]|] eqn:H2;
      [|discriminate]. cbn in Hstep.
    destruct (BRClientSyncManagerUpdateTransactions m2) as [[m3 t3]|] eqn:H3;
      [|discriminate]. cbn in Hstep. injection Hstep as <- _.
    apply (UpdateTransactions_heights _ _ _ H3).
    + by apply (UpdateBlockNumber_wf _ _ _ H2).
    + by apply (UpdateBlockNumber_heights _ _ _ H2).
  - revert Hstep. unfold BRClientSyncManagerSubmit. destruct (isConnected m).
    + destruct (BRClientSyncManagerGenerateRid m) as [[rid m1]|] eqn:Hg;
        [|discriminate].
      apply GenerateRid_spec in Hg as (_ & -> & ->). intros [= <- _].
      by apply (heights_wf_frame m).
    + by intros [= <- _].
  - unfold BRClientSyncManagerTickTock in Hstep.
    destruct (BRClientSyncManagerUpdateBlockNumber m) as [[m1 t1]|] eqn:H1;
      [|discriminate]. cbn in Hstep.
    destruct (BRClientSyncManagerUpdateTransactions m1) as [[m2 t2]|] eqn:H2;
      [|discriminate]. cbn in Hstep. injection Hstep as <- _.
    apply (UpdateTransactions_heights _ _ _ H2).
    + by apply (UpdateBlockNumber_wf _ _ _ H1).
    + by apply (UpdateBlockNumber_heights _ _ _ H1).
  - apply some_pair in Hstep as [<- _].
    unfold BRClientSyncManagerAnnounceGetBlockNumber.
    destruct (blockHeight0 >? networkBlockHeight m) eqn:Hgt; cbn [andb];
      [destruct (isConnected m)|]; cbn [fst]; [|done|done].
    apply Z.gtb_lt in Hgt. apply (heights_wf_frame m); cbn; first [done|lia].
  - apply some_pair in Hstep as [<- _].
    unfold BRClientSyncManagerAnnounceGetTransactionsItem.
    repeat case_match; cbn [fst]; first [done|by apply (heights_wf_frame m)].
  - apply (Done_heights _ _ _ _ _ Hstep); [|done|done].
    cbn in Hop. by apply negb_true_iff, Z.eqb_neq in Hop.
  - apply some_pair in Hstep as [<- _].
    unfold BRClientSyncManagerAnnounceSubmitTransaction. cbn [fst].
    case_match; first [done|by apply (heights_wf_frame m)].
Qed.

Lemma client_run_heights ops m m' log :
  client_run ops m = Some (m', log) →
  Forall (fun op => done_rid_nonzero op = true) ops →
  client_wf m → heights_wf m → heights_wf m'.
Proof.
  revert m m' log. induction ops as [|op ops IH]; intros m m' log; cbn.
  - by intros [= <- <-].
  - destruct (client_step op m) as [[m1 t]|] eqn:Hstep; [|discriminate]. cbn.
    destruct (client_run ops m1) as [[m2 log']|] eqn:Hrun; [|discriminate]. cbn.
    intros [= <- <-] Hops Hwf Hh. apply Forall_cons in Hops as [Hop Hops].
    eapply IH; [done|done| |].
    + by eapply client_step_wf.
    + by eapply client_step_heights.
Qed.

(** X15: when the chain parameters give no checkpoint above the block
    number asked for and the client announces no completion under the id 0,
    every state that a manager made by [BRClientSyncManagerNew] reaches has
    [initBlockHeight] and [syncedBlockHeight] at most [networkBlockHeight],
    and the window of a scan in progress ends at most one block above
    it. *)
Theorem syncedBlockHeight_below_network params w earliestKeyTime blockHeight
    m ops m' log :
  params_wf params → checkpoints_below params → 0 ≤ blockHeight →
  BRClientSyncManagerNew params w earliestKeyTime blockHeight = Some m →
  Forall (fun op => done_rid_nonzero op = true) ops →
  client_run ops m = Some (m', log) →
  initBlockHeight m' ≤ networkBlockHeight m'
  ∧ 0 ≤ syncedBlockHeight m' ≤ networkBlockHeight m'
  ∧ (BRClientSyncManagerScanStateIsInProgress (scanState m') = true →
     endBlockNumber (scanState m') ≤ networkBlockHeight m' + 1).
Proof.
  intros Hparams Hcp Hb Hnew Hops Hrun.
  pose proof (ClientSyncManagerNew_wf _ _ _ _ _ Hparams Hb Hnew) as Hwf.
  assert (Hh : heights_wf m).
  { revert Hnew. unfold BRClientSyncManagerNew.
    destruct (BRChainParamsGetCheckpointBefore params _) as [cp|];
      [|discriminate].
    cbn. intros [= <-]. unfold heights_wf. cbn. rewrite MIN_min, MAX_max.
    split; [done|]. split; [lia|]. split; [lia|done]. }
  apply (client_run_heights _ _ _ _ Hrun Hops Hwf) in Hh
    as (_ & Hinit & Hsynced & Hscan).
  apply (client_run_wf _ _ _ _ Hrun) in Hwf as (_ & Hpos & _).
  split; [done|]. split; [done|].
  unfold BRClientSyncManagerScanStateIsInProgress. intros Hr.
  apply negb_true_iff, Z.eqb_neq in Hr. specialize (Hscan Hr). lia.
Qed.

End ClientSyncManagerRuns.




(** ** Runs of the peer manager's callbacks *)

Section PeerSyncManagerRuns.

Context {BRWallet BRMerkleBlock BRPeer BRPeerManager : Type}
        `{BRWalletOps BRWallet} `{BRTransactionOps}
        `{BRPeerManagerOps BRWallet BRMerkleBlock BRPeer BRPeerManager}.

Implicit Types m : Peer.BRPeerSyncManagerStruct (BRWallet := BRWallet)
                     (BRPeerManager := BRPeerManager).

#[local] Arguments _getLastConfirmedSendTxHeight : simpl never.

(** What one callback does to the flags and the height, and what it
    reports. *)
Lemma peer_step_tracks cb m (s : bool) :
  let r := peer_step cb m in
  (s = true → Peer.isConnected m = true) →
  replay flip_step (Peer.isFullScan m) (sync_events r.2)
  = Some (Peer.isFullScan r.1)
  ∧ replay climb_step (Peer.networkBlockHeight m) (announced_heights r.2)
    = Some (Peer.networkBlockHeight r.1)
  ∧ ∃ s', replay connect_step s (connection_events r.2) = Some s'
          ∧ (s' = true → Peer.isConnected r.1 = true).
Proof.
  destruct cb as [pm [|reason|]]; cbv zeta; unfold peer_step; cbn [fst snd];
    intros Hs.
  - unfold Peer._BRPeerSyncManagerSyncStarted. cbn.
    destruct (Peer.isFullScan m), (Peer.isConnected m) eqn:Hc; cbn;
      (split; [done|]); (split; [done|]).
    + by exists s.
    + destruct s; [by specialize (Hs eq_refl)|]. by exists true.
    + by exists s.
    + destruct s; [by specialize (Hs eq_refl)|]. by exists true.
  - unfold Peer._BRPeerSyncManagerSyncStopped, Peer.peer_is_connected. cbn.
    destruct (BRPeerManagerConnectStatus pm), (Peer.isFullScan m),
      (Peer.isConnected m) eqn:Hc; cbn;
      (split; [done|]); (split; [done|]);
      first [by exists false | exists s; split; [done|]; done
            | exists s; split; [done|]; intros ->; by specialize (Hs eq_refl)].
  - unfold Peer._BRPeerSyncManagerTxStatusUpdate, Peer.peer_is_connected.
    cbn [Peer.peerManager Peer.wallet Peer.networkBlockHeight Peer.isConnected
         Peer.isFullScan set_peerManager fst snd].
    assert (Hheight :
              (BRPeerManagerLastBlockHeight pm >? Peer.networkBlockHeight m)
              = (Peer.networkBlockHeight m <? BRPeerManagerLastBlockHeight pm))
      by apply Z.gtb_ltb.
    unfold MAX. rewrite Hheight.
    destruct (Peer.networkBlockHeight m <? BRPeerManagerLastBlockHeight pm)
      eqn:E;
      destruct (BRPeerManagerConnectStatus pm), (Peer.isFullScan m),
        (Peer.isConnected m) eqn:Hc; cbn; unfold climb_step; rewrite ?E;
      (split; [done|]); (split; [done|]);
      first [by exists false | exists s; split; [done|]; done
            | exists s; split; [done|]; intros ->; by specialize (Hs eq_refl)].
Qed.

Lemma peer_run_tracks cbs m (s : bool) :
  let r := peer_run cbs m in
  (s = true → Peer.isConnected m = true) →
  replay flip_step (Peer.isFullScan m) (sync_events r.2)
  = Some (Peer.isFullScan r.1)
  ∧ replay climb_step (Peer.networkBlockHeight m) (announced_heights r.2)
    = Some (Peer.networkBlockHeight r.1)
  ∧ is_Some (replay connect_step s (connection_events r.2)).
Proof.
  cbv zeta. revert m s. induction cbs as [|cb cbs IH]; intros m s Hs.
  - cbn. split; [done|]. split; [done|]. by eexists.
  - cbn [peer_run fst snd].
    destruct (peer_step_tracks cb m s Hs) as (Hf & Hn & s' & Hc & Hs').
    destruct (IH (peer_step cb m).1 s' Hs') as (Hf2 & Hn2 & Hc2).
    unfold sync_events, announced_heights, connection_events in *.
    rewrite !omap_app, !replay_app, Hf, Hn, Hc. cbn. done.
Qed.

(** X16: over every sequence of the peer manager's callbacks [syncStarted],
    [syncStopped] and [txStatusUpdate], whatever the peer manager reports at
    each, the SyncStarted and SyncStopped events of the P2P manager
    alternate in step with its full-scan flag: a SyncStopped is sent only
    while a full scan is active, and a SyncStarted while one is active only
    after the SyncStopped that ends it. *)
Theorem peer_sync_events_alternate cbs m :
  let r := peer_run cbs m in
  let events := sync_events r.2 in
  replay flip_step (Peer.isFullScan m) events = Some (Peer.isFullScan r.1)
  ∧ last (Peer.isFullScan m :: events) = Some (Peer.isFullScan r.1)
  ∧ ∀ i x y, (Peer.isFullScan m :: events) !! i = Some x →
             (Peer.isFullScan m :: events) !! S i = Some y → y = negb x.
Proof.
  cbv zeta.
  destruct (peer_run_tracks cbs m false) as (Hf & _ & _); [done|].
  split; [exact Hf|]. by apply replay_flip_alternates.
Qed.

(** X17: over every sequence of the peer manager's callbacks the network
    height of the P2P manager never decreases, every change is announced,
    and the heights of the BlockHeightUpdated events are strictly
    increasing, each above the height at the start and none above the
    height at the end. *)
Theorem peer_heights_increase cbs m :
  let r := peer_run cbs m in
  let heights := announced_heights r.2 in
  replay climb_step (Peer.networkBlockHeight m) heights
  = Some (Peer.BRPeerSyncManagerGetBlockHeight r.1)
  ∧ Peer.networkBlockHeight m ≤ Peer.networkBlockHeight r.1
  ∧ Forall (fun h => Peer.networkBlockHeight m < h
                     ≤ Peer.networkBlockHeight r.1) heights
  ∧ StronglySorted Z.lt heights.
Proof.
  cbv zeta.
  destruct (peer_run_tracks cbs m false) as (_ & Hn & _); [done|].
  split; [exact Hn|]. by apply replay_climb_sorted.
Qed.

(** X18: over every sequence of the peer manager's callbacks the P2P
    manager never sends Connected twice without a Disconnected between
    them, and it sends no Connected before a Disconnected when it was
    connected at the start. *)
Theorem peer_connected_once cbs m :
  is_Some (replay connect_step (Peer.isConnected m)
             (connection_events (peer_run cbs m).2)).
Proof.
  by destruct (peer_run_tracks cbs m (Peer.isConnected m)) as (_ & _ & Hc).
Qed.

(** X19: [scanToDepth] in P2P mode only asks the peer manager to rescan: at
    depth low from the block of the last confirmed send, a positive height
    that is the greatest among the wallet's valid, sending, confirmed
    transactions below [lastBlockHeight - 6], and from the start when the
    wallet has no such transaction above height 0; at depth medium from the
    last hard-coded checkpoint; at depth high, which is what [scan] asks
    for, from the start. *)
Theorem peer_scanToDepth_rescans m depth :
  let last := BRPeerManagerLastBlockHeight (Peer.peerManager m) in
  match BRPeerSyncManagerScanToDepth m depth with
  | BRPeerManagerRescanFromBlockNumber h =>
      depth = SYNC_DEPTH_LOW ∧ 0 < h
      ∧ (∃ tx, tx ∈ BRWalletTransactions (Peer.wallet m)
               ∧ counted_send (Peer.wallet m) last tx ∧ blockHeight tx = h)
      ∧ ∀ tx, tx ∈ BRWalletTransactions (Peer.wallet m) →
              counted_send (Peer.wallet m) last tx → blockHeight tx ≤ h
  | BRPeerManagerRescan =>
      depth = SYNC_DEPTH_HIGH
      ∨ depth = SYNC_DEPTH_LOW
        ∧ ∀ tx, tx ∈ BRWalletTransactions (Peer.wallet m) →
                counted_send (Peer.wallet m) last tx → blockHeight tx ≤ 0
  | BRPeerManagerRescanFromLastHardcodedCheckpoint => depth = SYNC_DEPTH_MEDIUM
  | BRPeerManagerConnect | BRPeerManagerDisconnect => False
  end
  ∧ BRPeerSyncManagerScan m = BRPeerManagerRescan.
Proof.
  cbv zeta. split; [|reflexivity].
  destruct depth; cbn; [|done|by left].
  pose proof (getLastConfirmedSendTxHeight_greatest (Peer.wallet m)
                (BRPeerManagerLastBlockHeight (Peer.peerManager m)))
    as Hgreatest.
  cbv zeta in Hgreatest. destruct Hgreatest as (Hpos & Hmax & Hwitness).
  destruct (_ =? 0) eqn:E; cbn.
  - right. split; [done|]. apply Z.eqb_eq in E. by rewrite E in Hmax.
  - apply Z.eqb_neq in E. split; [done|]. split; [lia|].
    split; [|done]. destruct Hwitness as [?|(tx & ? & ? & ?)]; [done|].
    by exists tx.
Qed.

(** X20: the client's announcements reach the manager behind the
    dispatcher only in client mode, where a sequence of announcements is the
    run of the client manager's operations; in P2P mode every sequence of
    announcements leaves the manager as it was and makes no callback. *)
Theorem announcements_dispatch (l : list Announcement) :
  (∀ p, sync_manager_announce_all l
          (PeerSyncManager (BRWallet := BRWallet)
             (BRPeerManager := BRPeerManager) p)
        = Some (PeerSyncManager p, []))
  ∧ ∀ c : BRClientSyncManagerStruct (BRWallet := BRWallet),
      sync_manager_announce_all l
        (ClientSyncManager (BRPeerManager := BRPeerManager) c)
      = '(c', log) ← client_run (map announcement_op l) c;
        Some (ClientSyncManager c', run_callbacks log).
Proof.
  split.
  - intros p. induction l as [|a l IH]; [done|].
    cbn [sync_manager_announce_all]. destruct a; cbn; by rewrite IH.
  - induction l as [|a l IH]; intros c; [done|].
    cbn [sync_manager_announce_all map client_run].
    destruct a as [rid h|rid txn ts h|rid success|rid txn error];
      cbn [sync_manager_announce announcement_op client_step
           BRSyncManagerAnnounceGetBlockNumber
           BRSyncManagerAnnounceGetTransactionsItem
           BRSyncManagerAnnounceGetTransactionsDone
           BRSyncManagerAnnounceSubmitTransaction mbind option_bind].
    + destruct (BRClientSyncManagerAnnounceGetBlockNumber c rid h)
        as [c1 t1]. cbn. rewrite IH.
      by destruct (client_run _ c1) as [[c2 log]|].
    + destruct (BRClientSyncManagerAnnounceGetTransactionsItem c rid txn ts h)
        as [c1 t1]. cbn. rewrite IH.
      by destruct (client_run _ c1) as [[c2 log]|].
    + destruct (BRClientSyncManagerAnnounceGetTransactionsDone c rid success)
        as [[c1 t1]|]; [|done]. cbn. rewrite IH.
      by destruct (client_run _ c1) as [[c2 log]|].
    + destruct (BRClientSyncManagerAnnounceSubmitTransaction c rid txn error)
        as [c1 t1]. cbn. rewrite IH.
      by destruct (client_run _ c1) as [[c2 log]|].
Qed.

End PeerSyncManagerRuns.

(** ** The token model *)

Section EthTokenFacts.

Context {JSONObject JSONArray : Type} `{Brd.JSONOps JSONObject JSONArray}.

Lemma asTokens_loop_spec (json : JSONArray) (rid : Z) (count i : nat)
    (objs tokens : list Brd.EthToken) :
  Brd.asTokens_loop json rid i count objs = Some tokens
  ↔ ∃ rest, tokens = objs ++ rest ∧ length rest = count
      ∧ ∀ k, (k < count)%nat →
             ∃ obj, Brd.optJSONObject json (i + k)%nat = Some obj
                    ∧ Brd.asToken obj rid = rest !! k.
Proof.
  revert i objs. induction count as [|count IH]; intros i objs; cbn.
  - split.
    + intros [= <-]. exists []. rewrite app_nil_r.
      split; [done|]. split; [done|]. intros k Hk. lia.
    + intros (rest & -> & Hlen & _). destruct rest; [|done].
      by rewrite app_nil_r.
  - destruct (Brd.optJSONObject json i) as [obj|] eqn:Hobj.
    + destruct (Brd.asToken obj rid) as [token|] eqn:Htoken.
      * rewrite IH. split.
        -- intros (rest & -> & Hlen & Hall). exists (token :: rest).
           rewrite <- app_assoc. split; [done|]. split; [cbn; lia|].
           intros [|k] Hk.
           ++ exists obj. rewrite Nat.add_0_r. by split.
           ++ destruct (Hall k) as (obj' & Hobj' & Htoken'); [lia|].
              exists obj'. split; [|done].
              by replace (i + S k)%nat with (S i + k)%nat by lia.
        -- intros (rest & -> & Hlen & Hall).
           destruct rest as [|token' rest]; [done|].
           destruct (Hall 0%nat) as (obj0 & Hobj0 & Htoken0); [lia|].
           rewrite Nat.add_0_r, Hobj in Hobj0. injection Hobj0 as <-.
           rewrite Htoken in Htoken0. injection Htoken0 as <-.
           exists rest. rewrite <- app_assoc. split; [done|].
           split; [cbn in Hlen; lia|].
           intros k Hk. destruct (Hall (S k)) as (obj' & Hobj' & Htoken');
             [lia|].
           exists obj'. split; [|done].
           by replace (S i + k)%nat with (i + S k)%nat by lia.
      * split; [done|]. intros (rest & -> & Hlen & Hall).
        destruct (Hall 0%nat) as (obj0 & Hobj0 & Htoken0); [lia|].
        rewrite Nat.add_0_r, Hobj in Hobj0. injection Hobj0 as <-.
        rewrite Htoken in Htoken0. by destruct rest.
    + split; [done|]. intros (rest & -> & Hlen & Hall).
      destruct (Hall 0%nat) as (obj0 & Hobj0 & _); [lia|].
      by rewrite Nat.add_0_r, Hobj in Hobj0.
Qed.

(** X21: [asTokens] returns a list exactly when every element of the array
    is an object that [asToken] accepts; the list then has one token for
    each element, in the order of the array, and is absent as soon as one
    element is not an object or lacks a member. *)
Theorem asTokens_all_or_nothing (json : JSONArray) (rid : Z)
    (tokens : list Brd.EthToken) :
  Brd.asTokens json rid = Some tokens
  ↔ length tokens = Brd.JSONArray_length json
    ∧ ∀ i, (i < Brd.JSONArray_length json)%nat →
           ∃ obj, Brd.optJSONObject json i = Some obj
                  ∧ Brd.asToken obj rid = tokens !! i.
Proof.
  unfold Brd.asTokens. rewrite asTokens_loop_spec. cbn. split.
  - by intros (rest & -> & Hlen & Hall).
  - intros (Hlen & Hall). by exists tokens.
Qed.

(** X22: a token that [asToken] builds carries the members [name], [code],
    [contract_address] and [scale] of the object, the request id it was
    called with, the description [Token for] followed by its symbol, and no
    default gas limit or price; [asToken] is absent exactly when one of the
    four members is. *)
Theorem asToken_members (json : JSONObject) (rid : Z) :
  match Brd.asToken json rid with
  | Some token =>
      Brd.getString json "name" = Some (Brd.getName token)
      ∧ Brd.getString json "code" = Some (Brd.getSymbol token)
      ∧ Brd.getString json "contract_address" = Some (Brd.getAddress token)
      ∧ Brd.getInt json "scale" = Some (Brd.getDecimals token)
      ∧ Brd.getRid token = rid
      ∧ Brd.getDescription token
        = String.append "Token for " (Brd.getSymbol token)
      ∧ Brd.getDefaultGasLimit token = None
      ∧ Brd.getDefaultGasPrice token = None
  | None =>
      Brd.getString json "name" = None ∨ Brd.getString json "code" = None
      ∨ Brd.getString json "contract_address" = None
      ∨ Brd.getInt json "scale" = None
  end.
Proof.
  unfold Brd.asToken.
  destruct (Brd.getString json "name"); cbn; [|by left].
  destruct (Brd.getString json "code"); cbn; [|right; by left].
  destruct (Brd.getString json "contract_address"); cbn;
    [|right; right; by left].
  destruct (Brd.getInt json "scale"); cbn; [done|]. right. right. by right.
Qed.

End EthTokenFacts.

(** ** The transaction receipt *)

Section TransactionReceiptFacts.

Context {BRRlpItem BREthereumRlpType BREthereumBloomFilter BREthereumLog
         BREthereumAddress : Type}
        `{Receipt.BRRlpOps BRRlpItem BREthereumRlpType BREthereumBloomFilter
            BREthereumLog BREthereumAddress}.

Implicit Types receipt decoded :
  Receipt.BREthereumTransactionReceiptRecord
    (BREthereumBloomFilter := BREthereumBloomFilter)
    (BREthereumLog := BREthereumLog).

(** X23: with coders whose decoding undoes their encoding,
    [transactionReceiptRlpDecode] returns the receipt that
    [transactionReceiptRlpEncode] encoded, for every receipt whose gas used
    is a 64-bit number: the state root, the gas used, the Bloom filter and
    the logs, in their order, so the assertion on the four items holds. *)
Theorem transactionReceipt_rlp_round_trip receipt :
  Receipt.coders_invert →
  0 ≤ Receipt.gasUsed receipt < UINT64_MODULUS →
  Receipt.transactionReceiptRlpDecode
    (Receipt.transactionReceiptRlpEncode receipt) = Some receipt.
Proof.
  intros (Hlist & Hbytes & Hnumber & Hfilter & Hlog) Hgas.
  unfold Receipt.transactionReceiptRlpDecode,
    Receipt.transactionReceiptRlpEncode,
    Receipt.transactionReceiptLogsRlpDecode,
    Receipt.transactionReceiptLogsRlpEncode.
  rewrite Hlist, Hbytes, Hnumber, Hfilter, Hlist by done.
  rewrite map_map.
  assert (Hlogs : map (fun l => Receipt.logRlpDecode
                                  (Receipt.logRlpEncode l Receipt.RLP_TYPE_NETWORK)
                                  Receipt.RLP_TYPE_NETWORK)
                    (Receipt.logs receipt) = Receipt.logs receipt).
  { induction (Receipt.logs receipt) as [|l logs IH]; [done|].
    cbn. by rewrite Hlog, IH. }
  rewrite Hlogs. by destruct receipt.
Qed.

(** X24: [transactionReceiptRlpDecode] passes its assertion exactly when
    the item decodes to a list of four items; the receipt then has one log
    for each element of the fourth item, and [transactionReceiptGetLog]
    returns the decoding of the element at the index for every index below
    [transactionReceiptGetLogsCount] and [NULL] for every other index. *)
Theorem transactionReceipt_decoded_logs (item : BRRlpItem) :
  match Receipt.transactionReceiptRlpDecode item with
  | Some receipt =>
      ∃ item0 item1 item2 item3,
        Receipt.rlpDecodeList item = [item0; item1; item2; item3]
        ∧ Receipt.transactionReceiptGetLogsCount receipt
          = length (Receipt.rlpDecodeList item3)
        ∧ ∀ index,
            Receipt.transactionReceiptGetLog receipt index
            = (fun i => Receipt.logRlpDecode i Receipt.RLP_TYPE_NETWORK)
                <$> Receipt.rlpDecodeList item3 !! index
            ∧ (is_Some (Receipt.transactionReceiptGetLog receipt index)
               ↔ (index < Receipt.transactionReceiptGetLogsCount receipt)%nat)
  | None => length (Receipt.rlpDecodeList item) ≠ 4%nat
  end.
Proof.
  unfold Receipt.transactionReceiptRlpDecode.
  destruct (Receipt.rlpDecodeList item)
    as [|i0 [|i1 [|i2 [|i3 [|i4 rest]]]]]; try (cbn; lia).
  exists i0, i1, i2, i3. split; [done|].
  unfold Receipt.transactionReceiptGetLogsCount,
    Receipt.transactionReceiptGetLog,
    Receipt.transactionReceiptLogsRlpDecode.
  cbn [Receipt.logs]. rewrite length_map. split; [done|].
  intros index. rewrite list_lookup_fmap.
  destruct (index <? length (Receipt.rlpDecodeList i3))%nat eqn:E.
  - apply Nat.ltb_lt in E. split; [done|]. split; [done|]. intros _.
    rewrite fmap_is_Some. by apply lookup_lt_is_Some.
  - apply Nat.ltb_ge in E. rewrite (lookup_ge_None_2 _ _ E). cbn.
    split; [done|]. split; [by intros [? ?]|lia].
Qed.

End TransactionReceiptFacts.

(** ** The further properties on the small wallet *)

Lemma simple_tour_run :
  client_run simple_tour simple_fresh
  = Some (simple_after simple_tour simple_fresh,
          simple_log simple_tour simple_fresh).
Proof. vm_compute. reflexivity. Qed.

(** What the event sink sees of the tour. *)
Example simple_tour_events :
  filter (fun c => is_event c = true)
    (run_callbacks (simple_log simple_tour simple_fresh))
  = [eventCallback SYNC_MANAGER_CONNECTED;
     eventCallback SYNC_MANAGER_SYNC_STARTED;
     eventCallback (SYNC_MANAGER_BLOCK_HEIGHT_UPDATED 300);
     eventCallback (SYNC_MANAGER_SYNC_STOPPED 0);
     eventCallback SYNC_MANAGER_DISCONNECTED;
     eventCallback SYNC_MANAGER_CONNECTED].
Proof. vm_compute. reflexivity. Qed.

Lemma simple_connected_wf : client_wf simple_connected.
Proof. unfold simple_connected. apply simple_after_wf, simple_fresh_wf. Qed.

Lemma simple_s1_wf : client_wf simple_s1.
Proof.
  apply (client_wf_frame simple_fresh); [|reflexivity|reflexivity|].
  - unfold stable. vm_compute.
    split; [reflexivity|]. split; [reflexivity|]. split; discriminate.
  - apply simple_fresh_wf.
Qed.

(** In the tour the sink sees Connected, Disconnected, Connected. *)
Lemma connection_events_alternate_witness :
  ∃ m' log,
    client_run simple_tour simple_fresh = Some (m', log)
    ∧ connection_events (run_callbacks log) = [true; false; true]
    ∧ replay flip_step false (connection_events (run_callbacks log))
      = Some (isConnected m').
Proof.
  destruct (connection_events_alternate _ _ _ _ simple_fresh_wf simple_tour_run)
    as (Hreplay & _ & _).
  eexists _, _. split; [exact simple_tour_run|].
  split; [vm_compute; reflexivity|]. exact Hreplay.
Defined.

(** In the tour the full scan starts once and stops once; the scan after the
    second [connect] is not a full one. *)
Lemma sync_events_alternate_witness :
  ∃ m' log,
    client_run simple_tour simple_fresh = Some (m', log)
    ∧ sync_events (run_callbacks log) = [true; false]
    ∧ replay flip_step false (sync_events (run_callbacks log))
      = Some (BRClientSyncManagerIsInFullScan m').
Proof.
  destruct (sync_events_alternate _ _ _ _ simple_fresh_wf simple_tour_run)
    as (Hreplay & _ & _).
  eexists _, _. split; [exact simple_tour_run|].
  split; [vm_compute; reflexivity|]. exact Hreplay.
Defined.

(** In the tour the one height announced is 300. *)
Lemma announced_heights_increase_witness :
  ∃ m' log,
    client_run simple_tour simple_fresh = Some (m', log)
    ∧ announced_heights (run_callbacks log) = [300]
    ∧ Forall (fun h => 244 < h ≤ networkBlockHeight m')
        (announced_heights (run_callbacks log)).
Proof.
  destruct (announced_heights_increase _ _ _ _ simple_fresh_wf simple_tour_run)
    as (_ & Hbounds & _).
  eexists _, _. split; [exact simple_tour_run|].
  split; [vm_compute; reflexivity|]. exact Hbounds.
Defined.

(** After the run of S2 the scan is in progress, on a connected manager. *)
Lemma constructed_manager_invariants_witness :
  ∃ m m' log,
    BRClientSyncManagerNew simple_params simple_empty_wallet 1500000000 244
    = Some m
    ∧ client_run simple_s2_run m = Some (m', log)
    ∧ isConnected m' = true
    ∧ 0 < requestId (scanState m') ≤ requestIdGenerator m'
    ∧ 0 ≤ begBlockNumber (scanState m') < endBlockNumber (scanState m').
Proof.
  assert (Hnew : BRClientSyncManagerNew simple_params simple_empty_wallet
                   1500000000 244 = Some simple_fresh)
    by (vm_compute; reflexivity).
  assert (Hrun : client_run simple_s2_run simple_fresh
                 = Some (simple_after simple_s2_run simple_fresh,
                         simple_log simple_s2_run simple_fresh))
    by (vm_compute; reflexivity).
  assert (Hb : 0 ≤ 244) by lia.
  destruct (constructed_manager_invariants _ _ _ _ _ _ _ _
              simple_params_wf Hb Hnew Hrun) as (_ & _ & Hbusy & _).
  assert (Hprog : BRClientSyncManagerScanStateIsInProgress
                    (scanState (simple_after simple_s2_run simple_fresh))
                  = true) by (vm_compute; reflexivity).
  apply Hbusy in Hprog. destruct Hprog as (Hc & Hrid & _ & Hwin & _).
  eexists _, _, _. split; [exact Hnew|]. split; [exact Hrun|].
  split; [exact Hc|]. split; [exact Hrid|exact Hwin].
Defined.

(** The manager of S1, before [connect], ignores the timer, the rescans and
    the client. *)
Lemma disconnected_manager_ignores_witness :
  client_run simple_idle_run simple_fresh
  = Some (simple_fresh, map (fun op => (op, [])) simple_idle_run).
Proof.
  apply (disconnected_manager_ignores simple_fresh simple_idle_run).
  - reflexivity.
  - unfold simple_idle_run. repeat constructor.
Defined.

(** The second completion of the tour completes the scan in progress and
    moves the synced height to 244. *)
Lemma syncedBlockHeight_moves_witness :
  ∃ m' t,
    client_step (OpAnnounceGetTransactionsDone 2 1)
      (simple_after simple_s2_run simple_fresh) = Some (m', t)
    ∧ BRClientSyncManagerScanStateIsInProgress
        (scanState (simple_after simple_s2_run simple_fresh)) = true
    ∧ syncedBlockHeight m' = 244
    ∧ scanState m' = BRClientSyncManagerScanStateWipe.
Proof.
  set (m := simple_after simple_s2_run simple_fresh).
  set (m' := simple_after [OpAnnounceGetTransactionsDone 2 1] m).
  assert (Hstep : client_step (OpAnnounceGetTransactionsDone 2 1) m
                  = Some (m', [eventCallback (SYNC_MANAGER_SYNC_STOPPED 0)]))
    by (vm_compute; reflexivity).
  assert (Hwf : client_wf m) by apply simple_after_wf, simple_fresh_wf.
  exists m', [eventCallback (SYNC_MANAGER_SYNC_STOPPED 0)].
  split; [exact Hstep|].
  destruct (syncedBlockHeight_moves _ _ _ _ Hwf Hstep)
    as [Hsame|(_ & [Hop|[[depth Hop]|(rid & success & _ & _ & _ & Hwipe
                                      & [(Hprog & _ & Hsynced)
                                        |(_ & _ & Hsynced)])]])].
  - vm_compute in Hsame. discriminate.
  - discriminate.
  - discriminate.
  - split; [exact Hprog|]. split; [|exact Hwipe]. rewrite Hsynced.
    vm_compute. reflexivity.
  - vm_compute in Hsynced. discriminate.
Defined.

(** S1: [connect] on the new manager. *)
Lemma connect_starts_scan_witness :
  ∃ m' addresses,
    BRClientSyncManagerConnect simple_fresh
    = Some (m', [eventCallback SYNC_MANAGER_CONNECTED; funcGetBlockNumber 1]
                ++ event_if (isFullScan (scanState m'))
                     SYNC_MANAGER_SYNC_STARTED
                ++ [funcGetTransactions addresses
                      (begBlockNumber (scanState m'))
                      (endBlockNumber (scanState m')) 2])
    ∧ isConnected m' = true
    ∧ requestId (scanState m') = 2
    ∧ begBlockNumber (scanState m') ≤ 100 < endBlockNumber (scanState m').
Proof.
  destruct (connect_starts_scan simple_fresh simple_fresh_wf)
    as (m' & addresses & Hrun & Hc & _ & _ & Hcase).
  - vm_compute. reflexivity.
  - intros _. split; [vm_compute; reflexivity|vm_compute; discriminate].
  - assert (Ht : ∀ X : list Callback,
               event_if (negb (isConnected simple_fresh)) SYNC_MANAGER_CONNECTED
               ++ [funcGetBlockNumber (requestIdGenerator simple_fresh + 1)]
               ++ (if requestId (scanState simple_fresh) =? 0 then X else [])
               = [eventCallback SYNC_MANAGER_CONNECTED; funcGetBlockNumber 1]
                 ++ X) by reflexivity.
    rewrite Ht in Hrun.
    change (requestIdGenerator simple_fresh + 2) with 2 in Hrun, Hcase.
    change (requestId (scanState simple_fresh) =? 0) with true in Hcase.
    change (syncedBlockHeight simple_fresh) with 100 in Hcase.
    cbv iota in Hcase. destruct Hcase as [Hrid Hwin].
    exists m', addresses. split; [exact Hrun|]. split; [exact Hc|].
    split; [exact Hrid|exact Hwin].
Defined.

(** S3: [tickTock] during the scan of S1 only asks for the block number. *)
Lemma tickTock_polls_witness :
  ∃ m',
    BRClientSyncManagerTickTock simple_connected
    = Some (m', [funcGetBlockNumber 3])
    ∧ scanState m' = scanState simple_connected
    ∧ syncedBlockHeight m' = 100.
Proof.
  destruct (tickTock_polls simple_connected simple_connected_wf)
    as (m' & t & Hrun & Hsynced & _ & Hcase).
  - vm_compute. reflexivity.
  - vm_compute. reflexivity.
  - intros Hr. vm_compute in Hr. discriminate.
  - assert (Hprog : BRClientSyncManagerScanStateIsInProgress
                      (scanState simple_connected) = true)
      by (vm_compute; reflexivity).
    rewrite Hprog in Hcase. destruct Hcase as (-> & Hscan).
    exists m'. split; [exact Hrun|]. split; [exact Hscan|].
    rewrite Hsynced. vm_compute. reflexivity.
Defined.

(** A rescan at depth medium during the full scan of a manager that knows
    the network height 1000 restarts from the checkpoint at height 100. *)
Lemma scanToDepth_restarts_witness :
  ∃ m',
    client_step (OpScanToDepth SYNC_DEPTH_MEDIUM) (simple_sender 200)
    = Some (m', [eventCallback (SYNC_MANAGER_SYNC_STOPPED (-1));
                 eventCallback SYNC_MANAGER_DISCONNECTED;
                 eventCallback SYNC_MANAGER_CONNECTED;
                 funcGetBlockNumber 3;
                 eventCallback SYNC_MANAGER_SYNC_STARTED;
                 funcGetTransactions (elements simple_known) 100 1001 4])
    ∧ isConnected m' = true
    ∧ requestId (scanState m') = 4
    ∧ syncedBlockHeight m' = 100.
Proof.
  destruct (scanToDepth_restarts (simple_sender 200)
              (OpScanToDepth SYNC_DEPTH_MEDIUM) SYNC_DEPTH_MEDIUM)
    as (m' & addresses & Hrun & Hc & Hrid & _ & _ & _ & _ & Hsynced).
  - by right.
  - unfold simple_sender. apply simple_after_wf, simple_fresh_wf.
  - vm_compute. reflexivity.
  - vm_compute. reflexivity.
  - vm_compute. reflexivity.
  - vm_compute. reflexivity.
  - intros checkpoint Hcp. vm_compute in Hcp. injection Hcp as <-.
    vm_compute. reflexivity.
  - vm_compute. discriminate.
  - assert (Hs : syncedBlockHeight m' = 100).
    { rewrite Hsynced. vm_compute. reflexivity. }
    rewrite Hs in Hrun.
    assert (Hfull : isFullScan (scanState (simple_sender 200)) = true)
      by (vm_compute; reflexivity).
    assert (Hn : networkBlockHeight (simple_sender 200) = 1000)
      by (vm_compute; reflexivity).
    assert (Hg : requestIdGenerator (simple_sender 200) = 2)
      by (vm_compute; reflexivity).
    rewrite Hfull, Hn, Hg in Hrun.
    assert (Heval : snd <$> client_step (OpScanToDepth SYNC_DEPTH_MEDIUM)
                              (simple_sender 200)
                    = Some [eventCallback (SYNC_MANAGER_SYNC_STOPPED (-1));
                            eventCallback SYNC_MANAGER_DISCONNECTED;
                            eventCallback SYNC_MANAGER_CONNECTED;
                            funcGetBlockNumber 3;
                            eventCallback SYNC_MANAGER_SYNC_STARTED;
                            funcGetTransactions (elements simple_known)
                              100 1001 4])
      by (vm_compute; reflexivity).
    rewrite Hrun in Heval. injection Heval as Haddresses.
    rewrite Haddresses in Hrun.
    exists m'. split; [exact Hrun|]. split; [exact Hc|].
    split; [rewrite Hrid, Hg; reflexivity|exact Hs].
Defined.

(** S1: the network is 144 blocks ahead, so the first scan is a full one
    over [100, 245). *)
Lemma syncStarted_when_behind_witness :
  ∃ m' t,
    BRClientSyncManagerUpdateTransactions simple_s1 = Some (m', t)
    ∧ eventCallback SYNC_MANAGER_SYNC_STARTED ∈ t
    ∧ BRClientSyncManagerIsInFullScan m' = true
    ∧ begBlockNumber (scanState m') = 100
    ∧ endBlockNumber (scanState m') = 245.
Proof.
  destruct (syncStarted_when_behind simple_s1 simple_s1_wf)
    as (m' & t & Hrun & Hevent & Hfull & Hwindow & _).
  - reflexivity.
  - reflexivity.
  - vm_compute. reflexivity.
  - vm_compute. reflexivity.
  - vm_compute. discriminate.
  - assert (Hbehind : syncedBlockHeight simple_s1 + 144
                      ≤ networkBlockHeight simple_s1)
      by (vm_compute; discriminate).
    exists m', t. split; [exact Hrun|].
    split; [by apply Hevent|]. split; [by apply Hfull|].
    destruct (Hwindow Hbehind) as [-> ->]. split; reflexivity.
Defined.

(** S1: the first request carries the fifteen addresses of the gap limits. *)
Lemma updateTransactions_asks_every_address_witness :
  ∃ addresses b e rid,
    filter (fun c => negb (is_event c)) (started_callbacks simple_s1)
    = [funcGetTransactions addresses b e rid]
    ∧ NoDup addresses
    ∧ knownAddresses (scanState (started_manager simple_s1))
      = Some (list_to_set addresses).
Proof.
  assert (Hu : BRClientSyncManagerUpdateTransactions simple_s1
               = Some (started_manager simple_s1, started_callbacks simple_s1))
    by (vm_compute; reflexivity).
  destruct (updateTransactions_asks_every_address _ _ _ Hu)
    as (addresses & b & e & rid & Ht & Hnd & _ & Hknown & _).
  - reflexivity.
  - reflexivity.
  - exists addresses, b, e, rid. split; [exact Ht|]. split; [exact Hnd|].
    exact Hknown.
Defined.

(** After the scan of the tour completed, a completion under the id 0 runs
    into the address set that is not allocated. *)
Lemma announceGetTransactionsDone_zero_id_witness :
  BRClientSyncManagerAnnounceGetTransactionsDone
    (simple_after (take 5 simple_tour) simple_fresh) 0 1 = None.
Proof.
  rewrite (announceGetTransactionsDone_zero_id
             (simple_after (take 5 simple_tour) simple_fresh) 1).
  - vm_compute. reflexivity.
  - apply simple_after_wf, simple_fresh_wf.
  - vm_compute. reflexivity.
  - vm_compute. reflexivity.
Defined.

Lemma simple_params_below : checkpoints_below simple_params.
Proof.
  intros h cp. cbn. destruct (h >? 100) eqn:E; [|done].
  intros [= <-]. cbn. apply Z.gtb_lt in E. lia.
Qed.

(** At the end of the tour the synced height is 244 and the network height
    300. *)
Lemma syncedBlockHeight_below_network_witness :
  ∃ m m' log,
    BRClientSyncManagerNew simple_params simple_empty_wallet 1500000000 244
    = Some m
    ∧ client_run simple_tour m = Some (m', log)
    ∧ syncedBlockHeight m' = 244
    ∧ networkBlockHeight m' = 300
    ∧ 0 ≤ syncedBlockHeight m' ≤ networkBlockHeight m'.
Proof.
  assert (Hnew : BRClientSyncManagerNew simple_params simple_empty_wallet
                   1500000000 244 = Some simple_fresh)
    by (vm_compute; reflexivity).
  assert (Hb : 0 ≤ 244) by lia.
  assert (Hops : Forall (fun op => done_rid_nonzero op = true) simple_tour)
    by (unfold simple_tour; repeat constructor).
  destruct (syncedBlockHeight_below_network _ _ _ _ _ _ _ _
              simple_params_wf simple_params_below Hb Hnew Hops simple_tour_run)
    as (_ & Hsynced & _).
  eexists _, _, _. split; [exact Hnew|]. split; [exact simple_tour_run|].
  split; [vm_compute; reflexivity|]. split; [vm_compute; reflexivity|].
  exact Hsynced.
Defined.

(** A token list of two. *)
Example simple_tokens :
  Brd.asTokens simple_tokens_json 5
  = Some [Brd.mkEthToken "0xBRD" "BRD" "BRD token" "Token for BRD" 18
            None None 5;
          Brd.mkEthToken "0xDAI" "DAI" "DAI token" "Token for DAI" 18
            None None 5]
  ∧ Brd.asTokens (simple_tokens_json ++ [None]) 5 = None.
Proof. split; reflexivity. Qed.

Lemma simple_coders_invert : Receipt.coders_invert (H := simple_rlp_ops).
Proof.
  split; [done|]. split; [done|]. split; [|split; [|done]].
  - intros n Hn. cbn. unfold to_uint64. by apply Z.mod_small.
  - intros filter. cbn. rewrite map_map. cbn. apply map_id.
Qed.

(** A receipt with two logs survives the coder. *)
Lemma transactionReceipt_rlp_round_trip_witness :
  Receipt.transactionReceiptRlpDecode
    (Receipt.transactionReceiptRlpEncode simple_receipt)
  = Some simple_receipt.
Proof.
  apply (transactionReceipt_rlp_round_trip simple_receipt).
  - apply simple_coders_invert.
  - vm_compute. split; [discriminate|reflexivity].
Defined.
